(** * vmpay-extraction: incremental sync engine

    A shallow embedding of the Python sources of the repository
    (extract/extract_historical_cashless.py, cloud_function/daily_fetch.py,
    cloud_function/utils/fetch.py, merge/merge_cashless_facts_only.py,
    cloud_function/utils/load_bigquery.py, load/load_to_bigquery.py)
    together with the properties stated about them.

    Conventions.
    - A Python function that performs I/O becomes a computation in the
      state-and-exception monad [M St] below: it receives the state of the
      outside world, returns a value or raises, and hands back the new state.
      Side effects performed before an exception is raised are kept.
    - [while True] loops take a fuel argument; running out of fuel is the
      distinguished result [OutOfFuel], never a value.
    - A [datetime] is the number of microseconds since the epoch (UTC), a
      [timedelta] a number of microseconds. The sums of the chunk planner
      are checked against the range of Python's datetime (years 1 to 9999)
      and raise OverflowError outside of it; the daily sync adds and
      subtracts one day once, which stays in the range for every clock
      reading and every date but the last and the first of the range. *)

From Stdlib Require Import ZArith List Ascii String Bool Lia.
From Stdlib Require Import Sorting.Sorted Sorting.Permutation.
From stdpp Require Import base option list gmap strings.

Import ListNotations.
Local Open Scope string_scope.
Local Open Scope list_scope.
Local Open Scope Z_scope.

(** ** Python effects: exceptions, results, the monad *)

Inductive exn : Type :=
| ConnectionError                 (* requests.exceptions.ConnectionError *)
| HTTPError (status : Z)          (* requests.exceptions.HTTPError *)
| JSONDecodeError                 (* requests.exceptions.JSONDecodeError *)
| RuntimeError (msg : string)
| ValueError (msg : string)
| KeyError (key : string)
| NotFound (table_id : string)    (* google.cloud.exceptions.NotFound *)
| GoogleAPIError (msg : string)   (* any other failure of a warehouse job *)
| OverflowError.                  (* date value out of range *)

Inductive result (A : Type) : Type :=
| Ok (a : A)
| Raise (e : exn)
| OutOfFuel.
Arguments Ok {A} a.
Arguments Raise {A} e.
Arguments OutOfFuel {A}.

Definition M (St A : Type) : Type := St -> result A * St.

Definition ret {St A} (a : A) : M St A := fun s => (Ok a, s).

Definition bind {St A B} (m : M St A) (k : A -> M St B) : M St B :=
  fun s =>
    match m s with
    | (Ok a, s') => k a s'
    | (Raise e, s') => (Raise e, s')
    | (OutOfFuel, s') => (OutOfFuel, s')
    end.

Definition raise {St A} (e : exn) : M St A := fun s => (Raise e, s).

Definition out_of_fuel {St A} : M St A := fun s => (OutOfFuel, s).

(** [try: m  except <handled> as e: h e]; an exception for which [handled]
    is false propagates. *)
Definition try_except {St A} (m : M St A) (handled : exn -> bool)
    (h : exn -> M St A) : M St A :=
  fun s =>
    match m s with
    | (Raise e, s') => if handled e then h e s' else (Raise e, s')
    | r => r
    end.

Definition modify {St} (f : St -> St) : M St unit := fun s => (Ok tt, f s).

Definition gets {St A} (f : St -> A) : M St A := fun s => (Ok (f s), s).

#[global] Instance M_ret {St} : MRet (M St) := @ret St.
#[global] Instance M_bind {St} : MBind (M St) := fun A B k m => bind m k.

(** [for x in xs: body(x)] *)
Fixpoint for_each {St A} (xs : list A) (body : A -> M St unit) : M St unit :=
  match xs with
  | [] => ret tt
  | x :: xs => body x;; for_each xs body
  end.

(** [except RequestException]: the exceptions of the requests library
    (its JSONDecodeError is one of them since requests 2.27). *)
Definition is_RequestException (e : exn) : bool :=
  match e with
  | ConnectionError | HTTPError _ | JSONDecodeError => true
  | _ => false
  end.

(** [except Exception] *)
Definition is_Exception (e : exn) : bool := true.

(** ** Time *)

(** A datetime is a number of microseconds from 1970-01-01T00:00:00 UTC,
    a timedelta a number of microseconds. *)
Definition datetime := Z.
Definition timedelta_days (days : Z) : Z := days * 86400000000.

(** [datetime.min] (0001-01-01T00:00:00) and [datetime.max]
    (9999-12-31T23:59:59.999999). *)
Definition datetime_min : datetime := -62135596800000000.
Definition datetime_max : datetime := 253402300799999999.

(** [timedelta(days=days)]: OverflowError beyond 999999999 days. *)
Definition timedelta (days : Z) : option Z :=
  if Z.abs days <=? 999999999 then Some (timedelta_days days) else None.

(** [dt + td]: OverflowError when the sum is no datetime. *)
Definition datetime_add (dt : datetime) (td : Z) : option datetime :=
  if (datetime_min <=? dt + td) && (dt + td <=? datetime_max)
  then Some (dt + td) else None.

(** [dt.date()] of a UTC datetime, as a day number. *)
Definition date_of (dt : datetime) : Z := dt / 86400000000.

(** ** The HTTP boundary *)

(** The [params] dictionary of a request. The keys the scripts use are
    fixed, so the dictionary is a record of optional entries;
    [access_token] is a process constant and left out. Dates are kept as
    datetimes: their rendering [isoformat() + "Z"] plays no role here. *)
Record params : Type := mkParams {
  start_date : option datetime;
  end_date : option datetime;
  page : option Z;
  per_page : option Z
}.

Definition no_params : params := mkParams None None None None.

Record request : Type := mkRequest {
  url : string;
  req_params : params
}.

(** What the scripts do to the outside world, apart from the warehouse. *)
Inductive event : Type :=
| Get (r : request)
| Sleep (seconds : Z)
| WriteCsv (start_day end_day : Z).

Section Network.

(** One API record; its fields play no role in fetching. *)
Context {record : Type}.

(** What the server does with a request: no answer at all, or a status
    code and a body that is a JSON array of records or not valid JSON. *)
Inductive http_reply : Type :=
| NoReply
| Reply (status : Z) (body : option (list record)).

(** The world seen by the extraction scripts: everything done so far, and
    the chunk files under data/historical_cashless, keyed by the two dates
    of their name cashless_<start date>_to_<end date>.csv. *)
Record world : Type := mkWorld {
  trace : list event;
  files : gmap (Z * Z) (list record)
}.

(** The server may answer differently as time goes on: it sees what
    happened before. *)
Variable server : list event -> request -> http_reply.

Definition log (e : event) : M world unit :=
  modify (fun w => mkWorld (trace w ++ [e]) (files w)).

(** [time.sleep(seconds)] *)
Definition sleep (seconds : Z) : M world unit := log (Sleep seconds).

(** [requests.get(url, params=params)] *)
Definition requests_get (r : request) : M world http_reply :=
  fun w =>
    match server (trace w) r with
    | NoReply => (Raise ConnectionError, mkWorld (trace w ++ [Get r]) (files w))
    | rep => (Ok rep, mkWorld (trace w ++ [Get r]) (files w))
    end.

(** [response.raise_for_status()] *)
Definition raise_for_status (rep : http_reply) : M world unit :=
  match rep with
  | Reply status _ =>
      if (400 <=? status) && (status <? 600) then raise (HTTPError status)
      else ret tt
  | NoReply => ret tt
  end.

(** [response.json()] *)
Definition json (rep : http_reply) : M world (list record) :=
  match rep with
  | Reply _ (Some body) => ret body
  | _ => raise JSONDecodeError
  end.

End Network.

Arguments http_reply : clear implicits.
Arguments world : clear implicits.

(** Python's truth value of a list: [if not data]. *)
Definition is_empty {A} (l : list A) : bool :=
  match l with [] => true | _ => false end.

(** [c in cols] for a list of strings or the keys of a dictionary. *)
Definition contains (c : string) (cols : list string) : bool :=
  existsb (String.eqb c) cols.

(** [d.get(key, {})] and [d.get(key, [])] for a dictionary of collections
    of column names. *)
Fixpoint dict_get (d : list (string * list string)) (key : string)
    : list string :=
  match d with
  | [] => []
  | (k, v) :: d => if String.eqb k key then v else dict_get d key
  end.

(** [s.replace(".", "_")] *)
Fixpoint replace_dots (s : string) : string :=
  match s with
  | EmptyString => EmptyString
  | String c s =>
      String (if Ascii.eqb c "."%char then "_"%char else c) (replace_dots s)
  end.

(** [sep.join(l)] *)
Fixpoint join (sep : string) (l : list string) : string :=
  match l with
  | [] => ""
  | [x] => x
  | x :: l => x +:+ sep +:+ join sep l
  end.

(** [len(data)] *)
Definition len {A} (l : list A) : Z := Z.of_nat (length l).

(** ** cloud_function/utils/fetch.py *)

Module Fetch.
Section Fetch.
Context {record : Type}.
Variable server : list event -> request -> http_reply record.

Definition BASE_URL : string := "https://vmpay.vertitecnologia.com.br/api/v1".

Definition fetch_from_endpoint (endpoint : string) (params : option params)
    : M (world record) (list record) :=
  let params := match params with None => no_params | Some p => p end in
  response ← requests_get server (mkRequest (BASE_URL +:+ "/" +:+ endpoint) params);
  raise_for_status response;;
  json response.

End Fetch.
End Fetch.

(** ** extract/extract_historical_cashless.py *)

Module Historical.
Section Historical.
Context {record : Type}.
Variable server : list event -> request -> http_reply record.

Definition BASE_URL : string :=
  "https://vmpay.vertitecnologia.com.br/api/v1/cashless_facts".

(** The body of [for attempt in range(3)], for the attempts still to come. *)
Fixpoint fetch_attempts (attempts : list Z) (r : request)
    : M (world record) (list record) :=
  match attempts with
  | [] => raise (RuntimeError "Failed to fetch after 3 attempts")
  | attempt :: rest =>
      try_except
        (response ← requests_get server r;
         raise_for_status response;;
         json response)
        is_RequestException
        (fun _ => sleep (2 ^ attempt);; fetch_attempts rest r)
  end.

Definition fetch_cashless_data (start_date end_date : datetime)
    (page per_page : Z) : M (world record) (list record) :=
  let params :=
    mkParams (Some start_date) (Some end_date) (Some page) (Some per_page) in
  fetch_attempts [0; 1; 2] (mkRequest BASE_URL params).

(** The [while True] loop of [extract_range]. *)
Fixpoint extract_range_loop (fuel : nat) (start_date end_date : datetime)
    (page : Z) (all_data : list record) : M (world record) (list record) :=
  match fuel with
  | O => out_of_fuel
  | S fuel =>
      data ← fetch_cashless_data start_date end_date page 100;
      if is_empty data then ret all_data
      else
        let all_data := all_data ++ data in
        if len data <? 100 then ret all_data
        else
          sleep 1;;
          extract_range_loop fuel start_date end_date (page + 1) all_data
  end.

Definition extract_range (fuel : nat) (start_date end_date : datetime)
    : M (world record) (list record) :=
  extract_range_loop fuel start_date end_date 1 [].

(** [os.path.exists(filename)] for the file of a chunk. *)
Definition os_path_exists (filename : Z * Z) : M (world record) bool :=
  gets (fun w => bool_decide (is_Some (files w !! filename))).

(** The file name of a chunk is built from the dates of its bounds:
    cashless_<start_date.date()>_to_<end_date.date()>.csv *)
Definition chunk_filename (start_date end_date : datetime) : Z * Z :=
  (date_of start_date, date_of end_date).

Definition save_data_as_csv (data : list record)
    (start_date end_date : datetime) : M (world record) unit :=
  if is_empty data then ret tt
  else
    let filename := chunk_filename start_date end_date in
    modify (fun w =>
      mkWorld (trace w ++ [WriteCsv (fst filename) (snd filename)])
              (<[filename := data]> (files w))).

(** [generate_date_ranges]: the windows the generator yields, in order,
    and how it ends: it returns, or the addition of the step raises
    OverflowError. The sum [current + timedelta(days=step_days)] is
    computed before each yield; the same sum after the yield cannot
    fail. *)
Fixpoint generate_date_ranges (fuel : nat) (current end_ : datetime)
    (step_days : Z) : option (list (datetime * datetime) * option exn) :=
  match fuel with
  | O => None
  | S fuel =>
      if current <? end_ then
        match td ← timedelta step_days; datetime_add current td with
        | None => Some ([], Some OverflowError)
        | Some next =>
            match generate_date_ranges fuel next end_ step_days with
            | None => None
            | Some (rest, ending) =>
                Some ((current, Z.min next end_) :: rest, ending)
            end
        end
      else Some ([], None)
  end.

(** The body of the [for] loop of the script for one window; [continue]
    ends it early. *)
Definition backfill_chunk (fuel : nat) (start_date end_date : datetime)
    : M (world record) unit :=
  present ← os_path_exists (chunk_filename start_date end_date);
  if (present : bool) then ret tt
  else
    data ← extract_range fuel start_date end_date;
    save_data_as_csv data start_date end_date;;
    sleep 1.

(** The [for] loop, over the windows to come. *)
Fixpoint backfill_loop (fuel : nat) (windows : list (datetime * datetime))
    : M (world record) unit :=
  match windows with
  | [] => ret tt
  | (start_date, end_date) :: windows =>
      backfill_chunk fuel start_date end_date;;
      backfill_loop fuel windows
  end.

(** [datetime(2024, 1, 1, tzinfo=timezone.utc)] *)
Definition START : datetime := 1704067200000000.

(** The script itself; [now] is what [datetime.now(timezone.utc)] returns. *)
Definition main (fuel : nat) (now : datetime) : M (world record) unit :=
  match generate_date_ranges fuel START now 7 with
  | None => out_of_fuel
  | Some (windows, ending) =>
      backfill_loop fuel windows;;
      match ending with
      | None => ret tt
      | Some e => raise e
      end
  end.

End Historical.
End Historical.

(** ** cloud_function/daily_fetch.py: the paginated fetch *)

Module DailyFetch.
Section DailyFetch.
Context {record : Type}.
Variable server : list event -> request -> http_reply record.

Fixpoint fetch_cashless_data_loop (fuel : nat) (start_date end_date : datetime)
    (page : Z) (all_data : list record) : M (world record) (list record) :=
  match fuel with
  | O => out_of_fuel
  | S fuel =>
      let params :=
        mkParams (Some start_date) (Some end_date) (Some page) (Some 100) in
      data ← Fetch.fetch_from_endpoint server "cashless_facts" (Some params);
      if is_empty data then ret all_data
      else
        let all_data := all_data ++ data in
        if len data <? 100 then ret all_data
        else
          sleep 1;;
          fetch_cashless_data_loop fuel start_date end_date (page + 1) all_data
  end.

Definition fetch_cashless_data (fuel : nat) (start_date end_date : datetime)
    : M (world record) (list record) :=
  fetch_cashless_data_loop fuel start_date end_date 1 [].

(** [datetime.fromisoformat], a library function: the date and time a
    string denotes, read as UTC ([.replace(tzinfo=timezone.utc)]), or
    nothing when it raises ValueError. *)
Variable fromisoformat : string -> option datetime.

(** The truth value of a string. *)
Definition truthy (s : string) : bool := negb (String.eqb s "").

(** The first statements of [main]: the window of the sync. [now] is what
    [datetime.now(timezone.utc)] returns; [date_arg] is [None] or a string. *)
Definition sync_window (now : datetime) (date_arg : option string)
    : M (world record) (datetime * datetime) :=
  start ←
    match date_arg with
    | Some s =>
        if truthy s then
          match fromisoformat s with
          | Some d => ret d
          | None => raise (ValueError "Invalid isoformat string")
          end
        else ret (now - timedelta_days 1)
    | None => ret (now - timedelta_days 1)
    end;
  let end_ := start + timedelta_days 1 in
  ret (start, end_).

(** [main]. What follows the fetch (the upload of the batch and the update
    of the auxiliary tables, which act on the warehouse) is the
    continuation [upload]. *)
Definition main (fuel : nat) (now : datetime) (date_arg : option string)
    (upload : list record -> M (world record) unit) : M (world record) unit :=
  try_except
    (window ← sync_window now date_arg;
     cashless_data ← fetch_cashless_data fuel (fst window) (snd window);
     upload cashless_data)
    is_Exception
    (fun e => raise e).

End DailyFetch.
End DailyFetch.


(** ** merge/merge_cashless_facts_only.py *)

(** A row of a table read from a CSV file: the cells with the names of
    their columns, in the order of the columns; a column without a cell
    in the row holds NaN. *)
Definition row : Type := list (string * string).

Fixpoint row_get (c : string) (r : row) : option string :=
  match r with
  | [] => None
  | (k, v) :: r => if String.eqb k c then Some v else row_get c r
  end.

#[global] Instance row_lookup : Lookup string string row := row_get.

Record DataFrame : Type := mkDataFrame {
  columns : list string;
  rows : list row
}.

Module Consolidate.

(** The columns of [cols] that are not yet in [acc], added to [acc]. *)
Fixpoint union_columns (acc cols : list string) : list string :=
  match cols with
  | [] => acc
  | c :: cols =>
      if contains c acc then union_columns acc cols
      else union_columns (acc ++ [c]) cols
  end.

(** [pd.concat(df_list, ignore_index=True)]: the columns of all frames, in
    order of first appearance, and the rows of all frames, in order. *)
Definition pd_concat (df_list : list DataFrame) : result DataFrame :=
  match df_list with
  | [] => Raise (ValueError "No objects to concatenate")
  | _ =>
      Ok (mkDataFrame (fold_left union_columns (map columns df_list) [])
                      (concat (map rows df_list)))
  end.

Definition rename_column (old new : string) (c : string) : string :=
  if String.eqb c old then new else c.

Definition rename_row (old new : string) (r : row) : row :=
  map (fun cell => (rename_column old new (fst cell), snd cell)) r.

(** [df.rename(columns={old: new})] *)
Definition rename (old new : string) (df : DataFrame) : DataFrame :=
  mkDataFrame
    (map (rename_column old new) (columns df))
    (map (rename_row old new) (rows df)).

(** The order of [sort_values] on a column of strings: strings by code
    points, NaN after every string ([na_position="last"]). *)
Definition recency_le (a b : option string) : bool :=
  match a, b with
  | _, None => true
  | None, Some _ => false
  | Some x, Some y => String.leb x y
  end.

(** What [sort_values(by=...)] promises of its result: the same rows,
    ascending. The sort is pandas' default, kind="quicksort", which is not
    stable: the order among rows with equal keys is not promised. *)
Definition sort_values_ok (sort_values : list row -> list row)
    (by_ : string) (l : list row) : Prop :=
  Permutation (sort_values l) l /\
  StronglySorted (fun r1 r2 => recency_le (r1 !! by_) (r2 !! by_) = true)
                 (sort_values l).

(** [duplicated(subset=[subset], keep="last")] of a row followed by [rest]. *)
Definition duplicated_last (subset : string) (r : row) (rest : list row) : bool :=
  existsb (fun r' => bool_decide (r' !! subset = r !! subset)) rest.

(** [drop_duplicates(subset=[subset], keep="last")] on the rows. *)
Fixpoint drop_duplicates_last (subset : string) (l : list row) : list row :=
  match l with
  | [] => []
  | r :: rest =>
      if duplicated_last subset r rest then drop_duplicates_last subset rest
      else r :: drop_duplicates_last subset rest
  end.

(** The script, from the frames read from the chunk files to the frame
    written to the output file. [sort_values] is the sort that pandas
    runs. *)
Definition consolidate (sort_values : list row -> list row)
    (df_list : list DataFrame) : result DataFrame :=
  match pd_concat df_list with
  | Ok combined =>
      let combined := rename "id" "transaction_id" combined in
      if negb (contains "occurred_at" (columns combined)) then
        Raise (ValueError "'occurred_at' column is required for sorting")
      else
        let combined :=
          mkDataFrame (columns combined) (sort_values (rows combined)) in
        if negb (contains "transaction_id" (columns combined)) then
          Raise (KeyError "transaction_id")
        else
          Ok (mkDataFrame (columns combined)
                (drop_duplicates_last "transaction_id" (rows combined)))
  | Raise e => Raise e
  | OutOfFuel => OutOfFuel
  end.

(** The number the script prints: "Dropped ... duplicates". *)
Definition dropped (before after : DataFrame) : Z :=
  len (rows before) - len (rows after).

End Consolidate.

(** ** Tables with typed columns, and the warehouse *)

(** The dtypes that the schema builders tell apart. *)
Inductive dtype : Type := int64 | float64 | bool_ | datetime64 | object.

Definition is_integer_dtype (d : dtype) : bool :=
  match d with int64 => true | _ => false end.
Definition is_float_dtype (d : dtype) : bool :=
  match d with float64 => true | _ => false end.
Definition is_bool_dtype (d : dtype) : bool :=
  match d with bool_ => true | _ => false end.
Definition is_datetime64_any_dtype (d : dtype) : bool :=
  match d with datetime64 => true | _ => false end.

Inductive field_type : Type :=
| STRING | INTEGER | FLOAT | FLOAT64 | BOOLEAN | TIMESTAMP.

(** [bigquery.SchemaField(name, field_type)] *)
Record SchemaField : Type := mkSchemaField {
  field_name : string;
  field_kind : field_type
}.

(** A column of a DataFrame. Wherever a column is addressed by its name,
    the names of the columns of a frame are taken to be pairwise
    different. *)
Record Series (cell : Type) : Type := mkSeries {
  s_name : string;
  s_dtype : dtype;
  s_values : list cell
}.
Arguments mkSeries {cell}.
Arguments s_name {cell}.
Arguments s_dtype {cell}.
Arguments s_values {cell}.

Definition Frame (cell : Type) : Type := list (Series cell).

(** [df.columns] *)
Definition column_names {cell} (df : Frame cell) : list string :=
  map s_name df.

(** [df[c] = f(df[c])] *)
Definition update_column {cell} (c : string)
    (f : Series cell -> Series cell) (df : Frame cell) : Frame cell :=
  map (fun s => if String.eqb (s_name s) c then f s else s) df.

(** The functions of pandas that work on the cells of a column; those
    that the scripts call inside [try] may fail. *)
Class Pandas (cell : Type) : Type := {
  (* pd.to_datetime(s, errors="coerce"): the dtype and the values; the
     dtype is datetime64, or object when the values do not fit one
     datetime64 column (timestamps with different UTC offsets) *)
  to_datetime : list cell -> dtype * list cell;
  (* s.fillna("").astype(str) *)
  fillna_astype_str : list cell -> list cell;
  (* pd.to_numeric(s, errors="coerce"): the dtype and the values *)
  to_numeric : list cell -> option (dtype * list cell);
  (* s.apply(...) for the tags column *)
  join_tags : list cell -> option (list cell);
  (* s.apply(convert_additional_barcodes_cf) *)
  convert_additional_barcodes : list cell -> option (list cell);
  (* s.dropna().astype(str).str.match(<ISO timestamp>).all()
     and not s.dropna().empty *)
  all_iso_timestamps : list cell -> bool
}.

(** The calls that reach the warehouse. *)
Inductive call : Type :=
| GetTable (table_id : string)
| CreateTable (table_id : string) (schema : list SchemaField)
| LoadTable (table_id : string) (schema : list SchemaField)
| Query (sql : string)
| DeleteTable (table_id : string).

(** The BigQuery client, over a warehouse in state [W]: each method takes
    the warehouse from one state to the next and returns or raises. *)
Class Client (cell W : Type) : Type := {
  (* client.get_table(table_id) *)
  get_table : string -> M W unit;
  (* client.create_table(bigquery.Table(table_id, schema=schema)) *)
  create_table : string -> list SchemaField -> M W unit;
  (* client.load_table_from_dataframe(df, table_id, job_config).result()
     with write_disposition="WRITE_TRUNCATE" *)
  load_table_from_dataframe :
    Frame cell -> string -> list SchemaField -> M W unit;
  (* client.query(sql) followed by .result() *)
  query : string -> M W unit;
  (* client.delete_table(table_id, not_found_ok=True) *)
  delete_table : string -> M W unit
}.

(** What a run has done to the warehouse: the calls made, each with the
    way it ended, and the state of the warehouse. *)
Record session (W : Type) : Type := mkSession {
  calls : list (call * result unit);
  warehouse : W
}.
Arguments mkSession {W}.
Arguments calls {W}.
Arguments warehouse {W}.

Definition outcome_of {A} (r : result A) : result unit :=
  match r with
  | Ok _ => Ok tt
  | Raise e => Raise e
  | OutOfFuel => OutOfFuel
  end.

(** A call of a method of the client, recorded. *)
Definition invoke {W A} (c : call) (method : M W A) : M (session W) A :=
  fun s =>
    let (r, w) := method (warehouse s) in
    (r, mkSession (calls s ++ [(c, outcome_of r)]) w).

Definition is_NotFound (e : exn) : bool :=
  match e with NotFound _ => true | _ => false end.

(** The line feed. *)
Definition LF : string := String (Ascii.ascii_of_nat 10) "".

(** ** cloud_function/utils/load_bigquery.py *)

Module LoadBigQuery.

(** [TABLE_STRING_COLUMNS_CF]: the keys of the dictionary of each table. *)
Definition TABLE_STRING_COLUMNS_CF : list (string * list string) :=
  [("products",
    [
     "id"; "type"; "manufacturer_id"; "category_id"; "supply_category_id";
     "name"; "upc_code"; "barcode"; "external_id"; "image"; "tags";
     "additional_barcodes"; "ncm_code"; "cest_code"; "url"; "inventories";
     "packing_id"; "packing_name"]);
   ("categories",
    ["id"; "name"]);
   ("clients",
    [
     "id"; "name"; "corporate_name"; "cpf"; "cnpj"; "nif"; "contact_name";
     "contact_phone"; "contact_email"; "notes"; "legal_type";
     "main_location_id"]);
   ("locations",
    [
     "id"; "client_id"; "name"; "phone"; "street"; "number"; "complement";
     "neighborhood"; "city"; "country"; "state"; "zip_code"]);
   ("manufacturers",
    ["id"; "name"]);
   ("cashless",
    [
     "transaction_id"; "point_of_sale"; "kind"; "status"; "installation_id";
     "planogram_item_id"; "equipment_id"; "equipment_label_number";
     "equipment_serial_number"; "masked_card_number";
     "issuer_authorization_code"; "order_id"; "cancel_reason_detailed";
     "physical_locator"; "place"; "planogram_item";
     "cashless_error_friendly"; "client_id"; "client_name"; "location_id";
     "location_name"; "machine_id"; "machine_asset_number";
     "machine_model_id"; "machine_model_name"; "good_id"; "good_type";
     "good_category_id"; "good_manufacturer_id"; "good_name";
     "good_upc_code"; "good_barcode"; "eft_provider_id"; "eft_provider_name";
     "eft_authorizer_id"; "eft_authorizer_name"; "eft_card_brand_id";
     "eft_card_brand_name"; "eft_card_type_id"; "eft_card_type_name";
     "cashless_error_complete_description"; "payment_authorizer_id";
     "payment_authorizer_name"; "combo_items"])].

(** [TABLE_DATE_COLUMNS_CF] *)
Definition TABLE_DATE_COLUMNS_CF : list (string * list string) :=
  [("products",
    ["created_at"; "updated_at"]);
   ("cashless",
    ["occurred_at"])].

(** [NUMERIC_COLUMNS_CF] *)
Definition NUMERIC_COLUMNS_CF : list string :=
  [
   "request_number"; "cost_price"; "quantity"; "value"; "discount_value";
   "weight"; "default_price"; "vendible_balance"; "packing_quantity"].

Section LoadBigQuery.
Context {cell W : Type} {pandas : Pandas cell} {client : Client cell W}.

(** The value of the environment variable BIGQUERY_DATASET_ID. *)
Variable DATASET_ID : string.

Definition sanitize_columns (df : Frame cell) : Frame cell :=
  map (fun s => mkSeries (replace_dots (s_name s)) (s_dtype s) (s_values s)) df.

Definition create_table_if_not_exists (table_id : string)
    (schema : list SchemaField) : M (session W) unit :=
  try_except
    (invoke (GetTable table_id) (get_table table_id))
    is_NotFound
    (fun _ =>
       invoke (CreateTable table_id schema) (create_table table_id schema)).

(** The type of one column in [build_bq_schema_cf]. *)
Definition field_type_cf (table_name : string) (s : Series cell) : field_type :=
  let string_cols_for_table := dict_get TABLE_STRING_COLUMNS_CF table_name in
  let date_cols_for_table := dict_get TABLE_DATE_COLUMNS_CF table_name in
  let column_name := s_name s in
  if contains column_name string_cols_for_table then STRING
  else if contains column_name date_cols_for_table then
    if is_datetime64_any_dtype (s_dtype s) then TIMESTAMP else STRING
  else if contains column_name NUMERIC_COLUMNS_CF then
    if is_integer_dtype (s_dtype s) then INTEGER
    else if is_float_dtype (s_dtype s) then FLOAT
    else FLOAT
  else
    let current_dtype := s_dtype s in
    if is_integer_dtype current_dtype then INTEGER
    else if is_float_dtype current_dtype then FLOAT
    else if is_bool_dtype current_dtype then BOOLEAN
    else if is_datetime64_any_dtype current_dtype then TIMESTAMP
    else STRING.

Definition build_bq_schema_cf (df : Frame cell) (table_name : string)
    : list SchemaField :=
  map (fun s => mkSchemaField (s_name s) (field_type_cf table_name s)) df.

(** Steps 2 to 5 of the upload, on the sanitized frame. *)
Definition convert_dates (table_name : string) (df : Frame cell) : Frame cell :=
  fold_left
    (fun df date_col =>
       if contains date_col (column_names df) then
         update_column date_col
           (fun s => let (d, v) := to_datetime (s_values s) in
                     mkSeries (s_name s) d v)
           df
       else df)
    (dict_get TABLE_DATE_COLUMNS_CF table_name) df.

Definition convert_strings (table_name : string) (df : Frame cell) : Frame cell :=
  fold_left
    (fun df str_col_name =>
       if contains str_col_name (column_names df) then
         update_column str_col_name
           (fun s => mkSeries (s_name s) object (fillna_astype_str (s_values s)))
           df
       else df)
    (dict_get TABLE_STRING_COLUMNS_CF table_name) df.

Definition convert_structured (table_name : string) (df : Frame cell)
    : Frame cell :=
  let string_cols_for_this_table :=
    dict_get TABLE_STRING_COLUMNS_CF table_name in
  let df :=
    if contains "tags" (column_names df)
       && contains "tags" string_cols_for_this_table
    then
      update_column "tags"
        (fun s => match join_tags (s_values s) with
                  | Some v => mkSeries (s_name s) object v
                  | None => s
                  end) df
    else df in
  if contains "additional_barcodes" (column_names df)
     && contains "additional_barcodes" string_cols_for_this_table
  then
    update_column "additional_barcodes"
      (fun s => match convert_additional_barcodes (s_values s) with
                | Some v => mkSeries (s_name s) object v
                | None => s
                end) df
  else df.

Definition convert_numbers (table_name : string) (df : Frame cell)
    : Frame cell :=
  let string_cols_for_this_table :=
    dict_get TABLE_STRING_COLUMNS_CF table_name in
  let date_cols_for_this_table := dict_get TABLE_DATE_COLUMNS_CF table_name in
  fold_left
    (fun df num_col =>
       if contains num_col (column_names df)
          && negb (contains num_col string_cols_for_this_table)
          && negb (contains num_col date_cols_for_this_table)
       then
         update_column num_col
           (fun s => match to_numeric (s_values s) with
                     | Some (d, v) => mkSeries (s_name s) d v
                     | None => s
                     end) df
       else df)
    NUMERIC_COLUMNS_CF df.

(** The MERGE statement. *)
Definition merge_sql (final_table_id temp_table_id id_column : string)
    (cols : list string) : string :=
  let set_clause_parts :=
    map (fun c => "T.`" +:+ c +:+ "` = S.`" +:+ c +:+ "`")
        (filter (fun c => c <> id_column) cols) in
  let set_clause := join ("," +:+ LF +:+ "        ") set_clause_parts in
  let insert_columns := join ", " (map (fun c => "`" +:+ c +:+ "`") cols) in
  let insert_values := join ", " (map (fun c => "S.`" +:+ c +:+ "`") cols) in
  LF +:+ "    MERGE `" +:+ final_table_id +:+ "` T" +:+ LF +:+
  "    USING `" +:+ temp_table_id +:+ "` S" +:+ LF +:+
  "    ON T.`" +:+ id_column +:+ "` = S.`" +:+ id_column +:+ "`" +:+ LF +:+
  "    WHEN MATCHED THEN" +:+ LF +:+
  "      UPDATE SET " +:+ set_clause +:+ LF +:+
  "    WHEN NOT MATCHED THEN" +:+ LF +:+
  "      INSERT (" +:+ insert_columns +:+ ")" +:+ LF +:+
  "      VALUES (" +:+ insert_values +:+ ")" +:+ LF +:+ "    ".

Definition upload_dataframe_to_bigquery (df : Frame cell)
    (table_name id_column : string) : M (session W) unit :=
  let df := sanitize_columns df in
  let id_column := replace_dots id_column in
  let df := convert_dates table_name df in
  let df := convert_strings table_name df in
  let df := convert_structured table_name df in
  let df := convert_numbers table_name df in
  if negb (contains id_column (column_names df)) then
    raise (ValueError "ID column not found in DataFrame")
  else
    let temp_table_id := DATASET_ID +:+ ".temp_" +:+ table_name in
    let final_table_id := DATASET_ID +:+ "." +:+ table_name in
    let bq_schema := build_bq_schema_cf df table_name in
    create_table_if_not_exists final_table_id bq_schema;;
    invoke (LoadTable temp_table_id bq_schema)
      (load_table_from_dataframe df temp_table_id bq_schema);;
    let merge_sql :=
      merge_sql final_table_id temp_table_id id_column (column_names df) in
    try_except
      (invoke (Query merge_sql) (query merge_sql))
      is_Exception
      (fun e => raise e);;
    invoke (DeleteTable temp_table_id) (delete_table temp_table_id).

End LoadBigQuery.
End LoadBigQuery.

(** ** load/load_to_bigquery.py *)

Module LoadToBigQuery.

(** [TABLE_STRING_COLUMNS]: the keys of the dictionary of each table. *)
Definition TABLE_STRING_COLUMNS : list (string * list string) :=
  [("categories",
    ["id"; "name"]);
   ("clients",
    [
     "id"; "name"; "corporate_name"; "cpf"; "cnpj"; "nif"; "contact_name";
     "contact_phone"; "contact_email"; "notes"; "legal_type";
     "main_location_id"]);
   ("locations",
    [
     "id"; "client_id"; "name"; "phone"; "street"; "number"; "complement";
     "neighborhood"; "city"; "country"; "state"; "zip_code"]);
   ("manufacturers",
    ["id"; "name"]);
   ("products",
    [
     "id"; "type"; "manufacturer_id"; "category_id"; "supply_category_id";
     "name"; "upc_code"; "barcode"; "external_id"; "image"; "tags";
     "additional_barcodes"; "ncm_code"; "cest_code"; "url"; "inventories";
     "packing_id"; "packing_name"]);
   ("cashless",
    [
     "transaction_id"; "point_of_sale"; "kind"; "status"; "installation_id";
     "planogram_item_id"; "equipment_id"; "equipment_label_number";
     "equipment_serial_number"; "masked_card_number";
     "issuer_authorization_code"; "order_id"; "cancel_reason_detailed";
     "physical_locator"; "place"; "planogram_item";
     "cashless_error_friendly"; "client_id"; "client_name"; "location_id";
     "location_name"; "machine_id"; "machine_asset_number";
     "machine_model_id"; "machine_model_name"; "good_id"; "good_type";
     "good_category_id"; "good_manufacturer_id"; "good_name";
     "good_upc_code"; "good_barcode"; "eft_provider_id"; "eft_provider_name";
     "eft_authorizer_id"; "eft_authorizer_name"; "eft_card_brand_id";
     "eft_card_brand_name"; "eft_card_type_id"; "eft_card_type_name";
     "cashless_error_complete_description"; "payment_authorizer_id";
     "payment_authorizer_name"])].

(** [TABLE_NUMERIC_COLUMNS] *)
Definition TABLE_NUMERIC_COLUMNS : list (string * list string) :=
  [("products",
    [
     "weight"; "cost_price"; "default_price"; "vendible_balance";
     "packing_quantity"]);
   ("locations",
    ["latitude"; "longitude"]);
   ("cashless",
    [
     "number_of_payments"; "quantity"; "value"; "discount_value";
     "cost_price"; "request_number"])].

(** [TABLE_DATE_COLUMNS] *)
Definition TABLE_DATE_COLUMNS : list (string * list string) :=
  [("products",
    ["created_at"; "updated_at"]);
   ("cashless",
    ["occurred_at"])].

Section LoadToBigQuery.
Context {cell W : Type} {pandas : Pandas cell} {client : Client cell W}.

(** The value of the environment variable BIGQUERY_DATASET_ID. *)
Variable DATASET_ID : string.

Definition sanitize_columns (df : Frame cell) : Frame cell :=
  map (fun s => mkSeries (replace_dots (s_name s)) (s_dtype s) (s_values s)) df.

(** The type of one column in [build_bq_schema]. *)
Definition field_type_of (table_name : string) (s : Series cell) : field_type :=
  let string_cols_for_table := dict_get TABLE_STRING_COLUMNS table_name in
  let numeric_cols_for_table := dict_get TABLE_NUMERIC_COLUMNS table_name in
  let column_name := s_name s in
  if contains column_name string_cols_for_table then STRING
  else if contains column_name numeric_cols_for_table then FLOAT64
  else
    let current_dtype := s_dtype s in
    if is_integer_dtype current_dtype then INTEGER
    else if is_float_dtype current_dtype then FLOAT64
    else if is_bool_dtype current_dtype then BOOLEAN
    else if is_datetime64_any_dtype current_dtype
            || all_iso_timestamps (s_values s) then TIMESTAMP
    else STRING.

Definition build_bq_schema (df : Frame cell) (table_name : string)
    : list SchemaField :=
  map (fun s => mkSchemaField (s_name s) (field_type_of table_name s)) df.

Definition create_table_if_not_exists (table_id : string)
    (schema : list SchemaField) : M (session W) unit :=
  try_except
    (invoke (GetTable table_id) (get_table table_id))
    is_NotFound
    (fun _ =>
       invoke (CreateTable table_id schema) (create_table table_id schema)).

Definition convert_strings (table_name : string) (df : Frame cell) : Frame cell :=
  fold_left
    (fun df col_name_final =>
       if contains col_name_final (column_names df) then
         update_column col_name_final
           (fun s => mkSeries (s_name s) object (fillna_astype_str (s_values s)))
           df
       else df)
    (dict_get TABLE_STRING_COLUMNS table_name) df.

(** The MERGE statement. *)
Definition merge_sql (final_table_id temp_table_id id_column : string)
    (cols : list string) : string :=
  let set_clause_parts :=
    map (fun c => "T.`" +:+ c +:+ "` = S.`" +:+ c +:+ "`")
        (filter (fun c => c <> id_column) cols) in
  let set_clause := join ("," +:+ LF +:+ "        ") set_clause_parts in
  let insert_columns := join ", " (map (fun c => "`" +:+ c +:+ "`") cols) in
  let insert_values := join ", " (map (fun c => "S.`" +:+ c +:+ "`") cols) in
  LF +:+ "    MERGE `" +:+ final_table_id +:+ "` T" +:+ LF +:+
  "    USING `" +:+ temp_table_id +:+ "` S" +:+ LF +:+
  "    ON T.`" +:+ id_column +:+ "` = S.`" +:+ id_column +:+ "`" +:+ LF +:+
  "    WHEN MATCHED THEN" +:+ LF +:+
  "      UPDATE SET" +:+ LF +:+
  "        " +:+ set_clause +:+ LF +:+
  "    WHEN NOT MATCHED THEN" +:+ LF +:+
  "      INSERT (" +:+ insert_columns +:+ ")" +:+ LF +:+
  "      VALUES (" +:+ insert_values +:+ ")" +:+ LF +:+ "    ".

(** [upload_and_merge_table]; [csv] is the frame that [pd.read_csv] makes
    of the file at [csv_path]. *)
Definition upload_and_merge_table (table_name : string) (csv : Frame cell)
    (id_column : string) : M (session W) unit :=
  let temp_table_id := DATASET_ID +:+ ".temp_" +:+ table_name in
  let final_table_id := DATASET_ID +:+ "." +:+ table_name in
  let df := csv in
  let df := sanitize_columns df in
  let df := convert_strings table_name df in
  if negb (contains id_column (column_names df)) then
    raise (ValueError "ID column not found in DataFrame")
  else
    let bq_schema := build_bq_schema df table_name in
    create_table_if_not_exists final_table_id bq_schema;;
    invoke (LoadTable temp_table_id bq_schema)
      (load_table_from_dataframe df temp_table_id bq_schema);;
    let merge_sql :=
      merge_sql final_table_id temp_table_id id_column (column_names df) in
    try_except
      (invoke (Query merge_sql) (query merge_sql))
      is_Exception
      (fun e => raise e);;
    invoke (DeleteTable temp_table_id) (delete_table temp_table_id).

(** The tables of [upload_all_tables_v2], each with the path of its CSV
    file and its id column, in the order of the dictionary. *)
Definition tables_to_upload : list (string * (string * string)) :=
  [("products", ("data/raw_csv_outputs/products.csv", "id"));
   ("categories", ("data/raw_csv_outputs/categories.csv", "id"));
   ("manufacturers", ("data/raw_csv_outputs/manufacturers.csv", "id"));
   ("locations", ("data/raw_csv_outputs/locations.csv", "id"));
   ("clients", ("data/raw_csv_outputs/clients.csv", "id"));
   ("cashless", ("data/cashless_facts_full.csv", "transaction_id"))].

(** The CSV files: [fs path] is nothing when [os.path.exists(path)] is
    false; otherwise it is what [pd.read_csv] does with the file at
    [path], read with the dtypes and the date columns of its table: it
    raises, or it returns a frame. The read is the first statement of
    [upload_and_merge_table], inside the [try] of the loop. *)
Definition process_table (fs : string -> option (exn + Frame cell))
    (entry : string * (string * string)) : M (session W) unit :=
  let '(table_name, (path, id_column)) := entry in
  match fs path with
  | None => ret tt
  | Some read =>
      try_except
        (match read with
         | inl e => raise e
         | inr csv => upload_and_merge_table table_name csv id_column
         end)
        is_Exception
        (fun _ => ret tt)
  end.

(** [upload_all_tables_v2]; [process_table] is the body of its loop. *)
Definition upload_all_tables_v2 (fs : string -> option (exn + Frame cell))
    : M (session W) unit :=
  for_each tables_to_upload (process_table fs).

End LoadToBigQuery.
End LoadToBigQuery.

(** ** cloud_function/daily_fetch.py: the whole job *)

(** The daily job acts on the API and on the warehouse. *)
Record cloud (record W : Type) : Type := mkCloud {
  net : world record;
  bq : session W
}.
Arguments mkCloud {record W}.
Arguments net {record W}.
Arguments bq {record W}.

(** A computation on the API side, and one on the warehouse, within the
    job. *)
Definition on_net {record W A} (m : M (world record) A)
    : M (cloud record W) A :=
  fun s => let (r, n) := m (net s) in (r, mkCloud n (bq s)).

Definition on_bq {record W A} (m : M (session W) A) : M (cloud record W) A :=
  fun s => let (r, b) := m (bq s) in (r, mkCloud (net s) b).

(** [df.rename(columns={old: new})] for a batch. *)
Definition rename_columns {cell} (old new : string) (df : Frame cell)
    : Frame cell :=
  map (fun s => if String.eqb (s_name s) old
                then mkSeries new (s_dtype s) (s_values s) else s) df.

Module DailyJob.
Section DailyJob.
Context {record cell W : Type} {pandas : Pandas cell} {client : Client cell W}.
Variable server : list event -> request -> http_reply record.
Variable fromisoformat : string -> option datetime.

(** The environment variable BIGQUERY_DATASET_ID. *)
Variable DATASET_ID : string.

(** [pd.json_normalize], a library function: the batch of a list of
    records. *)
Variable json_normalize : list record -> Frame cell.

Definition update_aux_table (name : string) : M (cloud record W) unit :=
  try_except
    (data ← on_net (Fetch.fetch_from_endpoint server name None);
     let df := json_normalize data in
     on_bq (LoadBigQuery.upload_dataframe_to_bigquery DATASET_ID df name "id"))
    is_Exception
    (fun _ => ret tt).

(** [main] with what follows the fetch written out. *)
Definition main (fuel : nat) (now : datetime) (date_arg : option string)
    : M (cloud record W) unit :=
  try_except
    (window ← on_net (DailyFetch.sync_window fromisoformat now date_arg);
     cashless_data ←
       on_net (DailyFetch.fetch_cashless_data server fuel
                 (fst window) (snd window));
     (if negb (is_empty cashless_data) then
        let df := json_normalize cashless_data in
        let df := rename_columns "id" "transaction_id" df in
        on_bq (LoadBigQuery.upload_dataframe_to_bigquery DATASET_ID df
                 "cashless" "transaction_id")
      else ret tt);;
     for_each ["categories"; "clients"; "locations"; "manufacturers";
               "products"]
       update_aux_table)
    is_Exception
    (fun e => raise e).

End DailyJob.
End DailyJob.
(** * Vocabulary of the statements *)

Section FetchVocabulary.
Context {record : Type}.
Variable server : list event -> request -> http_reply record.

(** A reply on which [raise_for_status] or [json] raises. *)
Definition failed (rep : http_reply record) : bool :=
  match rep with
  | NoReply => true
  | Reply status body =>
      (400 <=? status) && (status <? 600) || negb (bool_decide (is_Some body))
  end.

(** Network and 5xx failures. *)
Definition transient (rep : http_reply record) : bool :=
  match rep with
  | NoReply => true
  | Reply status _ => (500 <=? status) && (status <? 600)
  end.

(** No reply, or a 4xx or 5xx status: the failures of a request whatever
    their class. *)
Definition refused (rep : http_reply record) : bool :=
  match rep with
  | NoReply => true
  | Reply status _ => (400 <=? status) && (status <? 600)
  end.

(** The request that [Historical.fetch_cashless_data] sends. *)
Definition historical_request (start_date end_date : datetime)
    (page per_page : Z) : request :=
  mkRequest Historical.BASE_URL
    (mkParams (Some start_date) (Some end_date) (Some page) (Some per_page)).

(** The three statements of the [try] block of the retrying fetch, which
    are also the body of [fetch_from_endpoint]. *)
Definition one_attempt (r : request) : M (world record) (list record) :=
  response ← requests_get server r;
  raise_for_status response;;
  json response.

(** What is left in the trace by attempts that all fail. *)
Fixpoint failed_attempts (attempts : list Z) (r : request) : list event :=
  match attempts with
  | [] => []
  | attempt :: rest => Get r :: Sleep (2 ^ attempt) :: failed_attempts rest r
  end.

(** The requests among the events. *)
Definition requests_of (tr : list event) : list request :=
  omap (fun e => match e with Get r => Some r | _ => None end) tr.

(** The sleeps among the events. *)
Definition sleeps_of (tr : list event) : list Z :=
  omap (fun e => match e with Sleep n => Some n | _ => None end) tr.

End FetchVocabulary.

(** A server that is down for good, and one that rejects every request. *)
Definition always_503 : list event -> request -> http_reply unit :=
  fun _ _ => Reply 503 None.

Definition always_404 : list event -> request -> http_reply unit :=
  fun _ _ => Reply 404 (Some []).

(** Nothing has happened yet and there is no chunk file. *)
Definition fresh_world : world unit := mkWorld [] ∅.

Section PaginatorVocabulary.
Context {record : Type}.

(** The request that [DailyFetch.fetch_cashless_data] sends for a page. *)
Definition daily_request (start_date end_date : datetime) (page : Z)
    : request :=
  mkRequest (Fetch.BASE_URL +:+ "/" +:+ "cashless_facts")
    (mkParams (Some start_date) (Some end_date) (Some page) (Some 100)).

(** Requests for the pages [page], [page + 1], ..., [page + more], with a
    sleep of one second after each page but the last. *)
Fixpoint page_trace (req : Z -> request) (page : Z) (more : nat)
    : list event :=
  match more with
  | O => [Get (req page)]
  | S more => Get (req page) :: Sleep 1 :: page_trace req (page + 1) more
  end.

(** The records of the pages [page], ..., [page + more], in order. *)
Fixpoint pages_data (pages : Z -> list record) (page : Z) (more : nat)
    : list record :=
  match more with
  | O => pages page
  | S more => pages page ++ pages_data pages (page + 1) more
  end.

(** An API that holds the records [recs] and serves them page by page
    according to the [page] and [per_page] parameters. *)
Definition mock_api (recs : list record)
    : list event -> request -> http_reply record :=
  fun _ r =>
    match page (req_params r), per_page (req_params r) with
    | Some p, Some n =>
        Reply 200 (Some (take (Z.to_nat n) (drop (Z.to_nat (n * (p - 1))) recs)))
    | _, _ => Reply 200 (Some recs)
    end.

(** What it means for a paginated fetch [run], sending [req p] for page
    [p], to paginate: if the server answers page [p] with [pages p], the
    pages 1 to k are full and page k + 1 is the first with fewer than 100
    records (possibly none), then with fuel for k + 1 rounds [run] returns
    the records of the pages 1 to k + 1 and has sent exactly the requests
    for the pages 1, 2, ..., k + 1, in this order. *)
Definition paginates
    (run : (list event -> request -> http_reply record) ->
           nat -> M (world record) (list record))
    (req : Z -> request) : Prop :=
  forall server pages (k fuel : nat) w,
    (forall tr p, server tr (req p) = Reply 200 (Some (pages p))) ->
    (forall i : nat, (i < k)%nat -> 100 <= len (pages (1 + Z.of_nat i))) ->
    len (pages (1 + Z.of_nat k)) < 100 ->
    (k < fuel)%nat ->
    run server fuel w =
      (Ok (pages_data pages 1 k),
       mkWorld (trace w ++ page_trace req 1 k) (files w)).

(** The same against an API that holds exactly 250 records: all of them
    are returned, from three requests, for the pages 1, 2 and 3, which
    carry 100, 100 and 50 records. *)
Definition paginates_250
    (run : (list event -> request -> http_reply record) ->
           nat -> M (world record) (list record))
    (req : Z -> request) : Prop :=
  forall (recs : list record) (fuel : nat) w,
    length recs = 250%nat ->
    (3 <= fuel)%nat ->
    exists w',
      run (mock_api recs) fuel w = (Ok recs, w') /\
      requests_of (drop (length (trace w)) (trace w')) = [req 1; req 2; req 3] /\
      map (fun r => match mock_api recs (trace w) r with
                    | Reply _ (Some body) => length body
                    | _ => O
                    end)
          (requests_of (drop (length (trace w)) (trace w')))
        = [100; 100; 50]%nat.

End PaginatorVocabulary.

Section PlannerVocabulary.

(** The number of windows of the plan: (end - current) / step, rounded up. *)
Definition chunk_count (current end_ : datetime) (step_days : Z) : nat :=
  Z.to_nat ((end_ - current + timedelta_days step_days - 1)
            / timedelta_days step_days).

(** The [i]-th window of the plan. *)
Definition nth_window (current end_ : datetime) (step_days : Z) (i : nat)
    : datetime * datetime :=
  (current + Z.of_nat i * timedelta_days step_days,
   Z.min (current + (Z.of_nat i + 1) * timedelta_days step_days) end_).

Definition planned_windows (current end_ : datetime) (step_days : Z)
    : list (datetime * datetime) :=
  map (nth_window current end_ step_days)
      (seq 0 (chunk_count current end_ step_days)).

End PlannerVocabulary.

#[global] Instance params_eq_dec : EqDecision params.
Proof. solve_decision. Defined.

#[global] Instance request_eq_dec : EqDecision request.
Proof. solve_decision. Defined.

#[global] Instance event_eq_dec : EqDecision event.
Proof. solve_decision. Defined.

Section BackfillVocabulary.
Context {record : Type}.

(** [w'] comes after [w]: the trace was only added to. *)
Definition extends (w w' : world record) : Prop :=
  exists tr, trace w' = trace w ++ tr.

(** The events of [w'] that are not yet in [w]. *)
Definition new_events (w w' : world record) : list event :=
  drop (length (trace w)) (trace w').

(** The API has nothing for the window: its first page is empty. *)
Definition empty_window (server : list event -> request -> http_reply record)
    (start_date end_date : datetime) : Prop :=
  forall tr,
    server tr (historical_request start_date end_date 1 100) = Reply 200 (Some []).

(** Successive runs of the backfill script, started at the times [nows]. *)
Fixpoint backfill_runs (server : list event -> request -> http_reply record)
    (fuel : nat) (nows : list datetime) : M (world record) unit :=
  match nows with
  | [] => ret tt
  | now :: nows =>
      Historical.main server fuel now;;
      backfill_runs server fuel nows
  end.

(** How often the request [r] occurs among the events [tr]. *)
Definition fetches_of (r : request) (tr : list event) : nat :=
  length (filter (fun e => e = Get r) tr).

(** An API without any record. *)
Definition empty_api : list event -> request -> http_reply record :=
  fun _ _ => Reply 200 (Some []).

End BackfillVocabulary.

(** Two runs of the backfill, ten and eleven days after its start date,
    against an API without records; the first week is the chunk looked at. *)
Definition two_runs : list datetime :=
  [Historical.START + timedelta_days 10; Historical.START + timedelta_days 11].

Definition first_week : datetime * datetime :=
  (Historical.START, Historical.START + timedelta_days 7).

Definition after_two_runs : world unit :=
  snd (backfill_runs empty_api 3 two_runs fresh_world).

Section WindowVocabulary.


(** 2024-01-02 10:30:00 UTC *)
Definition half_past_ten : datetime := 1704191400000000.

(** A parser that knows one date, 2024-01-05. *)
Definition parse_one_date : string -> option datetime :=
  fun s => if String.eqb s "2024-01-05" then Some 1704412800000000 else None.

End WindowVocabulary.

Section ConsolidatorVocabulary.

(** The id and the recency timestamp of a row of the combined table. *)
Definition row_id (r : row) : option string := r !! "transaction_id".
Definition recency (r : row) : option string := r !! "occurred_at".

(** Insertion sorts. [insert_by before x l] puts [x] in front of the first
    row [y] of [l] with [before x y]. *)
Fixpoint insert_by (before : row -> row -> bool) (x : row) (l : list row)
    : list row :=
  match l with
  | [] => [x]
  | y :: l' => if before x y then x :: y :: l' else y :: insert_by before x l'
  end.

Definition insertion_sort (before : row -> row -> bool) (l : list row)
    : list row :=
  fold_right (insert_by before) [] l.

(** A stable sort by recency: rows with equal keys keep their order. This
    is what the sort of pandas does on a short table, where its quicksort
    sorts by insertion. *)
Definition stable_sort : list row -> list row :=
  insertion_sort (fun x y => Consolidate.recency_le (recency x) (recency y)).

(** A chunk file with one row, as [pd.read_csv] returns it. *)
Definition chunk (id : string) (occurred_at : option string) (value : string)
    : DataFrame :=
  mkDataFrame ["id"; "occurred_at"; "value"]
    [match occurred_at with
     | Some t => [("id", id); ("occurred_at", t); ("value", value)]
     | None => [("id", id); ("value", value)]
     end].

(** The row of such a chunk in the combined table. *)
Definition combined_row (id : string) (occurred_at : option string)
    (value : string) : row :=
  match occurred_at with
  | Some t => [("transaction_id", id); ("occurred_at", t); ("value", value)]
  | None => [("transaction_id", id); ("value", value)]
  end.

(** The rows of the result of the script, if it has one. *)
Definition fmap_rows (r : result DataFrame) : option (list row) :=
  match r with
  | Ok df => Some (rows df)
  | _ => None
  end.

End ConsolidatorVocabulary.

Section LoaderVocabulary.

(** A pandas over cells that are strings, whose conversions keep the
    cells as they are. *)
#[global] Instance text_pandas : Pandas string := {|
  to_datetime := fun v => (datetime64, v);
  fillna_astype_str := fun v => v;
  to_numeric := fun v => Some (float64, v);
  join_tags := fun v => Some v;
  convert_additional_barcodes := fun v => Some v;
  all_iso_timestamps := fun v => false
|}.

(** A warehouse for tests: the ids of the tables it holds, and whether
    its MERGE jobs fail. *)
Record test_warehouse : Type := mkTestWarehouse {
  table_ids : list string;
  merge_fails : bool
}.

#[global] Instance test_client : Client string test_warehouse := {|
  get_table := fun table_id w =>
    if contains table_id (table_ids w) then (Ok tt, w)
    else (Raise (NotFound table_id), w);
  create_table := fun table_id _ w =>
    (Ok tt, mkTestWarehouse (table_id :: table_ids w) (merge_fails w));
  load_table_from_dataframe := fun _ table_id _ w =>
    if contains table_id (table_ids w) then (Ok tt, w)
    else (Ok tt, mkTestWarehouse (table_id :: table_ids w) (merge_fails w));
  query := fun _ w =>
    if merge_fails w then (Raise (GoogleAPIError "MERGE failed"), w)
    else (Ok tt, w);
  delete_table := fun table_id w =>
    (Ok tt,
     mkTestWarehouse
       (filter (fun t => t <> table_id) (table_ids w)) (merge_fails w))
|}.

(** The calls of [s'] that are not yet in [s]. *)
Definition new_calls {W} (s s' : session W) : list (call * result unit) :=
  drop (length (calls s)) (calls s').

(** The staging table is removed after a MERGE that succeeded, and only
    then: if the MERGE raised, the upsert raises the same exception and no
    call to delete the staging table is made; if the MERGE returned, the
    last call of the upsert is the one that deletes the staging table. *)
Definition cleans_up_after_merge {W} (upsert : M (session W) unit)
    (temp_table_id : string) : Prop :=
  forall s res s',
    upsert s = (res, s') ->
    (forall sql e,
       (Query sql, Raise e) ∈ new_calls s s' ->
       res = Raise e /\
       forall outcome, (DeleteTable temp_table_id, outcome) ∉ new_calls s s') /\
    (forall sql,
       (Query sql, Ok tt) ∈ new_calls s s' ->
       exists outcome,
         last (new_calls s s') = Some (DeleteTable temp_table_id, outcome)).

(** A batch of two products, with a zero-padded code. *)
Definition two_products : Frame string :=
  [mkSeries "id" object ["7"; "8"];
   mkSeries "upc_code" object ["00123"; "00456"];
   mkSeries "packing.id" object ["1"; "2"]].

(** The same batch without its id column. *)
Definition no_id_products : Frame string :=
  [mkSeries "upc_code" object ["00123"; "00456"];
   mkSeries "packing.id" object ["1"; "2"]].

Definition empty_warehouse (merge_fails : bool) : session test_warehouse :=
  mkSession [] (mkTestWarehouse [] merge_fails).

(** The method and the table of a call; for a query, its first line
    that is not blank. *)
Definition call_summary (c : call) : string * string :=
  match c with
  | GetTable t => ("get_table", t)
  | CreateTable t _ => ("create_table", t)
  | LoadTable t _ => ("load_table_from_dataframe", t)
  | Query sql => ("query", substring 5 22 sql)
  | DeleteTable t => ("delete_table", t)
  end.

(** The upsert of the batch of two products by the cloud function, into
    an empty warehouse whose MERGE jobs fail or not. *)
Definition upsert_two_products (merge_fails : bool)
    : result unit * session test_warehouse :=
  LoadBigQuery.upload_dataframe_to_bigquery "vmpay" two_products "products"
    "id" (empty_warehouse merge_fails).

End LoaderVocabulary.

(** * Vocabulary of the further properties *)

Section RetryVocabulary.
Context {record : Type}.

(** A reply that [raise_for_status] and [json] let through. *)
Definition accepted (rep : http_reply record) : option (list record) :=
  match rep with
  | Reply status (Some body) =>
      if (400 <=? status) && (status <? 600) then None else Some body
  | _ => None
  end.

(** A server that refuses the first [n] requests it sees and then serves
    the records [body]. *)
Definition flaky (n : nat) (body : list record)
    : list event -> request -> http_reply record :=
  fun tr _ =>
    if (length (requests_of tr) <? n)%nat then Reply 503 None
    else Reply 200 (Some body).

End RetryVocabulary.

Section PaginatorFailureVocabulary.
Context {record : Type}.

(** Requests for [n] pages from [page] on, each followed by the sleep of
    one second that follows a full page. *)
Fixpoint full_pages_trace (req : Z -> request) (page : Z) (n : nat)
    : list event :=
  match n with
  | O => []
  | S n => Get (req page) :: Sleep 1 :: full_pages_trace req (page + 1) n
  end.

(** An API that has [k] full pages of the record [x] and answers every
    later page with the status 500. *)
Definition breaks_after (k : Z) (x : record)
    : list event -> request -> http_reply record :=
  fun _ r =>
    match page (req_params r) with
    | Some p => if p <=? k then Reply 200 (Some (replicate 100 x))
                else Reply 500 None
    | None => Reply 500 None
    end.

(** An API whose every page is full. *)
Definition endless (x : record) : list event -> request -> http_reply record :=
  fun _ _ => Reply 200 (Some (replicate 100 x)).

End PaginatorFailureVocabulary.

Section ResumeVocabulary.
Context {record : Type}.

(** An API whose answer depends on the request only. *)
Definition stateless (server : list event -> request -> http_reply record)
    : Prop :=
  forall tr tr' r, server tr r = server tr' r.

End ResumeVocabulary.

(** An API with three records for every window that starts before day
    19730 (2024-01-08) and none for the others. *)
Definition first_week_only : list event -> request -> http_reply Z :=
  fun _ r =>
    match start_date (req_params r) with
    | Some s => if date_of s <? 19730 then Reply 200 (Some [1; 2; 3])
                else Reply 200 (Some [])
    | None => Reply 200 (Some [])
    end.

Section ConsolidatorErrorVocabulary.


(** The rows of the combined table, before the sort. *)
Definition combined_rows (df_list : list DataFrame) : list row :=
  map (Consolidate.rename_row "id" "transaction_id")
      (concat (map rows df_list)).



End ConsolidatorErrorVocabulary.

Section UpsertScriptVocabulary.
Context {cell W : Type} {pandas : Pandas cell} {client : Client cell W}.

(** A dot occurs in the string. *)
Fixpoint has_dot (s : string) : bool :=
  match s with
  | EmptyString => false
  | String c s => Ascii.eqb c "."%char || has_dot s
  end.

(** The batch as the upsert of the cloud function loads it: sanitized and
    converted. *)
Definition processed_cf (table_name : string) (df : Frame cell) : Frame cell :=
  LoadBigQuery.convert_numbers table_name
    (LoadBigQuery.convert_structured table_name
       (LoadBigQuery.convert_strings table_name
          (LoadBigQuery.convert_dates table_name
             (LoadBigQuery.sanitize_columns df)))).

(** The batch as the CSV loader loads it. *)
Definition processed_csv (table_name : string) (df : Frame cell) : Frame cell :=
  LoadToBigQuery.convert_strings table_name
    (LoadToBigQuery.sanitize_columns df).

(** The calls of an upsert follow one script. They are, in this order, the
    first few of: get the final table, create it, load the staging table,
    run the query [sql], delete the staging table, where the creation is
    left out or not, and the schema created and loaded is [schema]. A call
    that does not return ends the upsert, except that the final table is
    created exactly when getting it raised NotFound. The upsert returns
    exactly when its last call is the deletion of the staging table and
    this call returned. *)
Definition follows_script (upsert : M (session W) unit)
    (final temp : string) (schema : list SchemaField) (sql : string) : Prop :=
  forall s res s',
    upsert s = (res, s') ->
    (map fst (new_calls s s') `prefix_of`
       [GetTable final; LoadTable temp schema; Query sql; DeleteTable temp] \/
     map fst (new_calls s s') `prefix_of`
       [GetTable final; CreateTable final schema; LoadTable temp schema;
        Query sql; DeleteTable temp]) /\
    (forall c o,
       (c, o) ∈ new_calls s s' -> o <> Ok tt ->
       last (new_calls s s') = Some (c, o) \/
       exists m, c = GetTable final /\ o = Raise (NotFound m)) /\
    ((exists sc o, (CreateTable final sc, o) ∈ new_calls s s') <->
     (exists m, (GetTable final, Raise (NotFound m)) ∈ new_calls s s')) /\
    (res = Ok tt <-> last (new_calls s s') = Some (DeleteTable temp, Ok tt)).

End UpsertScriptVocabulary.

(** A batch of one product with its creation date, as text. *)
Definition dated_product : Frame string :=
  [mkSeries "id" object ["7"];
   mkSeries "created_at" object ["2023-01-01T10:00:00Z"];
   mkSeries "cost_price" object ["10.50"]].

(** * Vocabulary of the jobs *)

Section JobVocabulary.
Context {cell W : Type} {client : Client cell W}.

(** Every call of a method of the client comes to an end. *)
Definition client_returns : Prop :=
  (forall t w, fst (get_table t w) <> OutOfFuel) /\
  (forall t sc w, fst (create_table t sc w) <> OutOfFuel) /\
  (forall df t sc w, fst (load_table_from_dataframe df t sc w) <> OutOfFuel) /\
  (forall q w, fst (query q w) <> OutOfFuel) /\
  (forall t w, fst (delete_table t w) <> OutOfFuel).

End JobVocabulary.

(** The request that [update_aux_table] sends for a table. *)
Definition aux_request (name : string) : request :=
  mkRequest (Fetch.BASE_URL +:+ "/" +:+ name) no_params.

(** The auxiliary tables, in the order of the daily job. *)
Definition aux_tables : list string :=
  ["categories"; "clients"; "locations"; "manufacturers"; "products"].

Section DailyJobVocabulary.
Context {record cell : Type}.

(** The first two steps of the daily job: the window and the fetch of its
    cashless records. *)
Definition primary_fetch (server : list event -> request -> http_reply record)
    (fromisoformat : string -> option datetime) (fuel : nat) (now : datetime)
    (date_arg : option string) : M (world record) (list record) :=
  window ← DailyFetch.sync_window fromisoformat now date_arg;
  DailyFetch.fetch_cashless_data server fuel (fst window) (snd window).

(** The batch that the daily job makes of the cashless records. *)
Definition cashless_batch (json_normalize : list record -> Frame cell)
    (data : list record) : Frame cell :=
  rename_columns "id" "transaction_id" (json_normalize data).

End DailyJobVocabulary.

(** Three CSV files: the products, which [pd.read_csv] refuses for want of
    a date column; the categories; and the clients, without their id
    column. *)
Definition three_csv_files (path : string) : option (exn + Frame string) :=
  if String.eqb path "data/raw_csv_outputs/products.csv"
  then Some (inl (ValueError "Missing column provided to 'parse_dates'"))
  else if String.eqb path "data/raw_csv_outputs/categories.csv"
  then Some (inr two_products)
  else if String.eqb path "data/raw_csv_outputs/clients.csv"
  then Some (inr no_id_products)
  else None.

(** An API that has two records for every auxiliary table but the
    locations, for which it answers 500, and no cashless record. *)
Definition aux_api : list event -> request -> http_reply Z :=
  fun _ r =>
    if String.eqb (url r) (Fetch.BASE_URL +:+ "/" +:+ "locations")
    then Reply 500 None
    else if String.eqb (url r) (Fetch.BASE_URL +:+ "/" +:+ "cashless_facts")
    then Reply 200 (Some [])
    else Reply 200 (Some [7; 8]).

(** The batch of a list of records: the ids, as text. *)
Definition ids_frame (data : list Z) : Frame string :=
  [mkSeries "id" object (map (fun _ => "7") data)].

Definition fresh_cloud : cloud Z test_warehouse :=
  mkCloud (mkWorld [] ∅) (empty_warehouse false).

(** A pandas over cells that are strings for which the dates of a column
    have different UTC offsets: [pd.to_datetime] leaves the column with
    the dtype object. *)
Definition mixed_offsets_pandas : Pandas string := {|
  to_datetime := fun v => (object, v);
  fillna_astype_str := fun v => v;
  to_numeric := fun v => Some (float64, v);
  join_tags := fun v => Some v;
  convert_additional_barcodes := fun v => Some v;
  all_iso_timestamps := fun v => false
|}.

(** A batch of two products whose creation dates have different UTC
    offsets. *)
Definition mixed_offsets_products : Frame string :=
  [mkSeries "id" object ["7"; "8"];
   mkSeries "created_at" object
     ["2023-01-01T10:00:00+01:00"; "2023-01-01T10:00:00-03:00"]].

(** * Properties *)

(** ** PageFetcher: retries *)

Section FetchFacts.
Context {record : Type}.
Variable server : list event -> request -> http_reply record.

Lemma transient_failed (rep : http_reply record) :
  transient rep = true -> failed rep = true.
Proof.
  destruct rep as [|status body]; simpl; [easy|].
  intros H. apply andb_true_iff in H as [H1 H2].
  apply Z.leb_le in H1. apply Z.ltb_lt in H2.
  apply orb_true_iff. left. apply andb_true_iff. split.
  - apply Z.leb_le. lia.
  - apply Z.ltb_lt. lia.
Qed.

(** A failed attempt raises one of the exceptions of requests, after the
    request has gone out. *)
Lemma one_attempt_failed r w :
  failed (server (trace w) r) = true ->
  exists e, is_RequestException e = true /\
    one_attempt server r w = (Raise e, mkWorld (trace w ++ [Get r]) (files w)).
Proof.
  unfold one_attempt, mbind, M_bind, bind, requests_get. intros H.
  destruct (server (trace w) r) as [|status body] eqn:E.
  - exists ConnectionError. split; reflexivity.
  - simpl in H. unfold raise_for_status.
    destruct ((400 <=? status) && (status <? 600)) eqn:Hs.
    + exists (HTTPError status). split; reflexivity.
    + simpl in H. destruct body as [b|]; [discriminate H|].
      exists JSONDecodeError. split; reflexivity.
Qed.

Lemma one_attempt_ok r w status body :
  server (trace w) r = Reply status (Some body) ->
  (400 <=? status) && (status <? 600) = false ->
  one_attempt server r w = (Ok body, mkWorld (trace w ++ [Get r]) (files w)).
Proof.
  unfold one_attempt, mbind, M_bind, bind, requests_get. intros E Hs.
  rewrite E. unfold raise_for_status. rewrite Hs. reflexivity.
Qed.

Lemma fetch_attempts_all_failed attempts r :
  (forall tr, failed (server tr r) = true) ->
  forall w,
    Historical.fetch_attempts server attempts r w =
    (Raise (RuntimeError "Failed to fetch after 3 attempts"),
     mkWorld (trace w ++ failed_attempts attempts r) (files w)).
Proof.
  intros Hfail. induction attempts as [|a rest IH]; intros w; simpl.
  - rewrite app_nil_r. destruct w; reflexivity.
  - unfold try_except. fold (one_attempt server r).
    destruct (one_attempt_failed r w (Hfail _)) as (e & He & ->).
    rewrite He. unfold mbind, M_bind, bind, sleep, log, modify. simpl.
    rewrite IH. simpl. rewrite <- !app_assoc. reflexivity.
Qed.

Lemma fetch_attempts_first_ok a rest r w status body :
  server (trace w) r = Reply status (Some body) ->
  (400 <=? status) && (status <? 600) = false ->
  Historical.fetch_attempts server (a :: rest) r w =
  (Ok body, mkWorld (trace w ++ [Get r]) (files w)).
Proof.
  intros E Hs. simpl. unfold try_except. fold (one_attempt server r).
  rewrite (one_attempt_ok r w status body E Hs). reflexivity.
Qed.

Lemma refused_failed (rep : http_reply record) :
  refused rep = true -> failed rep = true.
Proof.
  destruct rep as [|status body]; simpl; [easy|].
  intros ->. reflexivity.
Qed.

Lemma transient_refused (rep : http_reply record) :
  transient rep = true -> refused rep = true.
Proof.
  destruct rep as [|status body]; simpl; [easy|].
  intros H. apply andb_true_iff in H as [H1 H2].
  apply Z.leb_le in H1. apply Z.ltb_lt in H2.
  apply andb_true_iff. split; [apply Z.leb_le | apply Z.ltb_lt]; lia.
Qed.

(** C3. When every attempt meets a transient failure, the retrying fetch
    sends the request exactly three times, sleeps 1, 2 and 4 seconds (2 to
    the power of the attempt number) after the first, second and third
    failure, and then raises RuntimeError; there is no fourth request. *)
Theorem retry_exhaustion start_date end_date page per_page w :
  let r := historical_request start_date end_date page per_page in
  (forall tr, transient (server tr r) = true) ->
  exists w',
    Historical.fetch_cashless_data server start_date end_date page per_page w
      = (Raise (RuntimeError "Failed to fetch after 3 attempts"), w') /\
    trace w' = trace w ++ [Get r; Sleep 1; Get r; Sleep 2; Get r; Sleep 4] /\
    requests_of (drop (length (trace w)) (trace w')) = [r; r; r] /\
    sleeps_of (drop (length (trace w)) (trace w')) = [1; 2; 4] /\
    files w' = files w.
Proof.
  intros r Htr. unfold Historical.fetch_cashless_data.
  fold (historical_request start_date end_date page per_page). fold r.
  rewrite fetch_attempts_all_failed
    by (intros tr; apply refused_failed, transient_refused, Htr).
  eexists. split; [reflexivity|]. simpl.
  rewrite drop_app_length. repeat split; reflexivity.
Qed.

(** C2, as the code has it. The page fetch does not tell failure classes
    apart. The retrying fetch of the backfill treats every refused request
    alike (no reply, any 4xx status, any 5xx status): it sleeps and tries
    again, three attempts in all, and then raises RuntimeError. The fetch of
    the daily sync never retries: it sends one request and lets the failure
    propagate, HTTPError for a 4xx and a 5xx status alike. *)
Theorem fetch_failure_classes :
  (forall start_date end_date page per_page w,
     let r := historical_request start_date end_date page per_page in
     (forall tr, refused (server tr r) = true) ->
     Historical.fetch_cashless_data server start_date end_date page per_page w
       = (Raise (RuntimeError "Failed to fetch after 3 attempts"),
          mkWorld
            (trace w ++ [Get r; Sleep 1; Get r; Sleep 2; Get r; Sleep 4])
            (files w))) /\
  (forall endpoint params w,
     let r := mkRequest (Fetch.BASE_URL +:+ "/" +:+ endpoint)
                        (default no_params params) in
     refused (server (trace w) r) = true ->
     Fetch.fetch_from_endpoint server endpoint params w
       = (Raise (match server (trace w) r with
                 | NoReply => ConnectionError
                 | Reply status _ => HTTPError status
                 end),
          mkWorld (trace w ++ [Get r]) (files w))).
Proof.
  split.
  - intros start_date end_date page per_page w r Href.
    unfold Historical.fetch_cashless_data.
    fold (historical_request start_date end_date page per_page). fold r.
    rewrite fetch_attempts_all_failed
      by (intros tr; apply refused_failed, Href).
    simpl. reflexivity.
  - intros endpoint params w r Href.
    unfold Fetch.fetch_from_endpoint, mbind, M_bind, bind, requests_get.
    replace (match params with Some p => p | None => no_params end)
      with (default no_params params) by (destruct params; reflexivity).
    fold r. destruct (server (trace w) r) as [|status body]; [reflexivity|].
    simpl in Href. unfold raise_for_status. rewrite Href. reflexivity.
Qed.

End FetchFacts.

Lemma retry_exhaustion_witness :
  exists w',
    Historical.fetch_cashless_data always_503 0 86400000000 1 100 fresh_world
      = (Raise (RuntimeError "Failed to fetch after 3 attempts"), w') /\
    trace w' = trace fresh_world ++
      [Get (historical_request 0 86400000000 1 100); Sleep 1;
       Get (historical_request 0 86400000000 1 100); Sleep 2;
       Get (historical_request 0 86400000000 1 100); Sleep 4] /\
    requests_of (drop (length (trace fresh_world)) (trace w')) =
      [historical_request 0 86400000000 1 100;
       historical_request 0 86400000000 1 100;
       historical_request 0 86400000000 1 100] /\
    sleeps_of (drop (length (trace fresh_world)) (trace w')) = [1; 2; 4] /\
    files w' = files fresh_world.
Proof.
  apply (retry_exhaustion always_503 0 86400000000 1 100 fresh_world).
  intros tr. reflexivity.
Defined.

(** C2 as stated fails: a server that answers 404 to everything is asked
    three times by the retrying fetch, which sleeps in between and ends
    with the same RuntimeError as after transient failures. *)
Lemma fatal_4xx_is_retried :
  Historical.fetch_cashless_data always_404 0 86400000000 1 100 fresh_world
  = (Raise (RuntimeError "Failed to fetch after 3 attempts"),
     mkWorld
       [Get (historical_request 0 86400000000 1 100); Sleep 1;
        Get (historical_request 0 86400000000 1 100); Sleep 2;
        Get (historical_request 0 86400000000 1 100); Sleep 4] ∅).
Proof. reflexivity. Qed.

Lemma fetch_failure_classes_witness :
  Historical.fetch_cashless_data always_404 0 86400000000 1 100 fresh_world
  = (Raise (RuntimeError "Failed to fetch after 3 attempts"),
     mkWorld
       (trace fresh_world ++
        [Get (historical_request 0 86400000000 1 100); Sleep 1;
         Get (historical_request 0 86400000000 1 100); Sleep 2;
         Get (historical_request 0 86400000000 1 100); Sleep 4])
       (files fresh_world)) /\
  Fetch.fetch_from_endpoint always_404 "products" None fresh_world
  = (Raise (HTTPError 404),
     mkWorld [Get (mkRequest (Fetch.BASE_URL +:+ "/" +:+ "products") no_params)]
             ∅).
Proof.
  split.
  - apply (proj1 (fetch_failure_classes always_404)). intros tr. reflexivity.
  - apply (proj2 (fetch_failure_classes always_404) "products" None
             fresh_world). reflexivity.
Defined.


(** ** Paginator *)

Section PaginateGeneric.
Context {record : Type}.
Variable fetch : Z -> M (world record) (list record).
Variable loop : nat -> Z -> list record -> M (world record) (list record).
Hypothesis loop_S : forall fuel p acc,
  loop (S fuel) p acc =
  (data ← fetch p;
   if is_empty data then ret acc
   else
     let acc' := acc ++ data in
     if len data <? 100 then ret acc'
     else sleep 1;; loop fuel (p + 1) acc').
Variable req : Z -> request.
Variable pages : Z -> list record.
Hypothesis fetch_ok : forall p w,
  fetch p w = (Ok (pages p), mkWorld (trace w ++ [Get (req p)]) (files w)).

Lemma loop_pages (k : nat) : forall p acc (fuel : nat) w,
  (forall i : nat, (i < k)%nat -> 100 <= len (pages (p + Z.of_nat i))) ->
  len (pages (p + Z.of_nat k)) < 100 ->
  (k < fuel)%nat ->
  loop fuel p acc w =
    (Ok (acc ++ pages_data pages p k),
     mkWorld (trace w ++ page_trace req p k) (files w)).
Proof.
  induction k as [|k IH]; intros p acc fuel w Hfull Hshort Hfuel;
    (destruct fuel as [|fuel]; [lia|]); rewrite loop_S;
    unfold mbind, M_bind, bind; rewrite fetch_ok.
  - replace (p + Z.of_nat 0) with p in Hshort by lia. simpl.
    destruct (pages p) as [|x l] eqn:E; simpl.
    + rewrite app_nil_r. reflexivity.
    + apply Z.ltb_lt in Hshort. rewrite Hshort. reflexivity.
  - assert (H0 : 100 <= len (pages p)).
    { specialize (Hfull O ltac:(lia)). replace (p + Z.of_nat 0) with p in Hfull by lia.
      exact Hfull. }
    destruct (pages p) as [|x l] eqn:E; [unfold len in H0; simpl in H0; lia|].
    cbn [is_empty]. cbv zeta.
    assert (Hn : (len (x :: l) <? 100) = false) by (apply Z.ltb_ge; exact H0).
    rewrite Hn. unfold sleep, log, modify. cbn [trace files].
    rewrite (IH (p + 1) (acc ++ x :: l) fuel).
    + simpl. rewrite E, <- !app_assoc. simpl. reflexivity.
    + intros i Hi. specialize (Hfull (S i) ltac:(lia)).
      replace (p + 1 + Z.of_nat i) with (p + Z.of_nat (S i)) by lia. exact Hfull.
    + replace (p + 1 + Z.of_nat k) with (p + Z.of_nat (S k)) by lia. exact Hshort.
    + lia.
Qed.

End PaginateGeneric.

Section PaginatorFacts.
Context {record : Type}.

Lemma daily_paginates (start_date end_date : datetime) :
  paginates (record := record)
    (fun server fuel =>
       DailyFetch.fetch_cashless_data server fuel start_date end_date)
    (daily_request start_date end_date).
Proof.
  intros server pages k fuel w Hsrv Hfull Hshort Hfuel.
  unfold DailyFetch.fetch_cashless_data.
  rewrite (loop_pages
    (fun p => Fetch.fetch_from_endpoint server "cashless_facts"
                (Some (mkParams (Some start_date) (Some end_date) (Some p)
                                (Some 100))))
    (fun fuel p acc =>
       DailyFetch.fetch_cashless_data_loop server fuel start_date end_date p acc)
    (fun fuel p acc => eq_refl)
    (daily_request start_date end_date) pages) with (k := k).
  - reflexivity.
  - intros p w0. apply (one_attempt_ok server (daily_request start_date end_date p)
                          w0 200 (pages p)); [apply Hsrv | reflexivity].
  - exact Hfull.
  - exact Hshort.
  - exact Hfuel.
Qed.

Lemma historical_paginates (start_date end_date : datetime) :
  paginates (record := record)
    (fun server fuel => Historical.extract_range server fuel start_date end_date)
    (fun p => historical_request start_date end_date p 100).
Proof.
  intros server pages k fuel w Hsrv Hfull Hshort Hfuel.
  unfold Historical.extract_range.
  rewrite (loop_pages
    (fun p => Historical.fetch_cashless_data server start_date end_date p 100)
    (fun fuel p acc =>
       Historical.extract_range_loop server fuel start_date end_date p acc)
    (fun fuel p acc => eq_refl)
    (fun p => historical_request start_date end_date p 100) pages) with (k := k).
  - reflexivity.
  - intros p w0. unfold Historical.fetch_cashless_data.
    apply (fetch_attempts_first_ok server 0 [1; 2]
             (historical_request start_date end_date p 100) w0 200 (pages p));
      [apply Hsrv | reflexivity].
  - exact Hfull.
  - exact Hshort.
  - exact Hfuel.
Qed.

(** Three pages of a stock of 250 records. *)
Lemma three_pages (recs : list record) :
  length recs = 250%nat ->
  length (take 100 recs) = 100%nat /\
  length (take 100 (drop 100 recs)) = 100%nat /\
  length (take 100 (drop 200 recs)) = 50%nat /\
  take 100 recs ++ take 100 (drop 100 recs) ++ take 100 (drop 200 recs) = recs.
Proof.
  intros H. rewrite !length_take, !length_drop, H.
  repeat split; try reflexivity.
  rewrite (take_ge (drop 200 recs)) by (rewrite length_drop; lia).
  replace (drop 200 recs) with (drop 100 (drop 100 recs))
    by (rewrite drop_drop; reflexivity).
  rewrite take_drop, take_drop. reflexivity.
Qed.

Lemma paginates_on_250 run req :
  (forall p, page (req_params (req p)) = Some p /\ per_page (req_params (req p)) = Some 100) ->
  paginates (record := record) run req -> paginates_250 run req.
Proof.
  intros Hreq Hpag recs fuel w Hlen Hfuel.
  destruct (three_pages recs Hlen) as (L1 & L2 & L3 & Hall).
  pose (pages := fun p : Z => take 100 (drop (Z.to_nat (100 * (p - 1))) recs)).
  assert (Hsrv : forall tr p, mock_api recs tr (req p) = Reply 200 (Some (pages p))).
  { intros tr p. unfold mock_api. destruct (Hreq p) as [-> ->]. reflexivity. }
  assert (P1 : pages 1 = take 100 recs) by reflexivity.
  assert (P2 : pages 2 = take 100 (drop 100 recs)) by reflexivity.
  assert (P3 : pages 3 = take 100 (drop 200 recs)) by reflexivity.
  rewrite (Hpag (mock_api recs) pages 2%nat fuel w Hsrv).
  - eexists. split; [|split].
    + cbn [pages_data]. change (1 + 1 + 1) with 3. change (1 + 1) with 2.
      rewrite P1, P2, P3, Hall. reflexivity.
    + cbn [trace]. rewrite drop_app_length. reflexivity.
    + cbn [trace]. rewrite drop_app_length.
      unfold requests_of. simpl.
      change (1 + 1 + 1) with 3. change (1 + 1) with 2.
      rewrite !Hsrv, P1, P2, P3, L1, L2, L3. reflexivity.
  - intros i Hi. unfold len.
    destruct i as [|[|i]]; [| |lia].
    + change (1 + Z.of_nat 0) with 1. rewrite P1, L1. lia.
    + change (1 + Z.of_nat 1) with 2. rewrite P2, L2. lia.
  - unfold len. change (1 + Z.of_nat 2) with 3. rewrite P3, L3. lia.
  - lia.
Qed.

(** C5. Both paginated fetches (the daily one and the one of the backfill)
    ask for page 1 first, go on to the next page after every page of 100
    records or more, add up what the pages return, and stop at the first
    page that is empty or has fewer than 100 records. Against an API that
    holds exactly 250 records they send exactly three requests, for the
    pages 1, 2 and 3, which carry 100, 100 and 50 records, and return all
    250 records. *)
Theorem pagination (start_date end_date : datetime) :
  let daily := fun server fuel =>
    DailyFetch.fetch_cashless_data (record := record) server fuel
      start_date end_date in
  let backfill := fun server fuel =>
    Historical.extract_range (record := record) server fuel
      start_date end_date in
  paginates daily (daily_request start_date end_date) /\
  paginates backfill (fun p => historical_request start_date end_date p 100) /\
  paginates_250 daily (daily_request start_date end_date) /\
  paginates_250 backfill (fun p => historical_request start_date end_date p 100).
Proof.
  intros daily backfill.
  pose proof (daily_paginates start_date end_date) as Hd.
  pose proof (historical_paginates start_date end_date) as Hh.
  repeat split; try assumption.
  - apply paginates_on_250; [intros p; split; reflexivity | exact Hd].
  - apply paginates_on_250; [intros p; split; reflexivity | exact Hh].
Qed.

End PaginatorFacts.

Lemma pagination_witness :
  exists w',
    DailyFetch.fetch_cashless_data (mock_api (seq 0 250)) 3 0 86400000000
      (mkWorld [] ∅) = (Ok (seq 0 250), w') /\
    requests_of (drop (length (trace (mkWorld (record := nat) [] ∅))) (trace w'))
      = [daily_request 0 86400000000 1; daily_request 0 86400000000 2;
         daily_request 0 86400000000 3] /\
    map (fun r => match mock_api (seq 0 250) [] r with
                  | Reply _ (Some body) => length body
                  | _ => O
                  end)
        (requests_of (drop (length (trace (mkWorld (record := nat) [] ∅)))
                           (trace w')))
      = [100; 100; 50]%nat.
Proof.
  apply (proj1 (proj2 (proj2 (pagination (record := nat) 0 86400000000)))
           (seq 0 250) 3%nat (mkWorld [] ∅)).
  - reflexivity.
  - lia.
Defined.

(** ** ChunkPlanner *)

Section PlannerFacts.

Lemma timedelta_days_pos step_days : 0 < step_days -> 0 < timedelta_days step_days.
Proof. unfold timedelta_days. lia. Qed.

Lemma chunk_count_done current end_ step_days :
  0 < step_days -> end_ <= current -> chunk_count current end_ step_days = O.
Proof.
  intros Hs Hc. unfold chunk_count.
  pose proof (timedelta_days_pos step_days Hs) as HD.
  assert ((end_ - current + timedelta_days step_days - 1)
          / timedelta_days step_days < 1)
    by (apply Z.div_lt_upper_bound; lia).
  lia.
Qed.

Lemma chunk_count_step current end_ step_days :
  0 < step_days -> current < end_ ->
  chunk_count current end_ step_days =
  S (chunk_count (current + timedelta_days step_days) end_ step_days).
Proof.
  intros Hs Hc. unfold chunk_count.
  pose proof (timedelta_days_pos step_days Hs) as HD.
  set (D := timedelta_days step_days) in *.
  replace (end_ - current + D - 1) with (end_ - (current + D) + D - 1 + 1 * D)
    by lia.
  rewrite Z.div_add by lia.
  assert (0 <= (end_ - (current + D) + D - 1) / D)
    by (apply Z.div_pos; lia).
  lia.
Qed.

Lemma nth_window_shift current end_ step_days i :
  nth_window current end_ step_days (S i) =
  nth_window (current + timedelta_days step_days) end_ step_days i.
Proof. unfold nth_window. f_equal; [|f_equal]; lia. Qed.

Lemma planned_windows_step current end_ step_days :
  0 < step_days -> current < end_ ->
  planned_windows current end_ step_days =
  (current, Z.min (current + timedelta_days step_days) end_)
  :: planned_windows (current + timedelta_days step_days) end_ step_days.
Proof.
  intros Hs Hc. unfold planned_windows.
  rewrite (chunk_count_step current end_ step_days Hs Hc). simpl.
  f_equal.
  - unfold nth_window. f_equal; [|f_equal]; lia.
  - rewrite <- seq_shift, map_map. apply map_ext. intros i.
    apply nth_window_shift.
Qed.

Lemma timedelta_Some step_days :
  0 < step_days <= 999999999 ->
  timedelta step_days = Some (timedelta_days step_days).
Proof.
  intros H. unfold timedelta.
  destruct (Z.leb_spec (Z.abs step_days) 999999999); [reflexivity | lia].
Qed.

Lemma datetime_add_Some dt td :
  datetime_min <= dt + td <= datetime_max ->
  datetime_add dt td = Some (dt + td).
Proof.
  intros H. unfold datetime_add.
  destruct (Z.leb_spec datetime_min (dt + td)); [|lia].
  destruct (Z.leb_spec (dt + td) datetime_max); [reflexivity | lia].
Qed.

Lemma datetime_add_inv dt td r :
  datetime_add dt td = Some r ->
  r = dt + td /\ datetime_min <= dt + td <= datetime_max.
Proof.
  unfold datetime_add.
  destruct (Z.leb_spec datetime_min (dt + td)); [|discriminate].
  destruct (Z.leb_spec (dt + td) datetime_max); [|discriminate].
  intros [= <-]. lia.
Qed.

Lemma timedelta_inv step_days td :
  timedelta step_days = Some td ->
  td = timedelta_days step_days /\ Z.abs step_days <= 999999999.
Proof.
  unfold timedelta.
  destruct (Z.leb_spec (Z.abs step_days) 999999999); [|discriminate].
  intros [= <-]. split; [reflexivity | assumption].
Qed.

(** One round of the generator, for every step. *)
Lemma generate_date_ranges_S (fuel : nat) current end_ step_days :
  Historical.generate_date_ranges (S fuel) current end_ step_days
  = if current <? end_ then
      match td ← timedelta step_days; datetime_add current td with
      | None => Some ([], Some OverflowError)
      | Some next =>
          match Historical.generate_date_ranges fuel next end_ step_days with
          | None => None
          | Some (rest, ending) =>
              Some ((current, Z.min next end_) :: rest, ending)
          end
      end
    else Some ([], None).
Proof. reflexivity. Qed.

(** The generator stops by itself: when the sums it computes are
    datetimes, with fuel for one round more than there are windows it
    yields the whole plan and returns. *)
Lemma generate_date_ranges_plan step_days end_ :
  0 < step_days <= 999999999 ->
  forall (fuel : nat) current,
    datetime_min <= current ->
    (current < end_ ->
     current + Z.of_nat (chunk_count current end_ step_days)
               * timedelta_days step_days <= datetime_max) ->
    (chunk_count current end_ step_days < fuel)%nat ->
    Historical.generate_date_ranges fuel current end_ step_days =
    Some (planned_windows current end_ step_days, None).
Proof.
  intros Hs. assert (Hs0 : 0 < step_days) by lia.
  pose proof (timedelta_days_pos step_days Hs0) as HD.
  induction fuel as [|fuel IH]; intros current Hmin Hmax Hfuel; [lia|].
  rewrite generate_date_ranges_S. destruct (current <? end_) eqn:Hc.
  - apply Z.ltb_lt in Hc. specialize (Hmax Hc).
    rewrite (chunk_count_step current end_ step_days Hs0 Hc) in Hfuel, Hmax.
    rewrite (timedelta_Some step_days Hs). cbn [mbind option_bind].
    rewrite datetime_add_Some by nia.
    rewrite IH; [| lia | intros _; nia | lia].
    rewrite (planned_windows_step current end_ step_days Hs0 Hc). reflexivity.
  - apply Z.ltb_ge in Hc. unfold planned_windows.
    rewrite (chunk_count_done current end_ step_days Hs0 Hc). reflexivity.
Qed.

Lemma planned_windows_lookup current end_ step_days (i : nat) w :
  planned_windows current end_ step_days !! i = Some w <->
  (i < chunk_count current end_ step_days)%nat /\
  w = nth_window current end_ step_days i.
Proof.
  unfold planned_windows. rewrite list_lookup_fmap.
  destruct (decide (i < chunk_count current end_ step_days)%nat) as [Hi|Hi].
  - rewrite lookup_seq_lt by exact Hi. simpl. split.
    + intros [= <-]. split; [exact Hi | reflexivity].
    + intros [_ ->]. reflexivity.
  - rewrite lookup_seq_ge by lia. simpl. split; [discriminate|].
    intros [Hi' _]. contradiction.
Qed.

(** Arithmetic of the plan: a window that is not the last one ends before
    [end_]; the last one ends at [end_]. *)
Lemma chunk_count_bounds current end_ step_days :
  0 < step_days -> current < end_ ->
  let D := timedelta_days step_days in
  let n := Z.of_nat (chunk_count current end_ step_days) in
  0 < n /\ current + (n - 1) * D < end_ /\ end_ <= current + n * D.
Proof.
  intros Hs Hc D n.
  pose proof (timedelta_days_pos step_days Hs) as HD. fold D in HD.
  unfold n, chunk_count. fold D.
  set (x := end_ - current + D - 1).
  assert (Hq : 0 <= x / D) by (apply Z.div_pos; lia).
  rewrite Z2Nat.id by exact Hq.
  pose proof (Z.mul_div_le x D HD) as H1.
  pose proof (Z.mul_succ_div_gt x D HD) as H2.
  assert (1 <= x / D) by (apply Z.div_le_lower_bound; lia).
  unfold x in *. repeat split; nia.
Qed.

(** Whatever the generator yields before it returns is the plan, and it
    returns only when the sums of the plan are datetimes. *)
Lemma generate_date_ranges_Some step_days end_ :
  0 < step_days ->
  forall (fuel : nat) current windows,
    Historical.generate_date_ranges fuel current end_ step_days
      = Some (windows, None) ->
    windows = planned_windows current end_ step_days /\
    (current < end_ ->
     step_days <= 999999999 /\
     current + Z.of_nat (chunk_count current end_ step_days)
               * timedelta_days step_days <= datetime_max).
Proof.
  intros Hs. pose proof (timedelta_days_pos step_days Hs) as HD.
  induction fuel as [|fuel IH]; intros current windows H;
    [discriminate|].
  rewrite generate_date_ranges_S in H.
  destruct (current <? end_) eqn:Hc.
  - apply Z.ltb_lt in Hc.
    destruct (timedelta step_days) as [td|] eqn:Etd;
      cbn [mbind option_bind] in H; [|discriminate].
    apply timedelta_inv in Etd as [-> Habs].
    destruct (datetime_add current (timedelta_days step_days))
      as [next|] eqn:Eadd; [|discriminate].
    apply datetime_add_inv in Eadd as [-> Hrange].
    destruct (Historical.generate_date_ranges fuel
                (current + timedelta_days step_days) end_ step_days)
      as [[rest ending]|] eqn:E; [|discriminate].
    injection H as <- ->. apply IH in E as [-> Hrest].
    rewrite (planned_windows_step current end_ step_days Hs Hc).
    split; [reflexivity|]. intros _. split; [lia|].
    rewrite (chunk_count_step current end_ step_days Hs Hc).
    destruct (Z.lt_ge_cases (current + timedelta_days step_days) end_)
      as [Hlt|Hge].
    + destruct (Hrest Hlt) as [_ Hmax]. nia.
    + rewrite (chunk_count_done _ end_ step_days Hs) by lia. lia.
  - apply Z.ltb_ge in Hc. injection H as <-. unfold planned_windows.
    rewrite (chunk_count_done current end_ step_days Hs Hc).
    split; [reflexivity | lia].
Qed.

(** With a positive step the generator comes to an end: the distance to
    [end_] shrinks with every window. *)
Lemma generate_date_ranges_stops_forward step_days end_ :
  0 < step_days ->
  forall (n : nat) current,
    (Z.to_nat (end_ - current) <= n)%nat ->
    exists (fuel : nat) r,
      Historical.generate_date_ranges fuel current end_ step_days = Some r.
Proof.
  intros Hs. pose proof (timedelta_days_pos step_days Hs) as HD.
  induction n as [|n IH]; intros current Hn;
    destruct (current <? end_) eqn:Hc;
    try (exists 1%nat; eexists; rewrite generate_date_ranges_S, Hc;
         reflexivity).
  - apply Z.ltb_lt in Hc. lia.
  - destruct (timedelta step_days) as [td|] eqn:Etd;
      [|exists 1%nat; eexists; rewrite generate_date_ranges_S, Hc, Etd;
        reflexivity].
    destruct (datetime_add current td) as [next|] eqn:Eadd;
      [|exists 1%nat; eexists; rewrite generate_date_ranges_S, Hc, Etd;
        cbn [mbind option_bind]; rewrite Eadd; reflexivity].
    apply timedelta_inv in Etd as Htd. destruct Htd as [-> _].
    apply datetime_add_inv in Eadd as Hnext. destruct Hnext as [-> _].
    apply Z.ltb_lt in Hc as Hlt.
    destruct (IH (current + timedelta_days step_days)) as (fuel & [ws e] & E);
      [lia|].
    exists (S fuel). eexists.
    rewrite generate_date_ranges_S, Hc, Etd. cbn [mbind option_bind].
    rewrite Eadd, E. reflexivity.
Qed.

(** The generator raises nothing but OverflowError. *)
Lemma generate_date_ranges_ending step_days end_ :
  forall (fuel : nat) current ws e,
    Historical.generate_date_ranges fuel current end_ step_days
      = Some (ws, Some e) ->
    e = OverflowError.
Proof.
  induction fuel as [|fuel IH]; intros current ws e H; [discriminate H|].
  rewrite generate_date_ranges_S in H.
  destruct (current <? end_); [|discriminate H].
  destruct (timedelta step_days) as [td|]; cbn [mbind option_bind] in H;
    [|injection H as _ <-; reflexivity].
  destruct (datetime_add current td) as [next|];
    [|injection H as _ <-; reflexivity].
  destruct (Historical.generate_date_ranges fuel next end_ step_days)
    as [[rest ending]|] eqn:E; [|discriminate H].
  injection H as _ ->. exact (IH _ _ _ E).
Qed.

(** C4. For a range with [start < end_] and a positive number of days per
    step, of at most 999999999 days, such that the nominal end of the
    last window, which is [start] plus the number of windows times the
    step, is a datetime, the chunk planner yields (it terminates) an
    ordered sequence of windows that are contiguous, each a non-empty
    interval, pairwise non-overlapping, whose union is exactly the range
    from [start] (included) to [end_] (excluded); every window is at most
    [step_days] long and every window but the last is exactly [step_days]
    long. The planner returns under this condition only: otherwise it
    raises OverflowError in place of a window. *)
Theorem chunk_plan start end_ step_days :
  start < end_ -> 0 < step_days -> datetime_min <= start ->
  let last_end :=
    start + Z.of_nat (chunk_count start end_ step_days)
            * timedelta_days step_days in
  (step_days <= 999999999 -> last_end <= datetime_max ->
   exists (ws : list (datetime * datetime)) (n : nat),
     (forall fuel : nat, (n < fuel)%nat ->
        Historical.generate_date_ranges fuel start end_ step_days
          = Some (ws, None)) /\
     (forall (i : nat) a b,
        ws !! i = Some a -> ws !! S i = Some b -> fst b = snd a) /\
     (forall a, a ∈ ws -> fst a < snd a) /\
     (forall (i j : nat) a b, (i < j)%nat ->
        ws !! i = Some a -> ws !! j = Some b -> snd a <= fst b) /\
     (forall t, start <= t < end_ <->
                exists a, a ∈ ws /\ fst a <= t < snd a) /\
     (forall (i : nat) a, ws !! i = Some a ->
        snd a - fst a <= timedelta_days step_days /\
        ((S i < length ws)%nat -> snd a - fst a = timedelta_days step_days))) /\
  (forall (fuel : nat) ws,
     Historical.generate_date_ranges fuel start end_ step_days
       = Some (ws, None) ->
     step_days <= 999999999 /\ last_end <= datetime_max) /\
  (~ (step_days <= 999999999 /\ last_end <= datetime_max) ->
   exists (fuel : nat) ws,
     Historical.generate_date_ranges fuel start end_ step_days
       = Some (ws, Some OverflowError)).
Proof.
  intros Hlt Hs Hmin last_end.
  assert (Honly : forall (fuel : nat) ws,
            Historical.generate_date_ranges fuel start end_ step_days
              = Some (ws, None) ->
            step_days <= 999999999 /\ last_end <= datetime_max).
  { intros fuel ws H.
    apply (generate_date_ranges_Some step_days end_ Hs) in H as [_ H].
    exact (H Hlt). }
  split; [|split; [exact Honly|]].
  2:{ intros Hnot.
      destruct (generate_date_ranges_stops_forward step_days end_ Hs
                  (Z.to_nat (end_ - start)) start ltac:(lia))
        as (fuel & [ws [e|]] & E).
      - pose proof (generate_date_ranges_ending _ _ _ _ _ _ E) as ->.
        exists fuel, ws. exact E.
      - exfalso. exact (Hnot (Honly fuel ws E)). }
  intros Hstep Hmax.
  exists (planned_windows start end_ step_days),
         (chunk_count start end_ step_days).
  pose proof (timedelta_days_pos step_days Hs) as HD.
  pose proof (chunk_count_bounds start end_ step_days Hs Hlt) as Hb.
  cbv zeta in Hb. destruct Hb as (Hn0 & Hlast & Hend).
  subst last_end.
  set (D := timedelta_days step_days) in *.
  set (n := chunk_count start end_ step_days) in *.
  assert (Hlen : length (planned_windows start end_ step_days) = n)
    by (unfold planned_windows; rewrite length_map, length_seq; reflexivity).
  assert (Hin : forall i : nat, (i < n)%nat -> start + Z.of_nat i * D < end_)
    by (intros i Hi; nia).
  split; [|split; [|split; [|split; [|split]]]].
  - intros fuel Hfuel.
    apply generate_date_ranges_plan; [lia | exact Hmin | | exact Hfuel].
    intros _. exact Hmax.
  - intros i a b Ha Hb.
    apply planned_windows_lookup in Ha as [Hi ->].
    apply planned_windows_lookup in Hb as [Hj ->].
    unfold nth_window. fold D. fold n in Hi, Hj. simpl.
    specialize (Hin (S i) Hj). lia.
  - intros a Ha. apply list_elem_of_lookup in Ha as [i Ha].
    apply planned_windows_lookup in Ha as [Hi ->].
    unfold nth_window. fold D. fold n in Hi. simpl.
    specialize (Hin i Hi). lia.
  - intros i j a b Hij Ha Hb.
    apply planned_windows_lookup in Ha as [Hi ->].
    apply planned_windows_lookup in Hb as [Hj ->].
    unfold nth_window. fold D. simpl.
    assert (start + (Z.of_nat i + 1) * D <= start + Z.of_nat j * D) by nia.
    lia.
  - intros t. split.
    + intros [Ht1 Ht2].
      pose proof (Z.mul_div_le (t - start) D HD) as H1.
      pose proof (Z.mul_succ_div_gt (t - start) D HD) as H2.
      assert (Hq : 0 <= (t - start) / D) by (apply Z.div_pos; lia).
      set (q := (t - start) / D) in *.
      assert (Hqn : (Z.to_nat q < n)%nat) by nia.
      exists (nth_window start end_ step_days (Z.to_nat q)). split.
      * apply list_elem_of_lookup. exists (Z.to_nat q).
        apply planned_windows_lookup. split; [exact Hqn | reflexivity].
      * unfold nth_window. fold D. simpl. rewrite Z2Nat.id by exact Hq. lia.
    + intros (a & Ha & Ht). apply list_elem_of_lookup in Ha as [i Ha].
      apply planned_windows_lookup in Ha as [Hi ->].
      unfold nth_window in Ht. fold D in Ht. simpl in Ht. nia.
  - intros i a Ha.
    apply planned_windows_lookup in Ha as [Hi ->].
    unfold nth_window. fold D. fold n in Hi. simpl. split; [lia|].
    rewrite Hlen. intros Hsi. specialize (Hin (S i) Hsi). lia.
Qed.

Lemma chunk_plan_witness :
  exists (ws : list (datetime * datetime)) (n : nat),
    (forall fuel : nat, (n < fuel)%nat ->
       Historical.generate_date_ranges fuel 0 (timedelta_days 16) 7
         = Some (ws, None)) /\
    (forall (i : nat) a b,
       ws !! i = Some a -> ws !! S i = Some b -> fst b = snd a) /\
    (forall a, a ∈ ws -> fst a < snd a) /\
    (forall (i j : nat) a b, (i < j)%nat ->
       ws !! i = Some a -> ws !! j = Some b -> snd a <= fst b) /\
    (forall t, 0 <= t < timedelta_days 16 <->
               exists a, a ∈ ws /\ fst a <= t < snd a) /\
    (forall (i : nat) a, ws !! i = Some a ->
       snd a - fst a <= timedelta_days 7 /\
       ((S i < length ws)%nat -> snd a - fst a = timedelta_days 7)).
Proof.
  apply (proj1 (chunk_plan 0 (timedelta_days 16) 7 eq_refl eq_refl
                  ltac:(vm_compute; discriminate)));
    vm_compute; discriminate.
Defined.

(** C4 as stated fails: from 2024-01-01 to 2024-01-02 in steps of 3000000
    days, and from 9999-12-25 to 9999-12-30 in steps of 7 days, the start
    is before the end and the step is positive, and the planner yields no
    window at all: the first sum is no datetime and it raises
    OverflowError. *)
Lemma chunk_plan_overflow :
  Historical.generate_date_ranges 1 1704067200000000 1704153600000000 3000000
    = Some ([], Some OverflowError) /\
  Historical.generate_date_ranges 1 253401696000000000 253402128000000000 7
    = Some ([], Some OverflowError) /\
  1704067200000000 < 1704153600000000 /\
  253401696000000000 < 253402128000000000 /\
  (forall (fuel : nat) ws,
     Historical.generate_date_ranges fuel 1704067200000000 1704153600000000
       3000000 <> Some (ws, None)) /\
  (forall (fuel : nat) ws,
     Historical.generate_date_ranges fuel 253401696000000000
       253402128000000000 7 <> Some (ws, None)).
Proof.
  split; [reflexivity|]. split; [reflexivity|].
  split; [reflexivity|]. split; [reflexivity|].
  split; intros [|fuel] ws H; try discriminate H;
    rewrite generate_date_ranges_S in H; vm_compute in H; discriminate H.
Qed.

(** Sixteen days in steps of seven: two full windows and a short one. *)
Example generate_date_ranges_16_days :
  Historical.generate_date_ranges 4 0 (timedelta_days 16) 7 =
  Some ([(0, timedelta_days 7); (timedelta_days 7, timedelta_days 14);
         (timedelta_days 14, timedelta_days 16)], None).
Proof. reflexivity. Qed.

End PlannerFacts.

(** ** BackfillOrchestrator *)

Section BackfillFacts.
Context {record : Type}.
Variable server : list event -> request -> http_reply record.

Lemma extends_refl (w : world record) : extends w w.
Proof. exists []. rewrite app_nil_r. reflexivity. Qed.

Lemma extends_trans (w1 w2 w3 : world record) :
  extends w1 w2 -> extends w2 w3 -> extends w1 w3.
Proof.
  intros [t1 H1] [t2 H2]. exists (t1 ++ t2). rewrite H2, H1, app_assoc.
  reflexivity.
Qed.

Lemma extends_log (w : world record) e fs :
  extends w (mkWorld (trace w ++ [e]) fs).
Proof. exists [e]. reflexivity. Qed.

Lemma new_events_extends (w w' : world record) tr :
  trace w' = trace w ++ tr -> new_events w w' = tr.
Proof. intros H. unfold new_events. rewrite H, drop_app_length. reflexivity. Qed.

Lemma elem_of_new_events (w1 w2 w3 : world record) e :
  extends w1 w2 -> extends w2 w3 ->
  e ∈ new_events w2 w3 -> e ∈ new_events w1 w3.
Proof.
  intros [t1 H1] [t2 H2] He.
  rewrite (new_events_extends w2 w3 t2 H2) in He.
  rewrite (new_events_extends w1 w3 (t1 ++ t2))
    by (rewrite H2, H1, app_assoc; reflexivity).
  apply elem_of_app. right. exact He.
Qed.

Lemma one_attempt_world r w :
  snd (one_attempt server r w) = mkWorld (trace w ++ [Get r]) (files w).
Proof.
  unfold one_attempt, mbind, M_bind, bind, requests_get.
  destruct (server (trace w) r) as [|status body]; [reflexivity|].
  unfold raise_for_status.
  destruct ((400 <=? status) && (status <? 600)); [reflexivity|].
  destruct body; reflexivity.
Qed.

(** Fetching leaves the files alone and only adds to the trace. *)
Lemma fetch_attempts_world attempts r : forall w res w',
  Historical.fetch_attempts server attempts r w = (res, w') ->
  files w' = files w /\ extends w w'.
Proof.
  induction attempts as [|a rest IH]; intros w res w' H; simpl in H.
  - injection H as <- <-. split; [reflexivity | apply extends_refl].
  - unfold try_except in H. fold (one_attempt server r) in H.
    pose proof (one_attempt_world r w) as Hw.
    destruct (one_attempt server r w) as [[body|e|] w1]; simpl in Hw; subst w1.
    + injection H as <- <-. split; [reflexivity | apply extends_log].
    + destruct (is_RequestException e).
      * unfold mbind, M_bind, bind, sleep, log, modify in H. simpl in H.
        apply IH in H as [Hf He]. simpl in Hf. split; [exact Hf|].
        eapply extends_trans; [apply (extends_log w (Get r) (files w))|].
        eapply extends_trans; [|exact He].
        apply (extends_log (mkWorld (trace w ++ [Get r]) (files w))).
      * injection H as <- <-. split; [reflexivity | apply extends_log].
    + injection H as <- <-. split; [reflexivity | apply extends_log].
Qed.

Lemma extract_range_loop_world start_date end_date (fuel : nat) :
  forall page all_data w res w',
    Historical.extract_range_loop server fuel start_date end_date page all_data w
      = (res, w') ->
    files w' = files w /\ extends w w'.
Proof.
  induction fuel as [|fuel IH]; intros page all_data w res w' H; simpl in H.
  - injection H as <- <-. split; [reflexivity | apply extends_refl].
  - unfold mbind, M_bind, bind in H.
    destruct (Historical.fetch_cashless_data server start_date end_date page 100 w)
      as [r1 w1] eqn:E1.
    apply fetch_attempts_world in E1 as [Hf1 He1].
    destruct r1 as [data|e|].
    + destruct (is_empty data).
      { injection H as <- <-. split; assumption. }
      destruct (len data <? 100).
      { injection H as <- <-. split; assumption. }
      unfold sleep, log, modify in H. simpl in H.
      apply IH in H as [Hf He]. simpl in Hf. split; [congruence|].
      eapply extends_trans; [exact He1|].
      eapply extends_trans; [|exact He].
      apply (extends_log w1).
    + injection H as <- <-. split; assumption.
    + injection H as <- <-. split; assumption.
Qed.

(** A window for which the API has nothing: one request, no record. *)
Lemma extract_range_empty start_date end_date (fuel : nat) w :
  empty_window server start_date end_date ->
  Historical.extract_range server (S fuel) start_date end_date w =
  (Ok [], mkWorld (trace w ++ [Get (historical_request start_date end_date 1 100)])
                  (files w)).
Proof.
  intros Hempty. unfold Historical.extract_range.
  cbn [Historical.extract_range_loop].
  unfold mbind, M_bind, bind, Historical.fetch_cashless_data.
  fold (historical_request start_date end_date 1 100).
  rewrite (fetch_attempts_first_ok server 0 [1; 2]
             (historical_request start_date end_date 1 100) w 200 []
             (Hempty _) eq_refl).
  reflexivity.
Qed.

(** The step for a window whose file is missing and for which the API
    has nothing: it is fetched, and nothing is written. *)
Lemma backfill_chunk_empty start_date end_date (fuel : nat) w :
  empty_window server start_date end_date ->
  files w !! Historical.chunk_filename start_date end_date = None ->
  Historical.backfill_chunk server (S fuel) start_date end_date w =
  (Ok tt,
   mkWorld (trace w ++ [Get (historical_request start_date end_date 1 100);
                        Sleep 1])
           (files w)).
Proof.
  intros Hempty Hfile.
  unfold Historical.backfill_chunk, mbind, M_bind, bind,
    Historical.os_path_exists, gets.
  rewrite Hfile.
  rewrite bool_decide_eq_false_2 by (intros [x Hx]; discriminate).
  rewrite (extract_range_empty start_date end_date fuel w Hempty).
  unfold Historical.save_data_as_csv, sleep, log, modify. simpl.
  rewrite <- app_assoc. reflexivity.
Qed.

(** Whatever the step for a window does, it only adds to the trace, and it
    creates no file but, possibly, that of its window, and that one only
    when the API has something for the window. *)
Lemma backfill_chunk_world start_date end_date (fuel : nat) w res w' :
  Historical.backfill_chunk server fuel start_date end_date w = (res, w') ->
  extends w w' /\
  forall filename,
    files w !! filename = None ->
    (Historical.chunk_filename start_date end_date = filename ->
     empty_window server start_date end_date) ->
    files w' !! filename = None.
Proof.
  intros H.
  unfold Historical.backfill_chunk, mbind, M_bind, bind,
    Historical.os_path_exists, gets in H.
  destruct (bool_decide
              (is_Some (files w !! Historical.chunk_filename start_date end_date)))
    eqn:Hpresent.
  - injection H as <- <-. split; [apply extends_refl | intros; assumption].
  - apply bool_decide_eq_false in Hpresent.
    destruct (Historical.extract_range server fuel start_date end_date w)
      as [r1 w1] eqn:E1.
    pose proof E1 as E1'.
    apply extract_range_loop_world in E1' as [Hf1 He1].
    destruct r1 as [data|e|]; try (injection H as <- <-; split;
      [exact He1 | intros fn Hfn _; rewrite Hf1; exact Hfn]).
    unfold Historical.save_data_as_csv in H.
    destruct (is_empty data) eqn:Hdata.
    + unfold sleep, log, modify in H. simpl in H. injection H as <- <-.
      split; [eapply extends_trans; [exact He1 | apply extends_log]|].
      intros fn Hfn _. simpl. rewrite Hf1. exact Hfn.
    + unfold sleep, log, modify in H. simpl in H. injection H as <- <-.
      split.
      * eapply extends_trans; [exact He1|].
        exists [WriteCsv (date_of start_date) (date_of end_date); Sleep 1].
        simpl. rewrite <- app_assoc. reflexivity.
      * intros fn Hfn Hempty. simpl.
        destruct (decide (Historical.chunk_filename start_date end_date = fn))
          as [Heq|Hne].
        -- exfalso. destruct fuel as [|fuel].
           ++ discriminate E1.
           ++ rewrite (extract_range_empty start_date end_date fuel w
                         (Hempty Heq)) in E1.
              injection E1 as <- <-. discriminate Hdata.
        -- rewrite lookup_insert_ne by exact Hne. rewrite Hf1. exact Hfn.
Qed.

Lemma backfill_loop_world (fuel : nat) filename :
  forall windows w res w',
    (forall start_date end_date,
       (start_date, end_date) ∈ windows ->
       Historical.chunk_filename start_date end_date = filename ->
       empty_window server start_date end_date) ->
    files w !! filename = None ->
    Historical.backfill_loop server fuel windows w = (res, w') ->
    extends w w' /\ files w' !! filename = None.
Proof.
  induction windows as [|[s e] windows IH]; intros w res w' Hempty Hfile H;
    simpl in H.
  - injection H as <- <-. split; [apply extends_refl | exact Hfile].
  - unfold mbind, M_bind, bind in H.
    destruct (Historical.backfill_chunk server fuel s e w) as [r1 w1] eqn:E1.
    apply backfill_chunk_world in E1 as [He1 Hf1].
    specialize (Hf1 filename Hfile
                  (fun Heq => Hempty s e (list_elem_of_here _ _) Heq)).
    destruct r1 as [[]|ex|]; try (injection H as <- <-; split; assumption).
    apply IH in H as [He Hf]; [|intros s' e' Hin; apply Hempty;
                                 apply list_elem_of_further; exact Hin | exact Hf1].
    split; [eapply extends_trans; eassumption | exact Hf].
Qed.

(** A run that reaches its end has fetched every window of its plan whose
    file was missing and for which the API has nothing. *)
Lemma backfill_loop_fetches (fuel : nat) start_date end_date :
  empty_window server start_date end_date ->
  forall windows w w',
    (start_date, end_date) ∈ windows ->
    (forall s e, (s, e) ∈ windows ->
       Historical.chunk_filename s e =
         Historical.chunk_filename start_date end_date ->
       (s, e) = (start_date, end_date)) ->
    files w !! Historical.chunk_filename start_date end_date = None ->
    Historical.backfill_loop server fuel windows w = (Ok tt, w') ->
    Get (historical_request start_date end_date 1 100) ∈ new_events w w'.
Proof.
  intros Hempty.
  induction windows as [|[s e] windows IH]; intros w w' Hin Hinj Hfile H.
  - apply elem_of_nil in Hin. contradiction.
  - simpl in H. unfold mbind, M_bind, bind in H.
    destruct (Historical.backfill_chunk server fuel s e w) as [r1 w1] eqn:E1.
    destruct r1 as [[]|ex|]; try discriminate H.
    destruct (decide ((s, e) = (start_date, end_date))) as [Heq|Hne].
    + injection Heq as -> ->.
      destruct fuel as [|fuel].
      { unfold Historical.backfill_chunk, mbind, M_bind, bind,
          Historical.os_path_exists, gets in E1.
        rewrite Hfile in E1.
        rewrite bool_decide_eq_false_2 in E1 by (intros [x Hx]; discriminate).
        discriminate E1. }
      rewrite (backfill_chunk_empty start_date end_date fuel w Hempty Hfile)
        in E1.
      injection E1 as <-.
      apply (backfill_loop_world (S fuel)
               (Historical.chunk_filename start_date end_date)) in H
        as [[tr Htr] _].
      * rewrite (new_events_extends w w'
                   ([Get (historical_request start_date end_date 1 100); Sleep 1]
                    ++ tr))
          by (rewrite Htr; simpl; rewrite <- app_assoc; reflexivity).
        apply elem_of_app. left. apply list_elem_of_here.
      * intros s' e' Hin' Heq'.
        specialize (Hinj s' e' (list_elem_of_further _ _ _ Hin') Heq').
        injection Hinj as -> ->. exact Hempty.
      * simpl. exact Hfile.
    + apply backfill_chunk_world in E1 as [He1 Hf1].
      specialize (Hf1 _ Hfile
        (fun Heq => match Hne (Hinj s e (list_elem_of_here _ _) Heq) with end)).
      apply elem_of_cons in Hin as [Hin|Hin]; [congruence|].
      pose proof H as H'.
      apply (backfill_loop_world fuel
               (Historical.chunk_filename start_date end_date)) in H'
        as [He _].
      * apply (elem_of_new_events w w1 w' _ He1 He).
        apply IH; try assumption.
        intros s' e' Hin'. apply Hinj. apply list_elem_of_further. exact Hin'.
      * intros s' e' Hin' Heq'.
        specialize (Hinj s' e' (list_elem_of_further _ _ _ Hin') Heq').
        injection Hinj as -> ->. exact Hempty.
      * exact Hf1.
Qed.

(** No two windows of a plan have the same file name: their start dates
    differ. *)
Lemma planned_windows_filename_inj current end_ step_days a b :
  0 < step_days ->
  a ∈ planned_windows current end_ step_days ->
  b ∈ planned_windows current end_ step_days ->
  Historical.chunk_filename (fst a) (snd a) =
    Historical.chunk_filename (fst b) (snd b) ->
  a = b.
Proof.
  intros Hs Ha Hb Heq.
  apply list_elem_of_lookup in Ha as [i Ha].
  apply list_elem_of_lookup in Hb as [j Hb].
  apply planned_windows_lookup in Ha as [_ ->].
  apply planned_windows_lookup in Hb as [_ ->].
  unfold Historical.chunk_filename, nth_window in Heq. simpl in Heq.
  injection Heq as Heq _. unfold date_of, timedelta_days in Heq.
  replace (current + Z.of_nat i * (step_days * 86400000000))
    with (current + (Z.of_nat i * step_days) * 86400000000) in Heq by lia.
  replace (current + Z.of_nat j * (step_days * 86400000000))
    with (current + (Z.of_nat j * step_days) * 86400000000) in Heq by lia.
  rewrite !Z.div_add in Heq by lia.
  assert (i = j) as -> by nia. reflexivity.
Qed.

(** The [for] loop is the last statement of the script. *)
Lemma then_ret_tt {St} (m : M St unit) (s : St) : (m;; ret tt) s = m s.
Proof.
  unfold mbind, M_bind, bind, ret.
  destruct (m s) as [[[]|e|] s']; reflexivity.
Qed.

(** One run of the script, started while the file of an empty window of
    its plan is missing: the file is still missing afterwards, and if the
    run reaches its end the window has been fetched. *)
Lemma main_empty_chunk (fuel : nat) now windows start_date end_date w res w' :
  empty_window server start_date end_date ->
  Historical.generate_date_ranges fuel Historical.START now 7
    = Some (windows, None) ->
  (start_date, end_date) ∈ windows ->
  files w !! Historical.chunk_filename start_date end_date = None ->
  Historical.main server fuel now w = (res, w') ->
  extends w w' /\
  files w' !! Historical.chunk_filename start_date end_date = None /\
  (res = Ok tt ->
   Get (historical_request start_date end_date 1 100) ∈ new_events w w').
Proof.
  intros Hempty Hgen Hin Hfile H. unfold Historical.main in H.
  rewrite Hgen, then_ret_tt in H.
  pose proof (generate_date_ranges_Some 7 now eq_refl _ _ _ Hgen)
    as [Hplan _].
  assert (Hinj : forall s e, (s, e) ∈ windows ->
            Historical.chunk_filename s e =
              Historical.chunk_filename start_date end_date ->
            (s, e) = (start_date, end_date)).
  { intros s e Hse Heq. subst windows.
    apply (planned_windows_filename_inj Historical.START now 7 (s, e)
             (start_date, end_date) eq_refl Hse Hin Heq). }
  pose proof H as H1.
  apply (backfill_loop_world fuel
           (Historical.chunk_filename start_date end_date)) in H1 as [He Hf];
    [| intros s e Hse Heq; specialize (Hinj s e Hse Heq);
       injection Hinj as -> ->; exact Hempty
     | exact Hfile].
  split; [exact He|]. split; [exact Hf|].
  intros ->.
  apply (backfill_loop_fetches fuel start_date end_date Hempty windows w w'
           Hin Hinj Hfile H).
Qed.

Lemma fetches_of_app r (t1 t2 : list event) :
  fetches_of r (t1 ++ t2) = (fetches_of r t1 + fetches_of r t2)%nat.
Proof. unfold fetches_of. rewrite filter_app, length_app. reflexivity. Qed.

Lemma fetches_of_elem r (tr : list event) :
  Get r ∈ tr -> (1 <= fetches_of r tr)%nat.
Proof.
  intros Hin. unfold fetches_of.
  assert (Hf : Get r ∈ filter (fun e => e = Get r) tr)
    by (apply list_elem_of_filter; split; [reflexivity | exact Hin]).
  destruct (filter (fun e => e = Get r) tr); [|simpl; lia].
  apply elem_of_nil in Hf. contradiction.
Qed.

(** C10. A chunk for which the fetch returns no record leaves no file: the
    save step returns without writing. As the existence of the file is
    the only reason to skip a chunk, the chunk is fetched again by every
    later run of the backfill: after any number of successive runs that
    reach their end and have the chunk in their plan, its file is still
    missing and its first page has been requested at least once per run. *)
Theorem empty_chunk_refetched (fuel : nat) nows start_date end_date w w' :
  empty_window server start_date end_date ->
  (forall now, now ∈ nows ->
     exists windows,
       Historical.generate_date_ranges fuel Historical.START now 7
         = Some (windows, None) /\
       (start_date, end_date) ∈ windows) ->
  files w !! Historical.chunk_filename start_date end_date = None ->
  backfill_runs server fuel nows w = (Ok tt, w') ->
  Historical.save_data_as_csv [] start_date end_date w = (Ok tt, w) /\
  files w' !! Historical.chunk_filename start_date end_date = None /\
  (length nows <=
   fetches_of (historical_request start_date end_date 1 100) (new_events w w'))%nat.
Proof.
  intros Hempty Hplans Hfile H. split; [reflexivity|].
  assert (Hgoal : extends w w' /\
    files w' !! Historical.chunk_filename start_date end_date = None /\
    (length nows <=
     fetches_of (historical_request start_date end_date 1 100)
                (new_events w w'))%nat).
  { revert w Hfile H Hplans.
    induction nows as [|now nows IH]; intros w Hfile H Hplans; simpl in H.
    - injection H as <-. split; [apply extends_refl|]. split; [exact Hfile|].
      simpl. lia.
    - unfold mbind, M_bind, bind in H.
      destruct (Historical.main server fuel now w) as [r1 w1] eqn:E1.
      destruct r1 as [[]|ex|]; try discriminate H.
      destruct (Hplans now (list_elem_of_here _ _)) as (windows & Hgen & Hin).
      destruct (main_empty_chunk fuel now windows start_date end_date w _ w1
                  Hempty Hgen Hin Hfile E1) as (He1 & Hf1 & Hget).
      specialize (Hget eq_refl).
      destruct (IH w1 Hf1 H) as (He & Hf & Hcount).
      { intros now' Hnow'. apply Hplans. apply list_elem_of_further. exact Hnow'. }
      split; [eapply extends_trans; eassumption|]. split; [exact Hf|].
      destruct He1 as [t1 Ht1]. destruct He as [t2 Ht2].
      rewrite (new_events_extends w w1 t1 Ht1) in Hget.
      rewrite (new_events_extends w1 w' t2 Ht2) in Hcount.
      rewrite (new_events_extends w w' (t1 ++ t2))
        by (rewrite Ht2, Ht1, app_assoc; reflexivity).
      rewrite fetches_of_app. apply fetches_of_elem in Hget. simpl. lia. }
  destruct Hgoal as (_ & Hf & Hc). split; assumption.
Qed.

End BackfillFacts.

Lemma empty_chunk_refetched_witness :
  Historical.save_data_as_csv [] (fst first_week) (snd first_week) fresh_world
    = (Ok tt, fresh_world) /\
  files after_two_runs
    !! Historical.chunk_filename (fst first_week) (snd first_week) = None /\
  (length two_runs <=
   fetches_of (historical_request (fst first_week) (snd first_week) 1 100)
              (new_events fresh_world after_two_runs))%nat.
Proof.
  apply (empty_chunk_refetched empty_api 3 two_runs
           (fst first_week) (snd first_week) fresh_world after_two_runs).
  - intros tr. reflexivity.
  - intros now Hnow. unfold two_runs in Hnow.
    apply elem_of_cons in Hnow as [->|Hnow];
      [|apply elem_of_cons in Hnow as [->|Hnow];
        [|apply elem_of_nil in Hnow; contradiction]];
      (eexists; split; [vm_compute; reflexivity | apply list_elem_of_here]).
  - reflexivity.
  - vm_compute. reflexivity.
Defined.

(** The two runs, spelled out: each of them asks for the first page of
    both chunks of its plan, and no file is written. *)
Example two_runs_trace :
  requests_of (trace after_two_runs) =
    [historical_request Historical.START (Historical.START + timedelta_days 7) 1 100;
     historical_request (Historical.START + timedelta_days 7)
                        (Historical.START + timedelta_days 10) 1 100;
     historical_request Historical.START (Historical.START + timedelta_days 7) 1 100;
     historical_request (Historical.START + timedelta_days 7)
                        (Historical.START + timedelta_days 11) 1 100] /\
  files after_two_runs = ∅.
Proof. split; vm_compute; reflexivity. Qed.

(** ** SyncRunner: the window of the daily sync *)

Section WindowFacts.
Context {record : Type}.
Variable fromisoformat : string -> option datetime.


End WindowFacts.



(** ** Consolidator *)

Section ConsolidatorFacts.

Lemma recency_le_refl a : Consolidate.recency_le a a = true.
Proof.
  destruct a as [x|]; simpl; [|reflexivity].
  destruct (String.leb_total x x); assumption.
Qed.

Lemma duplicated_last_true subset r rest :
  Consolidate.duplicated_last subset r rest = true <->
  exists x, x ∈ rest /\ x !! subset = r !! subset.
Proof.
  unfold Consolidate.duplicated_last. rewrite existsb_exists. split.
  - intros (x & Hin & Hx). exists x. split; [apply list_elem_of_In; exact Hin|].
    apply bool_decide_eq_true in Hx. exact Hx.
  - intros (x & Hin & Hx). exists x. split; [apply list_elem_of_In; exact Hin|].
    apply bool_decide_eq_true. exact Hx.
Qed.

Lemma drop_duplicates_last_elem subset l r :
  r ∈ Consolidate.drop_duplicates_last subset l -> r ∈ l.
Proof.
  induction l as [|a rest IH]; simpl; [easy|].
  destruct (Consolidate.duplicated_last subset a rest).
  - intros H. apply list_elem_of_further, IH, H.
  - intros H. apply elem_of_cons in H as [->|H];
      [apply list_elem_of_here | apply list_elem_of_further, IH, H].
Qed.

(** At most one row per id survives. *)
Lemma drop_duplicates_last_NoDup subset l :
  NoDup (map (fun r : row => r !! subset)
             (Consolidate.drop_duplicates_last subset l)).
Proof.
  induction l as [|a rest IH]; simpl; [constructor|].
  destruct (Consolidate.duplicated_last subset a rest) eqn:Hd; [exact IH|].
  simpl. constructor; [|exact IH].
  intros Hin. apply list_elem_of_fmap in Hin as (x & Hx & Hin).
  apply drop_duplicates_last_elem in Hin.
  assert (Consolidate.duplicated_last subset a rest = true)
    by (apply duplicated_last_true; exists x; split; [exact Hin | congruence]).
  congruence.
Qed.

(** Every row of the list has a surviving row with its id, which is the
    last row of the list with this id. *)
Lemma drop_duplicates_last_survivor subset l : forall r,
  r ∈ l ->
  exists l1 r' l2,
    l = l1 ++ r' :: l2 /\
    r' !! subset = r !! subset /\
    r' ∈ Consolidate.drop_duplicates_last subset l /\
    (r = r' \/ r ∈ l1) /\
    (forall x, x ∈ l2 -> x !! subset <> r !! subset).
Proof.
  induction l as [|a rest IH]; intros r Hr; [apply elem_of_nil in Hr; easy|].
  assert (Hrest : forall x, x ∈ rest ->
    exists l1 r' l2,
      a :: rest = l1 ++ r' :: l2 /\
      r' !! subset = x !! subset /\
      r' ∈ Consolidate.drop_duplicates_last subset (a :: rest) /\
      (a ∈ l1 /\ (x = r' \/ x ∈ l1)) /\
      (forall y, y ∈ l2 -> y !! subset <> x !! subset)).
  { intros x Hx. destruct (IH x Hx) as (l1 & r' & l2 & -> & Hid & Hin & Hpos & Hl2).
    exists (a :: l1), r', l2. split; [reflexivity|]. split; [exact Hid|].
    split.
    - simpl. destruct (Consolidate.duplicated_last subset a (l1 ++ r' :: l2));
        [exact Hin | apply list_elem_of_further, Hin].
    - split; [|exact Hl2]. split; [apply list_elem_of_here|].
      destruct Hpos as [->|Hpos]; [left; reflexivity|].
      right. apply list_elem_of_further, Hpos. }
  destruct (Consolidate.duplicated_last subset a rest) eqn:Hd.
  - apply elem_of_cons in Hr as [->|Hr].
    + apply duplicated_last_true in Hd as (x & Hx & Hxa).
      destruct (Hrest x Hx) as (l1 & r' & l2 & E & Hid & Hin & [Ha _] & Hl2).
      exists l1, r', l2. rewrite <- Hxa.
      repeat split; try assumption. right. exact Ha.
    + destruct (Hrest r Hr) as (l1 & r' & l2 & E & Hid & Hin & [_ Hpos] & Hl2).
      exists l1, r', l2. repeat split; assumption.
  - apply elem_of_cons in Hr as [->|Hr].
    + exists [], a, rest. split; [reflexivity|]. split; [reflexivity|].
      split; [simpl; rewrite Hd; apply list_elem_of_here|].
      split; [left; reflexivity|].
      intros x Hx Heq.
      assert (Consolidate.duplicated_last subset a rest = true)
        by (apply duplicated_last_true; exists x; split; assumption).
      congruence.
    + destruct (Hrest r Hr) as (l1 & r' & l2 & E & Hid & Hin & [_ Hpos] & Hl2).
      exists l1, r', l2. repeat split; assumption.
Qed.

Lemma StronglySorted_before {A} (R : A -> A -> Prop) l1 x l2 :
  StronglySorted R (l1 ++ x :: l2) -> forall y, y ∈ l1 -> R y x.
Proof.
  induction l1 as [|a l1 IH]; intros Hs y Hy; [apply elem_of_nil in Hy; easy|].
  simpl in Hs. apply StronglySorted_inv in Hs as [Hs Hall].
  apply elem_of_cons in Hy as [->|Hy]; [|apply IH; assumption].
  rewrite Forall_forall in Hall. apply Hall.
  apply elem_of_app. right. apply list_elem_of_here.
Qed.

(** The script when its checks pass. *)
Lemma consolidate_Ok sort_values df_list combined :
  Consolidate.pd_concat df_list = Ok combined ->
  let renamed := Consolidate.rename "id" "transaction_id" combined in
  contains "occurred_at" (columns renamed) = true ->
  contains "transaction_id" (columns renamed) = true ->
  Consolidate.consolidate sort_values df_list =
  Ok (mkDataFrame (columns renamed)
        (Consolidate.drop_duplicates_last "transaction_id"
           (sort_values (rows renamed)))).
Proof.
  intros Hconcat renamed Hocc Hid.
  unfold Consolidate.consolidate. rewrite Hconcat. fold renamed.
  cbn [columns rows]. rewrite Hocc, Hid. reflexivity.
Qed.

(** What the consolidation does for rows that all have a timestamp, and
    for the others. Whenever the sort has done its work (its
    result holds the same rows in ascending order of the recency column,
    rows without a timestamp last), the consolidation keeps exactly one row
    per id: the ids of the output are pairwise different, every output row
    is an input row, and every input row has a surviving row with its id
    whose recency is at least its own in the order of the sort. Which of
    several rows with the same id and the same recency survives is left to
    the sort. *)
Theorem consolidation sort_values df_list combined :
  Consolidate.pd_concat df_list = Ok combined ->
  let renamed := Consolidate.rename "id" "transaction_id" combined in
  contains "occurred_at" (columns renamed) = true ->
  contains "transaction_id" (columns renamed) = true ->
  Consolidate.sort_values_ok sort_values "occurred_at" (rows renamed) ->
  exists out,
    Consolidate.consolidate sort_values df_list = Ok out /\
    NoDup (map row_id (rows out)) /\
    (forall r, r ∈ rows out -> r ∈ rows renamed) /\
    (forall r, r ∈ rows renamed ->
       exists r', r' ∈ rows out /\ row_id r' = row_id r /\
                  Consolidate.recency_le (recency r) (recency r') = true).
Proof.
  intros Hconcat renamed Hocc Hid [Hperm Hsorted].
  rewrite (consolidate_Ok sort_values df_list combined Hconcat Hocc Hid).
  fold renamed. eexists. split; [reflexivity|]. cbn [rows].
  split; [apply drop_duplicates_last_NoDup|]. split.
  - intros r Hr. apply drop_duplicates_last_elem in Hr.
    rewrite <- Hperm. exact Hr.
  - intros r Hr. rewrite <- Hperm in Hr.
    destruct (drop_duplicates_last_survivor "transaction_id" _ r Hr)
      as (l1 & r' & l2 & E & Hsame & Hin & Hpos & _).
    exists r'. split; [exact Hin|]. split; [exact Hsame|].
    destruct Hpos as [->|Hpos]; [apply recency_le_refl|].
    rewrite E in Hsorted.
    apply (StronglySorted_before _ l1 r' l2 Hsorted r Hpos).
Qed.

(** Two chunks with one row each, for the same id, the second row
    strictly later than the first in the order of the sort: whatever the
    sort does with ties and in whichever order the chunks are read, the
    later row survives, alone. *)
Lemma consolidate_pair sort_values id t1 v1 t2 v2 :
  Consolidate.recency_le t2 t1 = false ->
  (forall l, Consolidate.sort_values_ok sort_values "occurred_at" l) ->
  fmap_rows (Consolidate.consolidate sort_values
               [chunk id t1 v1; chunk id t2 v2])
    = Some [combined_row id t2 v2] /\
  fmap_rows (Consolidate.consolidate sort_values
               [chunk id t2 v2; chunk id t1 v1])
    = Some [combined_row id t2 v2].
Proof.
  intros Hlt Hsort.
  set (r1 := combined_row id t1 v1). set (r2 := combined_row id t2 v2).
  set (cols := ["id"; "occurred_at"; "value"]).
  assert (K1 : recency r1 = t1) by (destruct t1; reflexivity).
  assert (K2 : recency r2 = t2) by (destruct t2; reflexivity).
  assert (I1 : row_id r1 = Some id) by (destruct t1; reflexivity).
  assert (I2 : row_id r2 = Some id) by (destruct t2; reflexivity).
  assert (Hsorted : forall l, Permutation l [r1; r2] ->
            sort_values l = [r1; r2]).
  { intros l Hl. destruct (Hsort l) as [Hperm Hs].
    pose proof (Permutation_trans Hperm Hl) as Hp.
    apply Permutation_sym, Permutation_length_2_inv in Hp as [H|H];
      [exact H|].
    rewrite H in Hs. apply StronglySorted_inv in Hs as [_ Hall].
    apply Forall_inv in Hall. fold (recency r1) (recency r2) in Hall.
    congruence. }
  assert (C1 : Consolidate.pd_concat [chunk id t1 v1; chunk id t2 v2]
               = Ok (mkDataFrame cols (rows (chunk id t1 v1) ++
                                       rows (chunk id t2 v2))))
    by reflexivity.
  assert (C2 : Consolidate.pd_concat [chunk id t2 v2; chunk id t1 v1]
               = Ok (mkDataFrame cols (rows (chunk id t2 v2) ++
                                       rows (chunk id t1 v1))))
    by reflexivity.
  assert (E1 : rows (Consolidate.rename "id" "transaction_id"
                 (mkDataFrame cols (rows (chunk id t1 v1) ++
                                    rows (chunk id t2 v2)))) = [r1; r2])
    by (destruct t1, t2; reflexivity).
  assert (E2 : rows (Consolidate.rename "id" "transaction_id"
                 (mkDataFrame cols (rows (chunk id t2 v2) ++
                                    rows (chunk id t1 v1)))) = [r2; r1])
    by (destruct t1, t2; reflexivity).
  assert (Hd : Consolidate.drop_duplicates_last "transaction_id" [r1; r2] = [r2]).
  { simpl. unfold Consolidate.duplicated_last. simpl.
    fold (row_id r1) (row_id r2). rewrite I1, I2.
    rewrite bool_decide_eq_true_2 by reflexivity. reflexivity. }
  split.
  - rewrite (consolidate_Ok sort_values _ _ C1) by reflexivity.
    unfold fmap_rows. cbn [rows]. rewrite E1.
    rewrite (Hsorted [r1; r2]) by reflexivity.
    rewrite Hd. reflexivity.
  - rewrite (consolidate_Ok sort_values _ _ C2) by reflexivity.
    unfold fmap_rows. cbn [rows]. rewrite E2.
    rewrite (Hsorted [r2; r1]) by apply perm_swap.
    rewrite Hd. reflexivity.
Qed.

(** The order of the sort is total and transitive. *)
Lemma string_compare_trans s1 : forall s2 s3,
  String.compare s1 s2 <> Gt -> String.compare s2 s3 <> Gt ->
  String.compare s1 s3 <> Gt.
Proof.
  induction s1 as [|c1 s1 IH]; intros [|c2 s2] [|c3 s3]; simpl; try easy.
  unfold Ascii.compare.
  destruct (N.compare_spec (Ascii.N_of_ascii c1) (Ascii.N_of_ascii c2)) as [E12|L12|G12];
  destruct (N.compare_spec (Ascii.N_of_ascii c2) (Ascii.N_of_ascii c3)) as [E23|L23|G23];
  destruct (N.compare_spec (Ascii.N_of_ascii c1) (Ascii.N_of_ascii c3)) as [E13|L13|G13];
    try easy; try lia.
  apply IH.
Qed.

Lemma string_leb_trans s1 s2 s3 :
  String.leb s1 s2 = true -> String.leb s2 s3 = true -> String.leb s1 s3 = true.
Proof.
  unfold String.leb. intros H1 H2.
  pose proof (string_compare_trans s1 s2 s3) as H.
  destruct (String.compare s1 s2); try discriminate;
    destruct (String.compare s2 s3); try discriminate;
    destruct (String.compare s1 s3); try reflexivity;
    exfalso; apply H; easy.
Qed.

Lemma recency_le_trans a b c :
  Consolidate.recency_le a b = true -> Consolidate.recency_le b c = true ->
  Consolidate.recency_le a c = true.
Proof.
  destruct a as [x|], b as [y|], c as [z|]; simpl; try easy.
  apply string_leb_trans.
Qed.

Lemma recency_le_total a b :
  Consolidate.recency_le a b = false -> Consolidate.recency_le b a = true.
Proof.
  destruct a as [x|], b as [y|]; simpl; try easy.
  destruct (String.leb_total x y) as [H|H]; [congruence | intros _; exact H].
Qed.

Section InsertionSort.
Variable before : row -> row -> bool.
Hypothesis before_true : forall x y,
  before x y = true -> Consolidate.recency_le (recency x) (recency y) = true.
Hypothesis before_false : forall x y,
  before x y = false -> Consolidate.recency_le (recency y) (recency x) = true.

Lemma insert_by_perm x l : Permutation (insert_by before x l) (x :: l).
Proof.
  induction l as [|y l IH]; simpl; [reflexivity|].
  destruct (before x y); [reflexivity|].
  rewrite IH. apply perm_swap.
Qed.

Lemma insertion_sort_perm l : Permutation (insertion_sort before l) l.
Proof.
  induction l as [|x l IH]; simpl; [reflexivity|].
  rewrite insert_by_perm, IH. reflexivity.
Qed.

Lemma insert_by_sorted x l :
  StronglySorted
    (fun r1 r2 => Consolidate.recency_le (recency r1) (recency r2) = true) l ->
  StronglySorted
    (fun r1 r2 => Consolidate.recency_le (recency r1) (recency r2) = true)
    (insert_by before x l).
Proof.
  induction l as [|y l IH]; intros Hs; simpl.
  - constructor; constructor.
  - apply StronglySorted_inv in Hs as [Hs Hall].
    destruct (before x y) eqn:Hb.
    + constructor; [constructor; assumption|].
      constructor; [apply before_true, Hb|].
      eapply Forall_impl; [exact Hall|]. intros z Hz. simpl in Hz.
      eapply recency_le_trans; [apply before_true, Hb | exact Hz].
    + constructor; [apply IH, Hs|].
      rewrite (insert_by_perm x l). constructor; [apply before_false, Hb|].
      exact Hall.
Qed.

Lemma insertion_sort_ok l :
  Consolidate.sort_values_ok (insertion_sort before) "occurred_at" l.
Proof.
  split; [apply insertion_sort_perm|].
  induction l as [|x l IH]; simpl; [constructor|].
  apply insert_by_sorted, IH.
Qed.

End InsertionSort.

(** The stable sort does what [sort_values] promises, on every table. *)
Lemma stable_sort_ok l : Consolidate.sort_values_ok stable_sort "occurred_at" l.
Proof.
  apply insertion_sort_ok.
  - intros x y H. exact H.
  - intros x y H. apply recency_le_total, H.
Qed.

(** A surviving row is the last row of its id. *)
Lemma drop_duplicates_last_is_last subset l : forall r',
  r' ∈ Consolidate.drop_duplicates_last subset l ->
  exists l1 l2, l = l1 ++ r' :: l2 /\
                forall x, x ∈ l2 -> x !! subset <> r' !! subset.
Proof.
  induction l as [|a rest IH]; intros r' Hr'; simpl in Hr';
    [apply elem_of_nil in Hr'; easy|].
  destruct (Consolidate.duplicated_last subset a rest) eqn:Hd.
  - destruct (IH r' Hr') as (l1 & l2 & -> & Hl2).
    exists (a :: l1), l2. split; [reflexivity | exact Hl2].
  - apply elem_of_cons in Hr' as [->|Hr'].
    + exists [], rest. split; [reflexivity|]. intros x Hx Heq.
      assert (Consolidate.duplicated_last subset a rest = true)
        by (apply duplicated_last_true; exists x; split; assumption).
      congruence.
    + destruct (IH r' Hr') as (l1 & l2 & -> & Hl2).
      exists (a :: l1), l2. split; [reflexivity | exact Hl2].
Qed.

Lemma filter_split {A} (P : A -> Prop) `{forall x, Decision (P x)} l : forall a x b,
  filter P l = a ++ x :: b ->
  exists l1 l2, l = l1 ++ x :: l2 /\ filter P l1 = a /\ filter P l2 = b.
Proof.
  induction l as [|y l IH]; intros a x b Hf.
  - destruct a; discriminate Hf.
  - rewrite filter_cons in Hf. destruct (decide (P y)) as [Hy|Hy].
    + destruct a as [|a0 a]; simpl in Hf.
      * injection Hf as -> Hf. exists [], l. repeat split; assumption.
      * injection Hf as -> Hf. destruct (IH a x b Hf) as (l1 & l2 & -> & H1 & H2).
        exists (a0 :: l1), l2. split; [reflexivity|].
        split; [|exact H2]. rewrite filter_cons, decide_True by exact Hy.
        rewrite H1. reflexivity.
    + destruct (IH a x b Hf) as (l1 & l2 & -> & H1 & H2).
      exists (y :: l1), l2. split; [reflexivity|].
      split; [|exact H2]. rewrite filter_cons, decide_False by exact Hy.
      exact H1.
Qed.

(** What a stable sort would add: if the sort keeps the input order among
    rows with the same recency, then a surviving row is followed, in the
    input, by no row of its id with its recency; with the rest of
    [consolidation]: it is the last of the input among the most recent
    rows of its id. *)
Lemma stable_sort_keeps_last sort_values l :
  (forall k, filter (fun r => recency r = k) (sort_values l)
             = filter (fun r => recency r = k) l) ->
  forall r',
    r' ∈ Consolidate.drop_duplicates_last "transaction_id" (sort_values l) ->
    exists l1 l2,
      l = l1 ++ r' :: l2 /\
      forall x, x ∈ l2 -> row_id x = row_id r' -> recency x <> recency r'.
Proof.
  intros Hstable r' Hr'.
  destruct (drop_duplicates_last_is_last _ _ r' Hr') as (s1 & s2 & Es & Hs2).
  specialize (Hstable (recency r')). rewrite Es in Hstable.
  rewrite filter_app, filter_cons, decide_True in Hstable by reflexivity.
  symmetry in Hstable.
  destruct (filter_split _ l _ _ _ Hstable) as (l1 & l2 & -> & _ & H2).
  exists l1, l2. split; [reflexivity|]. intros x Hx Hid Hrec.
  assert (Hin : x ∈ filter (fun r => recency r = recency r') l2)
    by (apply list_elem_of_filter; split; assumption).
  rewrite H2 in Hin. apply list_elem_of_filter in Hin as [_ Hin].
  exact (Hs2 x Hin Hid).
Qed.

(** The stable insertion sort is stable. *)
Lemma stable_sort_stable k l :
  filter (fun r => recency r = k) (stable_sort l)
  = filter (fun r => recency r = k) l.
Proof.
  induction l as [|x l IH]; [reflexivity|].
  change (stable_sort (x :: l))
    with (insert_by (fun x y => Consolidate.recency_le (recency x) (recency y))
            x (stable_sort l)).
  rewrite filter_cons, <- IH. clear IH.
  induction (stable_sort l) as [|y l' IH']; simpl.
  - rewrite filter_cons, filter_nil. reflexivity.
  - destruct (Consolidate.recency_le (recency x) (recency y)) eqn:Hle.
    + rewrite filter_cons. reflexivity.
    + rewrite !filter_cons, IH'.
      destruct (decide (recency x = k)) as [Hx|Hx]; [|reflexivity].
      destruct (decide (recency y = k)) as [Hy|Hy]; [|reflexivity].
      rewrite Hx, Hy, recency_le_refl in Hle. discriminate.
Qed.

(** With the stable sort, of two rows of T1 with the same timestamp the
    one read last survives. *)
Example stable_sort_tie :
  fmap_rows
    (Consolidate.consolidate stable_sort
       [chunk "T1" (Some "2024-01-01T10:00Z") "first";
        chunk "T1" (Some "2024-01-01T10:00Z") "second"])
  = Some [combined_row "T1" (Some "2024-01-01T10:00Z") "second"].
Proof. reflexivity. Qed.

(** The example of the claim: chunks that hold T1 at 10:00 and at 12:00.
    Whatever the sort does with ties, the row of 12:00 survives, alone. *)
Example consolidation_T1 sort_values :
  let early := chunk "T1" (Some "2024-01-01T10:00Z") "first" in
  let late := chunk "T1" (Some "2024-01-01T12:00Z") "second" in
  (forall l, Consolidate.sort_values_ok sort_values "occurred_at" l) ->
  fmap_rows (Consolidate.consolidate sort_values [early; late]) =
    Some [combined_row "T1" (Some "2024-01-01T12:00Z") "second"] /\
  fmap_rows (Consolidate.consolidate sort_values [late; early]) =
    Some [combined_row "T1" (Some "2024-01-01T12:00Z") "second"].
Proof.
  intros early late Hsort.
  apply (consolidate_pair sort_values "T1" (Some "2024-01-01T10:00Z") "first"
           (Some "2024-01-01T12:00Z") "second"); [reflexivity | exact Hsort].
Qed.

Lemma consolidation_witness :
  exists out,
    Consolidate.consolidate stable_sort
      [chunk "T1" (Some "2024-01-01T10:00Z") "first";
       chunk "T1" (Some "2024-01-01T12:00Z") "second";
       chunk "T2" (Some "2024-01-01T11:00Z") "third"] = Ok out /\
    NoDup (map row_id (rows out)) /\
    (forall r, r ∈ rows out ->
       r ∈ [combined_row "T1" (Some "2024-01-01T10:00Z") "first";
            combined_row "T1" (Some "2024-01-01T12:00Z") "second";
            combined_row "T2" (Some "2024-01-01T11:00Z") "third"]) /\
    (forall r,
       r ∈ [combined_row "T1" (Some "2024-01-01T10:00Z") "first";
            combined_row "T1" (Some "2024-01-01T12:00Z") "second";
            combined_row "T2" (Some "2024-01-01T11:00Z") "third"] ->
       exists r', r' ∈ rows out /\ row_id r' = row_id r /\
                  Consolidate.recency_le (recency r) (recency r') = true).
Proof.
  apply (consolidation stable_sort
           [chunk "T1" (Some "2024-01-01T10:00Z") "first";
            chunk "T1" (Some "2024-01-01T12:00Z") "second";
            chunk "T2" (Some "2024-01-01T11:00Z") "third"]
           (mkDataFrame ["id"; "occurred_at"; "value"]
              [[("id", "T1"); ("occurred_at", "2024-01-01T10:00Z");
                ("value", "first")];
               [("id", "T1"); ("occurred_at", "2024-01-01T12:00Z");
                ("value", "second")];
               [("id", "T2"); ("occurred_at", "2024-01-01T11:00Z");
                ("value", "third")]])).
  - reflexivity.
  - reflexivity.
  - reflexivity.
  - apply stable_sort_ok.
Defined.

(** What the script makes of the three chunks of the witness. *)
Example consolidate_three_chunks :
  fmap_rows
    (Consolidate.consolidate stable_sort
       [chunk "T1" (Some "2024-01-01T10:00Z") "first";
        chunk "T1" (Some "2024-01-01T12:00Z") "second";
        chunk "T2" (Some "2024-01-01T11:00Z") "third"])
  = Some [combined_row "T2" (Some "2024-01-01T11:00Z") "third";
          combined_row "T1" (Some "2024-01-01T12:00Z") "second"].
Proof. reflexivity. Qed.

(** C6. The claim is what the script announces ("keeping the most recent
    transaction", "kept latest by id"), and the script misses it for a
    row without a timestamp. Of a row of T1 dated 12:00 and a row of T1
    whose occurred_at is missing, the consolidation keeps the row without
    a timestamp, whatever the sort and the order of the chunks: a missing
    value is sorted after every timestamp, and the last row of an id is
    the one that is kept. *)
Theorem undated_row_survives sort_values :
  (forall l, Consolidate.sort_values_ok sort_values "occurred_at" l) ->
  fmap_rows
    (Consolidate.consolidate sort_values
       [chunk "T1" (Some "2024-01-01T12:00Z") "dated";
        chunk "T1" None "undated"])
  = Some [combined_row "T1" None "undated"] /\
  fmap_rows
    (Consolidate.consolidate sort_values
       [chunk "T1" None "undated";
        chunk "T1" (Some "2024-01-01T12:00Z") "dated"])
  = Some [combined_row "T1" None "undated"].
Proof.
  intros Hsort.
  apply (consolidate_pair sort_values "T1" (Some "2024-01-01T12:00Z") "dated"
           None "undated"); [reflexivity | exact Hsort].
Qed.

Lemma undated_row_survives_witness :
  fmap_rows
    (Consolidate.consolidate stable_sort
       [chunk "T1" (Some "2024-01-01T12:00Z") "dated";
        chunk "T1" None "undated"])
  = Some [combined_row "T1" None "undated"] /\
  fmap_rows
    (Consolidate.consolidate stable_sort
       [chunk "T1" None "undated";
        chunk "T1" (Some "2024-01-01T12:00Z") "dated"])
  = Some [combined_row "T1" None "undated"].
Proof.
  apply (undated_row_survives stable_sort). exact stable_sort_ok.
Defined.

End ConsolidatorFacts.

(** ** SchemaInferencer *)

Section SchemaFacts.
Context {cell : Type} {pandas : Pandas cell}.

Lemma contains_elem c cols : contains c cols = true <-> c ∈ cols.
Proof.
  unfold contains. rewrite existsb_exists. split.
  - intros (x & Hin & Hx). apply String.eqb_eq in Hx as ->.
    apply list_elem_of_In. exact Hin.
  - intros Hin. exists c. split; [apply list_elem_of_In, Hin|].
    apply String.eqb_refl.
Qed.

Lemma schema_field_of_column (df : Frame cell) (kind : Series cell -> field_type)
    col :
  contains col (column_names df) = true ->
  (forall s, s_name s = col -> kind s = STRING) ->
  (exists f, f ∈ map (fun s => mkSchemaField (s_name s) (kind s)) df /\
             field_name f = col) /\
  (forall f, f ∈ map (fun s => mkSchemaField (s_name s) (kind s)) df ->
             field_name f = col -> field_kind f = STRING).
Proof.
  intros Hcol Hkind. split.
  - apply contains_elem in Hcol. unfold column_names in Hcol.
    apply list_elem_of_fmap in Hcol as (s & -> & Hs).
    exists (mkSchemaField (s_name s) (kind s)). split; [|reflexivity].
    apply list_elem_of_fmap. exists s. split; [reflexivity | exact Hs].
  - intros f Hf Hname. apply list_elem_of_fmap in Hf as (s & -> & Hs).
    simpl in *. apply Hkind, Hname.
Qed.

(** C7. In both schema builders the explicit configuration comes before
    the look at the values: a column of the batch that is listed in the
    string columns of the table gets a schema field, and every schema
    field of that name has type STRING, whatever the dtype and the values
    of the column. *)
Theorem schema_precedence (df : Frame cell) (table_name col : string) :
  contains col (column_names df) = true ->
  (contains col (dict_get LoadBigQuery.TABLE_STRING_COLUMNS_CF table_name) = true ->
   (exists f, f ∈ LoadBigQuery.build_bq_schema_cf df table_name /\
              field_name f = col) /\
   (forall f, f ∈ LoadBigQuery.build_bq_schema_cf df table_name ->
              field_name f = col -> field_kind f = STRING)) /\
  (contains col (dict_get LoadToBigQuery.TABLE_STRING_COLUMNS table_name) = true ->
   (exists f, f ∈ LoadToBigQuery.build_bq_schema df table_name /\
              field_name f = col) /\
   (forall f, f ∈ LoadToBigQuery.build_bq_schema df table_name ->
              field_name f = col -> field_kind f = STRING)).
Proof.
  intros Hcol. split; intros Hstr.
  - apply schema_field_of_column; [exact Hcol|].
    intros s <-. unfold LoadBigQuery.field_type_cf. rewrite Hstr. reflexivity.
  - apply schema_field_of_column; [exact Hcol|].
    intros s <-. unfold LoadToBigQuery.field_type_of. rewrite Hstr. reflexivity.
Qed.

End SchemaFacts.

Lemma schema_precedence_witness :
  ((exists f, f ∈ LoadBigQuery.build_bq_schema_cf two_products "products" /\
              field_name f = "upc_code") /\
   (forall f, f ∈ LoadBigQuery.build_bq_schema_cf two_products "products" ->
              field_name f = "upc_code" -> field_kind f = STRING)) /\
  ((exists f, f ∈ LoadToBigQuery.build_bq_schema two_products "products" /\
              field_name f = "upc_code") /\
   (forall f, f ∈ LoadToBigQuery.build_bq_schema two_products "products" ->
              field_name f = "upc_code" -> field_kind f = STRING)).
Proof.
  destruct (schema_precedence two_products "products" "upc_code" eq_refl)
    as [Hcf Hlocal].
  split; [apply Hcf | apply Hlocal]; reflexivity.
Defined.

(** A column of zero-padded codes is typed STRING when it is configured as
    a string column, also when pandas holds it as integers; the same
    column under a name that is not configured is typed from its dtype. *)
Example schema_of_codes :
  LoadBigQuery.build_bq_schema_cf
    [mkSeries "upc_code" object ["00123"]; mkSeries "barcode" int64 ["00123"];
     mkSeries "shelf" int64 ["00123"]] "products"
  = [mkSchemaField "upc_code" STRING; mkSchemaField "barcode" STRING;
     mkSchemaField "shelf" INTEGER].
Proof. reflexivity. Qed.

(** ** UpsertEngine *)

Section UpsertFacts.
Context {cell W : Type} {pandas : Pandas cell} {client : Client cell W}.
Variable DATASET_ID : string.

Lemma column_names_update_column c (f : Series cell -> Series cell) df :
  (forall s, s_name (f s) = s_name s) ->
  column_names (update_column c f df) = column_names df.
Proof.
  intros Hf. unfold column_names, update_column. rewrite map_map.
  apply map_ext. intros s. destruct (String.eqb (s_name s) c); [apply Hf|].
  reflexivity.
Qed.

(** A step that leaves the column names alone, repeated. *)
Lemma column_names_fold_left (step : Frame cell -> string -> Frame cell) cols :
  (forall df c, column_names (step df c) = column_names df) ->
  forall df, column_names (fold_left step cols df) = column_names df.
Proof.
  intros Hstep. induction cols as [|c cols IH]; intros df; simpl; [reflexivity|].
  rewrite IH. apply Hstep.
Qed.

(** The conversions before the id check keep the names of the columns. *)
Lemma column_names_conversions table_name (df : Frame cell) :
  column_names
    (LoadBigQuery.convert_numbers table_name
       (LoadBigQuery.convert_structured table_name
          (LoadBigQuery.convert_strings table_name
             (LoadBigQuery.convert_dates table_name df))))
  = column_names df.
Proof.
  unfold LoadBigQuery.convert_numbers.
  rewrite column_names_fold_left.
  2:{ intros d c. destruct (_ && _); [|reflexivity].
      apply column_names_update_column. intros s0.
      destruct (to_numeric (s_values s0)) as [[d0 v]|]; reflexivity. }
  unfold LoadBigQuery.convert_structured.
  assert (Htags : forall d : Frame cell,
    column_names
      (update_column "tags"
         (fun s0 => match join_tags (s_values s0) with
                    | Some v => mkSeries (s_name s0) object v
                    | None => s0
                    end) d) = column_names d).
  { intros d. apply column_names_update_column. intros s0.
    destruct (join_tags (s_values s0)); reflexivity. }
  assert (Hbar : forall d : Frame cell,
    column_names
      (update_column "additional_barcodes"
         (fun s0 => match convert_additional_barcodes (s_values s0) with
                    | Some v => mkSeries (s_name s0) object v
                    | None => s0
                    end) d) = column_names d).
  { intros d. apply column_names_update_column. intros s0.
    destruct (convert_additional_barcodes (s_values s0)); reflexivity. }
  set (d1 := LoadBigQuery.convert_strings table_name
               (LoadBigQuery.convert_dates table_name df)).
  assert (H1 : column_names d1 = column_names df).
  { unfold d1, LoadBigQuery.convert_strings, LoadBigQuery.convert_dates.
    rewrite column_names_fold_left.
    2:{ intros d c. destruct (contains c (column_names d)); [|reflexivity].
        apply column_names_update_column. reflexivity. }
    rewrite column_names_fold_left; [reflexivity|].
    intros d c. destruct (contains c (column_names d)); [|reflexivity].
    apply column_names_update_column. intros s0.
    destruct (to_datetime (s_values s0)). reflexivity. }
  cbv zeta.
  repeat match goal with
         | |- context [if ?b then _ else _] => destruct b
         end; rewrite ?Hbar, ?Htags; exact H1.
Qed.

Lemma column_names_convert_strings_local table_name (df : Frame cell) :
  column_names (LoadToBigQuery.convert_strings table_name df) = column_names df.
Proof.
  unfold LoadToBigQuery.convert_strings.
  rewrite column_names_fold_left; [reflexivity|].
  intros d c. destruct (contains c (column_names d)); [|reflexivity].
  apply column_names_update_column. reflexivity.
Qed.

(** C9. A batch that, once its column names are sanitized, lacks the id
    column makes the upsert raise the ValueError of the id check, and this
    before anything reaches the warehouse: no call of the client has been
    made and the warehouse is in the state it was in. This holds for the
    upsert of the cloud function and for the one of the CSV loader. *)
Theorem missing_id_column (df : Frame cell) (table_name id_column : string)
    (s : session W) :
  (contains (replace_dots id_column)
            (column_names (LoadBigQuery.sanitize_columns df)) = false ->
   LoadBigQuery.upload_dataframe_to_bigquery DATASET_ID df table_name id_column s
   = (Raise (ValueError "ID column not found in DataFrame"), s)) /\
  (contains id_column
            (column_names (LoadToBigQuery.sanitize_columns df)) = false ->
   LoadToBigQuery.upload_and_merge_table DATASET_ID table_name df id_column s
   = (Raise (ValueError "ID column not found in DataFrame"), s)).
Proof.
  split; intros Hid.
  - unfold LoadBigQuery.upload_dataframe_to_bigquery. cbv zeta.
    rewrite column_names_conversions, Hid. reflexivity.
  - unfold LoadToBigQuery.upload_and_merge_table. cbv zeta.
    rewrite column_names_convert_strings_local, Hid. reflexivity.
Qed.

End UpsertFacts.

Lemma missing_id_column_witness :
  LoadBigQuery.upload_dataframe_to_bigquery "vmpay" no_id_products "products"
    "id" (empty_warehouse false)
  = (Raise (ValueError "ID column not found in DataFrame"),
     empty_warehouse false) /\
  LoadToBigQuery.upload_and_merge_table "vmpay" "products" no_id_products
    "id" (empty_warehouse false)
  = (Raise (ValueError "ID column not found in DataFrame"),
     empty_warehouse false).
Proof.
  destruct (missing_id_column "vmpay" no_id_products "products" "id"
              (empty_warehouse false)) as [Hcf Hlocal].
  split; [apply Hcf | apply Hlocal]; reflexivity.
Defined.

Section CleanupFacts.
Context {cell W : Type} {pandas : Pandas cell} {client : Client cell W}.
Variable DATASET_ID : string.

Lemma new_calls_app (s : session W) l w :
  new_calls s (mkSession (calls s ++ l) w) = l.
Proof. unfold new_calls. simpl. apply drop_app_length. Qed.

Lemma new_calls_same (s : session W) : new_calls s s = [].
Proof. unfold new_calls. apply drop_all. Qed.

(** Membership in a list that is written out. *)
Ltac elem_cases H :=
  repeat (apply elem_of_cons in H as [H|H]);
  try (apply elem_of_nil in H; contradiction);
  try discriminate H.

(** What follows the id check, in both upserts: the final table is
    created if it is missing, the batch is loaded into the staging table,
    the MERGE runs, the staging table is deleted. *)
Lemma merge_steps_clean_up (g c l q d : M W unit) final temp schema sql :
  cleans_up_after_merge
    (try_except (invoke (GetTable final) g) is_NotFound
       (fun _ => invoke (CreateTable final schema) c);;
     invoke (LoadTable temp schema) l;;
     try_except (invoke (Query sql) q) is_Exception (fun e => raise e);;
     invoke (DeleteTable temp) d)
    temp.
Proof.
  intros s res s' H.
  unfold mbind, M_bind, bind, try_except, invoke, raise in H. simpl in H.
  repeat match type of H with
         | context [g ?w] => destruct (g w) as [[[]|?|] ?]; simpl in H
         | context [c ?w] => destruct (c w) as [[[]|?|] ?]; simpl in H
         | context [l ?w] => destruct (l w) as [[[]|?|] ?]; simpl in H
         | context [q ?w] => destruct (q w) as [[[]|?|] ?]; simpl in H
         | context [d ?w] => destruct (d w) as [[[]|?|] ?]; simpl in H
         | context [is_NotFound ?e] => destruct (is_NotFound e); simpl in H
         end;
    injection H as <- <-; rewrite <- ?app_assoc, new_calls_app; simpl;
    (split;
     [ intros sql' exc Hin; elem_cases Hin; injection Hin as <- <-;
       (split; [reflexivity|]); intros outcome Hd; elem_cases Hd
     | intros sql' Hin; elem_cases Hin; eexists; reflexivity ]).
Qed.

(** C1, as the code has it. In both upserts the staging table is deleted
    after a MERGE that succeeded, and only then: the deletion is then the
    last call of the upsert. When the MERGE raises, the exception is passed
    on at once and the call that deletes the staging table is not made. *)
Theorem staging_cleanup (df : Frame cell) (table_name id_column : string) :
  cleans_up_after_merge
    (LoadBigQuery.upload_dataframe_to_bigquery DATASET_ID df table_name
       id_column)
    (DATASET_ID +:+ ".temp_" +:+ table_name) /\
  cleans_up_after_merge
    (LoadToBigQuery.upload_and_merge_table DATASET_ID table_name df id_column)
    (DATASET_ID +:+ ".temp_" +:+ table_name).
Proof.
  split.
  - unfold LoadBigQuery.upload_dataframe_to_bigquery. cbv zeta.
    destruct (negb (contains _ _)).
    + intros s res s' H. injection H as <- <-. rewrite new_calls_same.
      split; [intros sql e Hin | intros sql Hin];
        apply elem_of_nil in Hin; contradiction.
    + apply merge_steps_clean_up.
  - unfold LoadToBigQuery.upload_and_merge_table. cbv zeta.
    destruct (negb (contains _ _)).
    + intros s res s' H. injection H as <- <-. rewrite new_calls_same.
      split; [intros sql e Hin | intros sql Hin];
        apply elem_of_nil in Hin; contradiction.
    + apply merge_steps_clean_up.
Qed.

End CleanupFacts.

Lemma staging_cleanup_witness :
  (forall sql e,
     (Query sql, Raise e)
       ∈ new_calls (empty_warehouse true) (snd (upsert_two_products true)) ->
     fst (upsert_two_products true) = Raise e /\
     forall outcome,
       (DeleteTable ("vmpay" +:+ ".temp_" +:+ "products"), outcome)
         ∉ new_calls (empty_warehouse true) (snd (upsert_two_products true))) /\
  (forall sql,
     (Query sql, Ok tt)
       ∈ new_calls (empty_warehouse false) (snd (upsert_two_products false)) ->
     exists outcome,
       last (new_calls (empty_warehouse false) (snd (upsert_two_products false)))
       = Some (DeleteTable ("vmpay" +:+ ".temp_" +:+ "products"), outcome)).
Proof.
  split.
  - apply (proj1 (staging_cleanup "vmpay" two_products "products" "id")
             (empty_warehouse true)).
    reflexivity.
  - apply (proj1 (staging_cleanup "vmpay" two_products "products" "id")
             (empty_warehouse false) (fst (upsert_two_products false))).
    reflexivity.
Defined.

(** C1 as stated fails: when the MERGE job fails, the upsert raises its
    error after four calls, none of which deletes the staging table, and
    the staging table is still in the warehouse. *)
Lemma staging_table_left_behind :
  fst (upsert_two_products true) = Raise (GoogleAPIError "MERGE failed") /\
  map (fun c => (call_summary (fst c), snd c))
      (calls (snd (upsert_two_products true)))
  = [(("get_table", "vmpay.products"), Raise (NotFound "vmpay.products"));
     (("create_table", "vmpay.products"), Ok tt);
     (("load_table_from_dataframe", "vmpay.temp_products"), Ok tt);
     (("query", "MERGE `vmpay.products`"), Raise (GoogleAPIError "MERGE failed"))] /\
  contains "vmpay.temp_products"
    (table_ids (warehouse (snd (upsert_two_products true)))) = true.
Proof. repeat split; vm_compute; reflexivity. Qed.

(** The same upsert when the MERGE job succeeds: the staging table is
    deleted last and is gone from the warehouse. *)
Example staging_table_deleted :
  fst (upsert_two_products false) = Ok tt /\
  map (fun c => (call_summary (fst c), snd c))
      (calls (snd (upsert_two_products false)))
  = [(("get_table", "vmpay.products"), Raise (NotFound "vmpay.products"));
     (("create_table", "vmpay.products"), Ok tt);
     (("load_table_from_dataframe", "vmpay.temp_products"), Ok tt);
     (("query", "MERGE `vmpay.products`"), Ok tt);
     (("delete_table", "vmpay.temp_products"), Ok tt)] /\
  table_ids (warehouse (snd (upsert_two_products false))) = ["vmpay.products"].
Proof. repeat split; vm_compute; reflexivity. Qed.

(** The MERGE statement for the batch of two products. *)
Example merge_sql_two_products :
  LoadBigQuery.merge_sql "vmpay.products" "vmpay.temp_products" "id"
    ["id"; "upc_code"; "packing_id"]
  = LF +:+ "    MERGE `vmpay.products` T" +:+ LF +:+
    "    USING `vmpay.temp_products` S" +:+ LF +:+
    "    ON T.`id` = S.`id`" +:+ LF +:+
    "    WHEN MATCHED THEN" +:+ LF +:+
    "      UPDATE SET T.`upc_code` = S.`upc_code`," +:+ LF +:+
    "        T.`packing_id` = S.`packing_id`" +:+ LF +:+
    "    WHEN NOT MATCHED THEN" +:+ LF +:+
    "      INSERT (`id`, `upc_code`, `packing_id`)" +:+ LF +:+
    "      VALUES (S.`id`, S.`upc_code`, S.`packing_id`)" +:+ LF +:+ "    ".
Proof. vm_compute. reflexivity. Qed.

(** * Further properties *)

(** ** The retrying fetch, whatever the server does *)

Section RetryFacts.
Context {record : Type}.
Variable server : list event -> request -> http_reply record.

Lemma accepted_Some (rep : http_reply record) body :
  accepted rep = Some body ->
  exists status, rep = Reply status (Some body) /\
                 (400 <=? status) && (status <? 600) = false.
Proof.
  destruct rep as [|status [b|]]; simpl; try discriminate.
  destruct ((400 <=? status) && (status <? 600)) eqn:E; [discriminate|].
  intros [= <-]. exists status. split; [reflexivity | exact E].
Qed.

Lemma accepted_None (rep : http_reply record) :
  accepted rep = None -> failed rep = true.
Proof.
  destruct rep as [|status [b|]]; simpl; try reflexivity.
  - destruct ((400 <=? status) && (status <? 600)); [reflexivity | discriminate].
  - intros _. apply orb_true_r.
Qed.

(** The shape of every run of the attempts: success at the first accepted
    reply, after a sleep for each failure before it, or RuntimeError once
    all attempts have failed. *)
Lemma fetch_attempts_shape attempts r : forall w res w',
  Historical.fetch_attempts server attempts r w = (res, w') ->
  files w' = files w /\
  exists k : nat,
    (forall i : nat, (i < k)%nat ->
       accepted (server (trace w ++ failed_attempts (take i attempts) r) r)
         = None) /\
    ((exists body,
        (k < length attempts)%nat /\ res = Ok body /\
        accepted (server (trace w ++ failed_attempts (take k attempts) r) r)
          = Some body /\
        trace w' = trace w ++ failed_attempts (take k attempts) r ++ [Get r]) \/
     (k = length attempts /\
      res = Raise (RuntimeError "Failed to fetch after 3 attempts") /\
      trace w' = trace w ++ failed_attempts attempts r)).
Proof.
  induction attempts as [|a rest IH]; intros w res w' H.
  - simpl in H. injection H as <- <-. split; [reflexivity|]. exists O.
    split; [intros i Hi; lia|]. right.
    repeat split. simpl. rewrite app_nil_r. reflexivity.
  - destruct (accepted (server (trace w) r)) as [body|] eqn:Hacc.
    + destruct (accepted_Some _ _ Hacc) as (status & Hrep & Hst).
      rewrite (fetch_attempts_first_ok server a rest r w status body Hrep Hst) in H.
      injection H as <- <-. split; [reflexivity|]. exists O.
      split; [intros i Hi; lia|]. left.
      exists body. simpl. rewrite app_nil_r.
      repeat split; [lia | exact Hacc].
    + simpl in H. unfold try_except in H. fold (one_attempt server r) in H.
      destruct (one_attempt_failed server r w (accepted_None _ Hacc))
        as (e & He & Hone).
      rewrite Hone, He in H.
      unfold mbind, M_bind, bind, sleep, log, modify in H. simpl in H.
      apply IH in H as [Hf (k & Hbefore & Hshape)]. simpl in Hf, Hbefore, Hshape.
      split; [exact Hf|]. exists (S k). split.
      * intros [|i] Hi; simpl; [rewrite app_nil_r; exact Hacc|].
        specialize (Hbefore i ltac:(lia)).
        rewrite <- !app_assoc in Hbefore. exact Hbefore.
      * destruct Hshape as [(body & Hk & -> & Hb & Htr)|(-> & -> & Htr)].
        -- left. exists body. simpl.
           rewrite <- !app_assoc in Hb. rewrite <- !app_assoc in Htr.
           repeat split; [lia | exact Hb | exact Htr].
        -- right. split; [reflexivity|]. split; [reflexivity|]. simpl.
           rewrite <- !app_assoc in Htr. exact Htr.
Qed.

(** X1. Whatever the server does, the retrying fetch ends in one of two
    ways, and leaves the chunk files alone: it returns the body of the
    first reply that is accepted, the k-th failure before it (k = 1, 2)
    having been followed by a sleep of 2^(k-1) seconds; or, the three
    replies having failed, it raises RuntimeError after sleeps of 1, 2 and
    4 seconds. No other exception leaves it and it never sends a fourth
    request. *)
Theorem fetch_outcomes start_date end_date page per_page w res w' :
  let r := historical_request start_date end_date page per_page in
  Historical.fetch_cashless_data server start_date end_date page per_page w
    = (res, w') ->
  files w' = files w /\
  exists k : nat,
    (forall i : nat, (i < k)%nat ->
       accepted (server (trace w ++ failed_attempts (take i [0; 1; 2]) r) r)
         = None) /\
    ((exists body,
        (k < 3)%nat /\ res = Ok body /\
        accepted (server (trace w ++ failed_attempts (take k [0; 1; 2]) r) r)
          = Some body /\
        new_events w w' = failed_attempts (take k [0; 1; 2]) r ++ [Get r]) \/
     (k = 3%nat /\
      res = Raise (RuntimeError "Failed to fetch after 3 attempts") /\
      new_events w w' = [Get r; Sleep 1; Get r; Sleep 2; Get r; Sleep 4])).
Proof.
  intros r H. unfold Historical.fetch_cashless_data in H.
  fold (historical_request start_date end_date page per_page) in H. fold r in H.
  apply fetch_attempts_shape in H as [Hf (k & Hbefore & Hshape)].
  split; [exact Hf|]. exists k. split; [exact Hbefore|].
  destruct Hshape as [(body & Hk & -> & Hb & Htr)|(-> & -> & Htr)].
  - left. exists body. repeat split; [exact Hk | exact Hb|].
    apply new_events_extends. exact Htr.
  - right. repeat split. apply new_events_extends. exact Htr.
Qed.

End RetryFacts.

Lemma fetch_outcomes_witness :
  files (snd (Historical.fetch_cashless_data (flaky 2 [7; 8]) 0 86400000000 1
                100 (mkWorld [] ∅)))
    = files (mkWorld (record := Z) [] ∅) /\
  exists k : nat,
    (forall i : nat, (i < k)%nat ->
       accepted (flaky 2 [7; 8]
                   (trace (mkWorld (record := Z) [] ∅) ++
                    failed_attempts (take i [0; 1; 2])
                      (historical_request 0 86400000000 1 100))
                   (historical_request 0 86400000000 1 100))
         = None) /\
    ((exists body,
        (k < 3)%nat /\
        fst (Historical.fetch_cashless_data (flaky 2 [7; 8]) 0 86400000000 1
               100 (mkWorld [] ∅)) = Ok body /\
        accepted (flaky 2 [7; 8]
                    (trace (mkWorld (record := Z) [] ∅) ++
                     failed_attempts (take k [0; 1; 2])
                       (historical_request 0 86400000000 1 100))
                    (historical_request 0 86400000000 1 100))
          = Some body /\
        new_events (mkWorld [] ∅)
          (snd (Historical.fetch_cashless_data (flaky 2 [7; 8]) 0 86400000000
                  1 100 (mkWorld [] ∅)))
        = failed_attempts (take k [0; 1; 2])
            (historical_request 0 86400000000 1 100)
          ++ [Get (historical_request 0 86400000000 1 100)]) \/
     (k = 3%nat /\
      fst (Historical.fetch_cashless_data (flaky 2 [7; 8]) 0 86400000000 1
             100 (mkWorld [] ∅))
        = Raise (RuntimeError "Failed to fetch after 3 attempts") /\
      new_events (mkWorld [] ∅)
        (snd (Historical.fetch_cashless_data (flaky 2 [7; 8]) 0 86400000000
                1 100 (mkWorld [] ∅)))
      = [Get (historical_request 0 86400000000 1 100); Sleep 1;
         Get (historical_request 0 86400000000 1 100); Sleep 2;
         Get (historical_request 0 86400000000 1 100); Sleep 4])).
Proof.
  apply (fetch_outcomes (flaky 2 [7; 8]) 0 86400000000 1 100 (mkWorld [] ∅)).
  reflexivity.
Defined.

(** A server that refuses two requests and then answers: the third
    attempt brings the records, after sleeps of 1 and 2 seconds. *)
Example fetch_recovers :
  Historical.fetch_cashless_data (flaky 2 [7; 8]) 0 86400000000 1 100
    (mkWorld [] ∅)
  = (Ok [7; 8],
     mkWorld [Get (historical_request 0 86400000000 1 100); Sleep 1;
              Get (historical_request 0 86400000000 1 100); Sleep 2;
              Get (historical_request 0 86400000000 1 100)] ∅).
Proof. reflexivity. Qed.

(** ** The paginators when a page fails, and when the pages never end *)

Section PaginateFailure.
Context {record : Type}.
Variable fetch : Z -> M (world record) (list record).
Variable loop : nat -> Z -> list record -> M (world record) (list record).
Hypothesis loop_O : forall p acc, loop O p acc = out_of_fuel.
Hypothesis loop_S : forall fuel p acc,
  loop (S fuel) p acc =
  (data ← fetch p;
   if is_empty data then ret acc
   else
     let acc' := acc ++ data in
     if len data <? 100 then ret acc'
     else sleep 1;; loop fuel (p + 1) acc').
Variable req : Z -> request.
Variable pages : Z -> list record.

Lemma loop_step_full fuel p acc w :
  fetch p w = (Ok (pages p), mkWorld (trace w ++ [Get (req p)]) (files w)) ->
  100 <= len (pages p) ->
  loop (S fuel) p acc w =
  loop fuel (p + 1) (acc ++ pages p)
    (mkWorld (trace w ++ [Get (req p); Sleep 1]) (files w)).
Proof.
  intros Hf Hlen. rewrite loop_S. unfold mbind, M_bind, bind. rewrite Hf.
  destruct (pages p) as [|x l] eqn:E; [unfold len in Hlen; simpl in Hlen; lia|].
  cbn [is_empty]. cbv zeta.
  assert (Hn : (len (x :: l) <? 100) = false) by (apply Z.ltb_ge; exact Hlen).
  rewrite Hn. unfold sleep, log, modify. cbn [trace files].
  rewrite <- app_assoc. reflexivity.
Qed.

(** [k] full pages, then a page whose fetch raises: the loop raises the
    same, and what the full pages brought is not returned. *)
Lemma loop_fails (k : nat) e tail : forall p acc (fuel : nat) w,
  (forall (i : nat) w0, (i < k)%nat ->
     fetch (p + Z.of_nat i) w0 =
       (Ok (pages (p + Z.of_nat i)),
        mkWorld (trace w0 ++ [Get (req (p + Z.of_nat i))]) (files w0)) /\
     100 <= len (pages (p + Z.of_nat i))) ->
  (forall w0, fetch (p + Z.of_nat k) w0 =
     (Raise e, mkWorld (trace w0 ++ tail) (files w0))) ->
  (k < fuel)%nat ->
  loop fuel p acc w =
    (Raise e,
     mkWorld (trace w ++ full_pages_trace req p k ++ tail) (files w)).
Proof.
  induction k as [|k IH]; intros p acc fuel w Hfull Hfail Hfuel;
    (destruct fuel as [|fuel]; [lia|]).
  - rewrite loop_S. unfold mbind, M_bind, bind.
    replace (p + Z.of_nat 0) with p in Hfail by lia. rewrite Hfail. reflexivity.
  - destruct (Hfull O w ltac:(lia)) as [H0 L0].
    replace (p + Z.of_nat 0) with p in H0, L0 by lia.
    rewrite (loop_step_full fuel p acc w H0 L0).
    rewrite (IH (p + 1)); [| | |lia].
    + cbn [trace files full_pages_trace]. rewrite <- !app_assoc. reflexivity.
    + intros i w0 Hi. specialize (Hfull (S i) w0 ltac:(lia)).
      replace (p + 1 + Z.of_nat i) with (p + Z.of_nat (S i)) by lia. exact Hfull.
    + intros w0. specialize (Hfail w0).
      replace (p + 1 + Z.of_nat k) with (p + Z.of_nat (S k)) by lia. exact Hfail.
Qed.

(** Full pages without end: the loop uses up any fuel. *)
Lemma loop_endless : forall (fuel : nat) p acc w,
  (forall q w0,
     fetch q w0 =
       (Ok (pages q), mkWorld (trace w0 ++ [Get (req q)]) (files w0)) /\
     100 <= len (pages q)) ->
  loop fuel p acc w =
    (OutOfFuel, mkWorld (trace w ++ full_pages_trace req p fuel) (files w)).
Proof.
  induction fuel as [|fuel IH]; intros p acc w Hfull.
  - rewrite loop_O. unfold out_of_fuel. simpl. rewrite app_nil_r.
    destruct w; reflexivity.
  - destruct (Hfull p w) as [H0 L0].
    rewrite (loop_step_full fuel p acc w H0 L0), IH by exact Hfull.
    cbn [trace files full_pages_trace]. rewrite <- !app_assoc. reflexivity.
Qed.

End PaginateFailure.

Section PaginatorFailureFacts.
Context {record : Type}.
Variable server : list event -> request -> http_reply record.

Lemma one_attempt_status r w status body :
  server (trace w) r = Reply status body ->
  (400 <=? status) && (status <? 600) = true ->
  one_attempt server r w
  = (Raise (HTTPError status), mkWorld (trace w ++ [Get r]) (files w)).
Proof.
  unfold one_attempt, mbind, M_bind, bind, requests_get. intros E Hs.
  rewrite E. unfold raise_for_status. rewrite Hs. reflexivity.
Qed.

(** X2. When the API serves [k] full pages and answers the next page with
    a 4xx or 5xx status, both paginated fetches raise and return none of
    the records fetched so far. The daily fetch raises the HTTPError of
    that status right after the failed request; the fetch of the backfill
    raises RuntimeError after asking for the failing page three times. *)
Theorem pagination_failure (start_date end_date : datetime) pages (k : nat)
    status (fuel : nat) w :
  (400 <=? status) && (status <? 600) = true ->
  (forall i : nat, (i < k)%nat -> 100 <= len (pages (1 + Z.of_nat i))) ->
  (k < fuel)%nat ->
  ((forall tr (i : nat), (i < k)%nat ->
      server tr (daily_request start_date end_date (1 + Z.of_nat i))
        = Reply 200 (Some (pages (1 + Z.of_nat i)))) ->
   (forall tr, exists body,
      server tr (daily_request start_date end_date (1 + Z.of_nat k))
        = Reply status body) ->
   DailyFetch.fetch_cashless_data server fuel start_date end_date w
   = (Raise (HTTPError status),
      mkWorld
        (trace w ++
         full_pages_trace (daily_request start_date end_date) 1 k ++
         [Get (daily_request start_date end_date (1 + Z.of_nat k))])
        (files w))) /\
  ((forall tr (i : nat), (i < k)%nat ->
      server tr (historical_request start_date end_date (1 + Z.of_nat i) 100)
        = Reply 200 (Some (pages (1 + Z.of_nat i)))) ->
   (forall tr, exists body,
      server tr (historical_request start_date end_date (1 + Z.of_nat k) 100)
        = Reply status body) ->
   Historical.extract_range server fuel start_date end_date w
   = (Raise (RuntimeError "Failed to fetch after 3 attempts"),
      mkWorld
        (trace w ++
         full_pages_trace
           (fun p => historical_request start_date end_date p 100) 1 k ++
         failed_attempts [0; 1; 2]
           (historical_request start_date end_date (1 + Z.of_nat k) 100))
        (files w))).
Proof.
  intros Hst Hfull Hfuel. split; intros Hok Hbad.
  - unfold DailyFetch.fetch_cashless_data.
    apply (loop_fails
      (fun p => Fetch.fetch_from_endpoint server "cashless_facts"
                  (Some (mkParams (Some start_date) (Some end_date) (Some p)
                                  (Some 100))))
      (fun fuel p acc =>
         DailyFetch.fetch_cashless_data_loop server fuel start_date end_date
           p acc)
      (fun fuel p acc => eq_refl)
      (daily_request start_date end_date) pages k).
    + intros i w0 Hi. split; [|apply Hfull, Hi].
      apply (one_attempt_ok server _ w0 200); [apply Hok, Hi | reflexivity].
    + intros w0. destruct (Hbad (trace w0)) as [body Hb].
      apply (one_attempt_status _ w0 status body Hb Hst).
    + exact Hfuel.
  - unfold Historical.extract_range.
    apply (loop_fails
      (fun p => Historical.fetch_cashless_data server start_date end_date p 100)
      (fun fuel p acc =>
         Historical.extract_range_loop server fuel start_date end_date p acc)
      (fun fuel p acc => eq_refl)
      (fun p => historical_request start_date end_date p 100) pages k).
    + intros i w0 Hi. split; [|apply Hfull, Hi].
      unfold Historical.fetch_cashless_data.
      apply (fetch_attempts_first_ok server 0 [1; 2] _ w0 200);
        [apply Hok, Hi | reflexivity].
    + intros w0. unfold Historical.fetch_cashless_data.
      apply fetch_attempts_all_failed. intros tr.
      destruct (Hbad tr) as [body Hb].
      fold (historical_request start_date end_date (1 + Z.of_nat k) 100).
      rewrite Hb. simpl. rewrite Hst. reflexivity.
    + exact Hfuel.
Qed.

(** X3. Neither paginated fetch has a bound on the number of pages: as
    long as every page comes back with 100 records or more they ask for
    the next one, so that against an API whose pages are all full they
    use up any amount of fuel, one request per unit, and return nothing. *)
Theorem pagination_endless (start_date end_date : datetime) pages (fuel : nat) w :
  (forall p, 100 <= len (pages p)) ->
  ((forall tr p, server tr (daily_request start_date end_date p)
                 = Reply 200 (Some (pages p))) ->
   DailyFetch.fetch_cashless_data server fuel start_date end_date w
   = (OutOfFuel,
      mkWorld
        (trace w ++ full_pages_trace (daily_request start_date end_date) 1 fuel)
        (files w))) /\
  ((forall tr p, server tr (historical_request start_date end_date p 100)
                 = Reply 200 (Some (pages p))) ->
   Historical.extract_range server fuel start_date end_date w
   = (OutOfFuel,
      mkWorld
        (trace w ++
         full_pages_trace
           (fun p => historical_request start_date end_date p 100) 1 fuel)
        (files w))).
Proof.
  intros Hfull. split; intros Hsrv.
  - unfold DailyFetch.fetch_cashless_data.
    apply (loop_endless
      (fun p => Fetch.fetch_from_endpoint server "cashless_facts"
                  (Some (mkParams (Some start_date) (Some end_date) (Some p)
                                  (Some 100))))
      (fun fuel p acc =>
         DailyFetch.fetch_cashless_data_loop server fuel start_date end_date
           p acc)
      (fun p acc => eq_refl) (fun fuel p acc => eq_refl)
      (daily_request start_date end_date) pages).
    intros q w0. split; [|apply Hfull].
    apply (one_attempt_ok server _ w0 200); [apply Hsrv | reflexivity].
  - unfold Historical.extract_range.
    apply (loop_endless
      (fun p => Historical.fetch_cashless_data server start_date end_date p 100)
      (fun fuel p acc =>
         Historical.extract_range_loop server fuel start_date end_date p acc)
      (fun p acc => eq_refl) (fun fuel p acc => eq_refl)
      (fun p => historical_request start_date end_date p 100) pages).
    intros q w0. split; [|apply Hfull].
    unfold Historical.fetch_cashless_data.
    apply (fetch_attempts_first_ok server 0 [1; 2] _ w0 200);
      [apply Hsrv | reflexivity].
Qed.

End PaginatorFailureFacts.

Lemma pagination_failure_witness :
  DailyFetch.fetch_cashless_data (breaks_after 2 tt) 3 0 86400000000
    (mkWorld [] ∅)
  = (Raise (HTTPError 500),
     mkWorld
       (trace (mkWorld (record := unit) [] ∅) ++
        full_pages_trace (daily_request 0 86400000000) 1 2 ++
        [Get (daily_request 0 86400000000 (1 + Z.of_nat 2))])
       (files (mkWorld (record := unit) [] ∅))).
Proof.
  apply (proj1 (pagination_failure (breaks_after 2 tt) 0 86400000000
                  (fun _ => replicate 100 tt) 2 500 3 (mkWorld [] ∅)
                  eq_refl
                  (fun i Hi => ltac:(vm_compute; discriminate)) ltac:(lia))).
  - intros tr i Hi. destruct i as [|[|i]]; [reflexivity | reflexivity | lia].
  - intros tr. exists None. reflexivity.
Defined.

Lemma pagination_endless_witness :
  DailyFetch.fetch_cashless_data (endless tt) 4 0 86400000000 (mkWorld [] ∅)
  = (OutOfFuel,
     mkWorld
       (trace (mkWorld (record := unit) [] ∅) ++
        full_pages_trace (daily_request 0 86400000000) 1 4)
       (files (mkWorld (record := unit) [] ∅))).
Proof.
  apply (proj1 (pagination_endless (endless tt) 0 86400000000
                  (fun _ => replicate 100 tt) 4 (mkWorld [] ∅)
                  (fun p => ltac:(vm_compute; discriminate)))).
  intros tr p. reflexivity.
Defined.

(** ** ChunkPlanner: termination and stability of the plan *)

Section PlannerEdgeFacts.

(** With a step of zero days the generator does not move. *)
Lemma generate_date_ranges_diverges end_ :
  forall (fuel : nat) current,
    datetime_min <= current <= datetime_max ->
    current < end_ ->
    Historical.generate_date_ranges fuel current end_ 0 = None.
Proof.
  induction fuel as [|fuel IH]; intros current Hv Hc; [reflexivity|].
  rewrite generate_date_ranges_S. apply Z.ltb_lt in Hc as Hc'. rewrite Hc'.
  change (timedelta 0) with (Some 0). cbn [mbind option_bind].
  rewrite datetime_add_Some by lia. rewrite Z.add_0_r.
  rewrite IH by assumption. reflexivity.
Qed.

(** With a negative step it comes to an end too: the windows go back in
    time, and no datetime is before [datetime.min]. *)
Lemma generate_date_ranges_stops_backward step_days end_ :
  step_days < 0 ->
  forall (n : nat) current,
    (Z.to_nat (current - datetime_min) <= n)%nat ->
    exists (fuel : nat) r,
      Historical.generate_date_ranges fuel current end_ step_days = Some r.
Proof.
  intros Hs.
  assert (HD : timedelta_days step_days < 0) by (unfold timedelta_days; lia).
  assert (Hstep : forall current,
            (current <? end_) = false \/ timedelta step_days = None \/
            datetime_add current (timedelta_days step_days) = None ->
            exists (fuel : nat) r,
              Historical.generate_date_ranges fuel current end_ step_days
                = Some r).
  { intros current Hcase. exists 1%nat. rewrite generate_date_ranges_S.
    destruct (current <? end_); [|eexists; reflexivity].
    destruct (timedelta step_days) as [td|] eqn:Etd;
      [|eexists; reflexivity].
    apply timedelta_inv in Etd as [-> _]. cbn [mbind option_bind].
    destruct Hcase as [Hx|[Hx|Hx]]; try discriminate Hx.
    rewrite Hx. eexists; reflexivity. }
  induction n as [|n IH]; intros current Hn.
  - apply Hstep.
    destruct (current <? end_); [|left; reflexivity]. right.
    destruct (timedelta step_days); [|left; reflexivity]. right.
    unfold datetime_add.
    destruct (Z.leb_spec datetime_min (current + timedelta_days step_days));
      [lia | reflexivity].
  - destruct (current <? end_) eqn:Hc; [|apply Hstep; left; exact Hc].
    destruct (timedelta step_days) as [td|] eqn:Etd;
      [|apply Hstep; right; left; reflexivity].
    apply timedelta_inv in Etd as Htd. destruct Htd as [-> _].
    destruct (datetime_add current (timedelta_days step_days))
      as [next|] eqn:Eadd;
      [|apply Hstep; right; right; exact Eadd].
    apply datetime_add_inv in Eadd as Hnext. destruct Hnext as [-> Hrange].
    destruct (IH (current + timedelta_days step_days)) as (fuel & [ws e] & E);
      [lia|].
    exists (S fuel). eexists.
    rewrite generate_date_ranges_S, Hc, Etd. cbn [mbind option_bind].
    rewrite Eadd, E. reflexivity.
Qed.

(** Going back in time the generator does not reach [end_]: it ends by
    raising. *)
Lemma generate_date_ranges_backward_raises step_days end_ :
  step_days < 0 ->
  forall (fuel : nat) current r,
    current < end_ ->
    Historical.generate_date_ranges fuel current end_ step_days = Some r ->
    snd r = Some OverflowError.
Proof.
  intros Hs.
  assert (HD : timedelta_days step_days < 0) by (unfold timedelta_days; lia).
  induction fuel as [|fuel IH]; intros current r Hc H; [discriminate H|].
  rewrite generate_date_ranges_S in H.
  apply Z.ltb_lt in Hc as Hc'. rewrite Hc' in H.
  destruct (timedelta step_days) as [td|] eqn:Etd;
    cbn [mbind option_bind] in H; [|injection H as <-; reflexivity].
  apply timedelta_inv in Etd as [-> _].
  destruct (datetime_add current (timedelta_days step_days))
    as [next|] eqn:Eadd; [|injection H as <-; reflexivity].
  apply datetime_add_inv in Eadd as [-> _].
  destruct (Historical.generate_date_ranges fuel
              (current + timedelta_days step_days) end_ step_days)
    as [[rest ending]|] eqn:E; [|discriminate H].
  injection H as <-. apply IH in E; [exact E | lia].
Qed.

(** X4. The generator of the windows comes to an end, by returning or by
    raising OverflowError, exactly when the range is empty or the step is
    not zero: with [start < end_] and a step of zero days it yields the
    same empty window for ever. For an empty range ([end_ <= start]) it
    yields no window and returns. With a negative step and [start < end_]
    it never returns: its windows go back in time until a sum is no
    datetime, and it ends by raising OverflowError. *)
Theorem planner_termination start end_ step_days :
  datetime_min <= start <= datetime_max ->
  ((exists (fuel : nat) r,
      Historical.generate_date_ranges fuel start end_ step_days = Some r) <->
   (end_ <= start \/ step_days <> 0)) /\
  (end_ <= start ->
   forall (fuel : nat) r,
     Historical.generate_date_ranges fuel start end_ step_days = Some r ->
     r = ([], None)) /\
  (start < end_ -> step_days < 0 ->
   forall (fuel : nat) r,
     Historical.generate_date_ranges fuel start end_ step_days = Some r ->
     snd r = Some OverflowError).
Proof.
  intros Hvalid. split; [|split].
  - split.
    + intros (fuel & r & H).
      destruct (Z_lt_le_dec start end_) as [Hlt|Hge]; [|left; exact Hge].
      right. intros ->.
      rewrite (generate_date_ranges_diverges end_ fuel start Hvalid Hlt) in H.
      discriminate H.
    + intros [Hge|Hne].
      * exists 1%nat. eexists. rewrite generate_date_ranges_S.
        apply Z.ltb_ge in Hge. rewrite Hge. reflexivity.
      * destruct (Z_lt_le_dec 0 step_days) as [Hpos|Hneg].
        -- apply (generate_date_ranges_stops_forward step_days end_ Hpos
                    (Z.to_nat (end_ - start))). lia.
        -- apply (generate_date_ranges_stops_backward step_days end_
                    ltac:(lia) (Z.to_nat (start - datetime_min))). lia.
  - intros Hge [|fuel] r H; [discriminate H|].
    rewrite generate_date_ranges_S in H.
    apply Z.ltb_ge in Hge. rewrite Hge in H. injection H as <-. reflexivity.
  - intros Hlt Hneg fuel r H.
    exact (generate_date_ranges_backward_raises step_days end_ Hneg fuel
             start r Hlt H).
Qed.

Lemma chunk_count_above current end_ step_days (i : nat) :
  0 < step_days ->
  current + Z.of_nat i * timedelta_days step_days < end_ ->
  (i < chunk_count current end_ step_days)%nat.
Proof.
  intros Hs Hi.
  pose proof (timedelta_days_pos step_days Hs) as HD.
  assert (Hlt : current < end_) by nia.
  destruct (chunk_count_bounds current end_ step_days Hs Hlt) as (_ & _ & Hend).
  nia.
Qed.

(** X5. A full window of a plan stays a window of every later plan: if
    the range is planned again with a later end, every window of the
    earlier plan that has the full length of [step_days] days is a window
    of the later plan, with the same bounds and so the same file name. *)
Theorem plan_stable start end_ end_' step_days (fuel fuel' : nat) ws ws' :
  0 < step_days -> end_ <= end_' ->
  Historical.generate_date_ranges fuel start end_ step_days
    = Some (ws, None) ->
  Historical.generate_date_ranges fuel' start end_' step_days
    = Some (ws', None) ->
  forall w, w ∈ ws -> snd w - fst w = timedelta_days step_days -> w ∈ ws'.
Proof.
  intros Hs Hle H H' w Hw Hfull.
  apply (generate_date_ranges_Some step_days end_ Hs) in H as [-> _].
  apply (generate_date_ranges_Some step_days end_' Hs) in H' as [-> _].
  apply list_elem_of_lookup in Hw as [i Hw].
  apply planned_windows_lookup in Hw as [Hi ->].
  unfold nth_window in Hfull. simpl in Hfull.
  pose proof (timedelta_days_pos step_days Hs) as HD.
  apply list_elem_of_lookup. exists i. apply planned_windows_lookup. split.
  - apply chunk_count_above; [exact Hs | lia].
  - unfold nth_window. f_equal. lia.
Qed.

End PlannerEdgeFacts.

Lemma planner_termination_witness :
  (exists (fuel : nat) r,
     Historical.generate_date_ranges fuel Historical.START
       (Historical.START + timedelta_days 16) (-7) = Some r) /\
  snd ([(Historical.START, Historical.START - timedelta_days 7)],
       Some OverflowError)
  = Some OverflowError.
Proof.
  assert (Hvalid : datetime_min <= Historical.START <= datetime_max)
    by (split; vm_compute; discriminate).
  split.
  - apply (proj2 (proj1 (planner_termination Historical.START
                           (Historical.START + timedelta_days 16) (-7)
                           Hvalid))).
    right. discriminate.
  - reflexivity.
Defined.

Lemma plan_stable_witness :
  (0, timedelta_days 7) ∈
    [(0, timedelta_days 7); (timedelta_days 7, timedelta_days 14);
     (timedelta_days 14, timedelta_days 16)].
Proof.
  apply (plan_stable 0 (timedelta_days 10) (timedelta_days 16) 7 3 4
           [(0, timedelta_days 7); (timedelta_days 7, timedelta_days 10)]
           [(0, timedelta_days 7); (timedelta_days 7, timedelta_days 14);
            (timedelta_days 14, timedelta_days 16)]).
  - reflexivity.
  - vm_compute. discriminate.
  - reflexivity.
  - reflexivity.
  - apply list_elem_of_here.
  - reflexivity.
Defined.

(** With a step of zero days the generator does not stop; with a step of
    3000000 days back it raises before the second window. *)
Example generate_date_ranges_zero_step :
  Historical.generate_date_ranges 50 0 (timedelta_days 16) 0 = None /\
  Historical.generate_date_ranges 50 0 (timedelta_days 16) (-500000)
  = Some ([(0, timedelta_days (-500000))], Some OverflowError).
Proof. split; reflexivity. Qed.

(** ** BackfillOrchestrator: files are written once, persisted chunks are
    skipped *)

Section ResumeFacts.
Context {record : Type}.
Variable server : list event -> request -> http_reply record.

Lemma backfill_chunk_files start_date end_date (fuel : nat) w res w' :
  Historical.backfill_chunk server fuel start_date end_date w = (res, w') ->
  files w ⊆ files w'.
Proof.
  intros H.
  unfold Historical.backfill_chunk, mbind, M_bind, bind,
    Historical.os_path_exists, gets in H.
  destruct (bool_decide
              (is_Some (files w !! Historical.chunk_filename start_date end_date)))
    eqn:Hpresent.
  - injection H as <- <-. reflexivity.
  - apply bool_decide_eq_false in Hpresent.
    destruct (Historical.extract_range server fuel start_date end_date w)
      as [r1 w1] eqn:E1.
    apply extract_range_loop_world in E1 as [Hf1 _].
    destruct r1 as [data|e|]; try (injection H as <- <-; rewrite Hf1; reflexivity).
    unfold Historical.save_data_as_csv in H.
    destruct (is_empty data);
      unfold sleep, log, modify in H; simpl in H; injection H as <- <-; simpl;
      rewrite Hf1; [reflexivity|].
    apply insert_subseteq.
    destruct (files w !! Historical.chunk_filename start_date end_date) eqn:E;
      [|reflexivity].
    exfalso. apply Hpresent. eexists. reflexivity.
Qed.

Lemma backfill_loop_files (fuel : nat) : forall windows w res w',
  Historical.backfill_loop server fuel windows w = (res, w') ->
  files w ⊆ files w'.
Proof.
  induction windows as [|[s e] windows IH]; intros w res w' H; simpl in H.
  - injection H as <- <-. reflexivity.
  - unfold mbind, M_bind, bind in H.
    destruct (Historical.backfill_chunk server fuel s e w) as [r1 w1] eqn:E1.
    apply backfill_chunk_files in E1.
    destruct r1 as [[]|ex|]; try (injection H as <- <-; exact E1).
    apply IH in H. etrans; eassumption.
Qed.

(** X6. The chunk files are written once: whatever the API does and
    however the run ends, every file that exists when a run of the backfill
    starts exists afterwards with the same content. A run only adds
    files. *)
Theorem backfill_write_once (fuel : nat) now w :
  files w ⊆ files (snd (Historical.main server fuel now w)).
Proof.
  unfold Historical.main.
  destruct (Historical.generate_date_ranges fuel Historical.START now 7)
    as [[windows ending]|]; [|reflexivity].
  unfold mbind, M_bind, bind.
  destruct (Historical.backfill_loop server fuel windows w) as [res w'] eqn:E.
  apply backfill_loop_files in E.
  destruct res as [[]|e|]; try destruct ending; exact E.
Qed.

(** X7. A chunk that brought records is persisted and from then on
    skipped: its file holds the records, and the step for any window whose
    bounds fall on the same two dates sends no request and changes
    nothing, whatever the API would answer. The skip looks at the dates of
    the bounds only, not at their times. *)
Theorem chunk_persisted_then_skipped (fuel : nat) start_date end_date w data w1 :
  Historical.extract_range server fuel start_date end_date w = (Ok data, w1) ->
  is_empty data = false ->
  files w !! Historical.chunk_filename start_date end_date = None ->
  exists w2,
    Historical.backfill_chunk server fuel start_date end_date w = (Ok tt, w2) /\
    files w2 = <[Historical.chunk_filename start_date end_date := data]> (files w) /\
    forall server' (fuel' : nat) start_date' end_date',
      date_of start_date' = date_of start_date ->
      date_of end_date' = date_of end_date ->
      Historical.backfill_chunk server' fuel' start_date' end_date' w2
        = (Ok tt, w2).
Proof.
  intros Hex Hdata Hfile.
  pose proof Hex as Hex'. apply extract_range_loop_world in Hex' as [Hf1 _].
  unfold Historical.backfill_chunk at 1.
  unfold mbind, M_bind, bind, Historical.os_path_exists, gets.
  rewrite Hfile, bool_decide_eq_false_2 by (intros [x Hx]; discriminate).
  rewrite Hex. unfold Historical.save_data_as_csv. rewrite Hdata.
  unfold sleep, log, modify. simpl. eexists. split; [reflexivity|].
  simpl. split; [rewrite Hf1; reflexivity|].
  intros server' fuel' s' e' Hs He.
  unfold Historical.backfill_chunk, mbind, M_bind, bind,
    Historical.os_path_exists, gets. simpl.
  unfold Historical.chunk_filename. rewrite Hs, He.
  rewrite lookup_insert_eq.
  rewrite bool_decide_eq_true_2 by (eexists; reflexivity). reflexivity.
Qed.

End ResumeFacts.

Lemma chunk_persisted_then_skipped_witness :
  exists w2,
    Historical.backfill_chunk first_week_only 1 Historical.START
      (Historical.START + timedelta_days 7) (mkWorld [] ∅) = (Ok tt, w2) /\
    files w2
      = <[Historical.chunk_filename Historical.START
            (Historical.START + timedelta_days 7) := [1; 2; 3]]>
          (files (mkWorld (record := Z) [] ∅)) /\
    forall server' (fuel' : nat) start_date' end_date',
      date_of start_date' = date_of Historical.START ->
      date_of end_date' = date_of (Historical.START + timedelta_days 7) ->
      Historical.backfill_chunk server' fuel' start_date' end_date' w2
        = (Ok tt, w2).
Proof.
  apply (chunk_persisted_then_skipped first_week_only 1 Historical.START
           (Historical.START + timedelta_days 7) (mkWorld [] ∅) [1; 2; 3]
           (mkWorld [Get (historical_request Historical.START
                            (Historical.START + timedelta_days 7) 1 100)] ∅)).
  - reflexivity.
  - reflexivity.
  - reflexivity.
Defined.

Section RerunFacts.
Context {record : Type}.
Variable server : list event -> request -> http_reply record.
Hypothesis server_stateless : stateless server.

Lemma one_attempt_stateless r w w0 :
  fst (one_attempt server r w) = fst (one_attempt server r w0).
Proof.
  unfold one_attempt, mbind, M_bind, bind, requests_get.
  rewrite (server_stateless (trace w) (trace w0) r).
  destruct (server (trace w0) r) as [|status body]; [reflexivity|].
  unfold raise_for_status.
  destruct ((400 <=? status) && (status <? 600)); [reflexivity|].
  destruct body; reflexivity.
Qed.

Lemma fetch_attempts_stateless attempts r : forall w w0,
  fst (Historical.fetch_attempts server attempts r w)
  = fst (Historical.fetch_attempts server attempts r w0).
Proof.
  induction attempts as [|a rest IH]; intros w w0; [reflexivity|].
  simpl. unfold try_except. fold (one_attempt server r).
  pose proof (one_attempt_stateless r w w0) as H1.
  destruct (one_attempt server r w) as [[b|e|] w1];
    destruct (one_attempt server r w0) as [[b0|e0|] w2]; simpl in H1;
    try discriminate H1; try (injection H1 as <-); try reflexivity.
  destruct (is_RequestException e); [|reflexivity].
  unfold mbind, M_bind, bind, sleep, log, modify. simpl. apply IH.
Qed.

Lemma extract_range_loop_stateless start_date end_date (fuel : nat) :
  forall page acc w w0,
    fst (Historical.extract_range_loop server fuel start_date end_date page acc w)
    = fst (Historical.extract_range_loop server fuel start_date end_date page
             acc w0).
Proof.
  induction fuel as [|fuel IH]; intros page acc w w0; [reflexivity|].
  simpl. unfold mbind, M_bind, bind.
  pose proof (fetch_attempts_stateless [0; 1; 2]
                (historical_request start_date end_date page 100) w w0) as H1.
  unfold Historical.fetch_cashless_data.
  fold (historical_request start_date end_date page 100).
  destruct (Historical.fetch_attempts server [0; 1; 2]
              (historical_request start_date end_date page 100) w)
    as [[d|e|] w1];
    destruct (Historical.fetch_attempts server [0; 1; 2]
                (historical_request start_date end_date page 100) w0)
      as [[d0|e0|] w2]; simpl in H1;
    try discriminate H1; try (injection H1 as <-); try reflexivity.
  destruct (is_empty d); [reflexivity|].
  destruct (len d <? 100); [reflexivity|].
  unfold sleep, log, modify. simpl. apply IH.
Qed.

(** After a pass that reached its end, every window of the pass has its
    file, or the API has nothing for it. *)
Lemma backfill_loop_done (fuel : nat) : forall windows w w1,
  Historical.backfill_loop server fuel windows w = (Ok tt, w1) ->
  forall s e, (s, e) ∈ windows ->
    is_Some (files w1 !! Historical.chunk_filename s e) \/
    forall w0, fst (Historical.extract_range server fuel s e w0) = Ok [].
Proof.
  induction windows as [|[s0 e0] windows IH]; intros w w1 H s e Hin.
  - apply elem_of_nil in Hin. contradiction.
  - simpl in H. unfold mbind, M_bind, bind in H.
    destruct (Historical.backfill_chunk server fuel s0 e0 w) as [r1 wa] eqn:E1.
    destruct r1 as [[]|ex|]; try discriminate H.
    apply elem_of_cons in Hin as [Heq|Hin]; [|exact (IH wa w1 H s e Hin)].
    injection Heq as -> ->.
    pose proof (backfill_loop_files server fuel windows wa _ w1 H) as Hsub.
    unfold Historical.backfill_chunk, mbind, M_bind, bind,
      Historical.os_path_exists, gets in E1.
    destruct (bool_decide
                (is_Some (files w !! Historical.chunk_filename s0 e0)))
      eqn:Hpresent.
    + injection E1 as <-. apply bool_decide_eq_true in Hpresent as [d Hd].
      left. exists d. eapply lookup_weaken; eassumption.
    + destruct (Historical.extract_range server fuel s0 e0 w) as [r2 wb] eqn:E2.
      destruct r2 as [data|ex|]; try discriminate E1.
      unfold Historical.save_data_as_csv in E1.
      destruct data as [|x data].
      * right. intros w0. unfold Historical.extract_range in *.
        rewrite (extract_range_loop_stateless s0 e0 fuel 1 [] w0 w), E2.
        reflexivity.
      * simpl in E1. unfold sleep, log, modify in E1. simpl in E1.
        injection E1 as <-. left. exists (x :: data).
        eapply lookup_weaken; [|exact Hsub]. simpl. apply lookup_insert_eq.
Qed.

(** A pass over windows that all have their file, or nothing to fetch,
    reaches its end and leaves the files as they are. *)
Lemma backfill_loop_nothing_to_do (fuel : nat) : forall windows w,
  (forall s e, (s, e) ∈ windows ->
     is_Some (files w !! Historical.chunk_filename s e) \/
     forall w0, fst (Historical.extract_range server fuel s e w0) = Ok []) ->
  exists w',
    Historical.backfill_loop server fuel windows w = (Ok tt, w') /\
    files w' = files w.
Proof.
  induction windows as [|[s e] windows IH]; intros w Hdone.
  - exists w. split; reflexivity.
  - assert (Hstep : exists wa,
              Historical.backfill_chunk server fuel s e w = (Ok tt, wa) /\
              files wa = files w).
    { unfold Historical.backfill_chunk, mbind, M_bind, bind,
        Historical.os_path_exists, gets.
      destruct (bool_decide
                  (is_Some (files w !! Historical.chunk_filename s e)))
        eqn:Hpresent; [exists w; split; reflexivity|].
      apply bool_decide_eq_false in Hpresent.
      destruct (Hdone s e (list_elem_of_here _ _)) as [Hsome|Hempty];
        [contradiction|].
      specialize (Hempty w).
      destruct (Historical.extract_range server fuel s e w) as [r2 wb] eqn:E2.
      simpl in Hempty. subst r2.
      apply extract_range_loop_world in E2 as [Hf _].
      unfold Historical.save_data_as_csv, sleep, log, modify. simpl.
      eexists. split; [reflexivity | exact Hf]. }
    destruct Hstep as (wa & Ea & Hfa).
    destruct (IH wa) as (w' & E' & Hf').
    { intros s' e' Hin. rewrite Hfa. apply Hdone.
      apply list_elem_of_further. exact Hin. }
    exists w'. simpl. unfold mbind, M_bind, bind. rewrite Ea.
    split; [exact E' | congruence].
Qed.

(** X8. Running the backfill again after a run that reached its end
    writes nothing: if the answers of the API depend on the request only
    and the clock reading is the same, the second run reaches its end too
    and leaves the set of chunk files and their contents as the first run
    left them. *)
Theorem backfill_rerun (fuel : nat) now w w1 :
  Historical.main server fuel now w = (Ok tt, w1) ->
  exists w2,
    Historical.main server fuel now w1 = (Ok tt, w2) /\
    files w2 = files w1.
Proof.
  unfold Historical.main.
  destruct (Historical.generate_date_ranges fuel Historical.START now 7)
    as [[windows ending]|]; [|discriminate].
  intros H.
  assert (Hloop : Historical.backfill_loop server fuel windows w = (Ok tt, w1)
                  /\ ending = None).
  { unfold mbind, M_bind, bind in H.
    destruct (Historical.backfill_loop server fuel windows w)
      as [[[]|e|] w'] eqn:E; try discriminate H.
    destruct ending; [discriminate H|]. injection H as <-.
    split; reflexivity. }
  destruct Hloop as [Hloop ->].
  destruct (backfill_loop_nothing_to_do fuel windows w1) as (w2 & E2 & Hf).
  { intros s e Hin.
    apply (backfill_loop_done fuel windows w w1 Hloop s e Hin). }
  exists w2. rewrite then_ret_tt. split; assumption.
Qed.

End RerunFacts.

Lemma backfill_rerun_witness :
  exists w2,
    Historical.main first_week_only 3
      (Historical.START + timedelta_days 10)
      (snd (Historical.main first_week_only 3
              (Historical.START + timedelta_days 10) (mkWorld [] ∅)))
    = (Ok tt, w2) /\
    files w2
    = files (snd (Historical.main first_week_only 3
                    (Historical.START + timedelta_days 10) (mkWorld [] ∅))).
Proof.
  apply (backfill_rerun first_week_only (fun tr tr' r => eq_refl) 3
           (Historical.START + timedelta_days 10) (mkWorld [] ∅)).
  vm_compute. reflexivity.
Defined.

(** The two runs of the witness: the first one fetches both chunks and
    writes the file of the first week; the second one skips the first week
    and asks again for the chunk that was empty. *)
Example backfill_rerun_trace :
  let run1 := snd (Historical.main first_week_only 3
                     (Historical.START + timedelta_days 10) (mkWorld [] ∅)) in
  let run2 := snd (Historical.main first_week_only 3
                     (Historical.START + timedelta_days 10) run1) in
  requests_of (trace run1)
    = [historical_request Historical.START
         (Historical.START + timedelta_days 7) 1 100;
       historical_request (Historical.START + timedelta_days 7)
         (Historical.START + timedelta_days 10) 1 100] /\
  requests_of (new_events run1 run2)
    = [historical_request (Historical.START + timedelta_days 7)
         (Historical.START + timedelta_days 10) 1 100] /\
  files run2 = {[ (19723, 19730) := [1; 2; 3] ]}.
Proof. repeat split; vm_compute; reflexivity. Qed.

(** ** Consolidator: errors, order and size of the result *)

Section ConsolidatorMoreFacts.






End ConsolidatorMoreFacts.


Section ConsolidatorSizeFacts.

Lemma ids_drop_duplicates_last subset (l : list row) :
  map (fun r : row => r !! subset)
      (Consolidate.drop_duplicates_last subset l)
  = remove_dups (map (fun r : row => r !! subset) l).
Proof.
  induction l as [|a rest IH]; [reflexivity|].
  cbn [Consolidate.drop_duplicates_last map remove_dups].
  destruct (Consolidate.duplicated_last subset a rest) eqn:Hd;
    destruct (decide_rel elem_of (a !! subset)
                (map (fun r : row => r !! subset) rest)) as [Hin|Hnin].
  - exact IH.
  - exfalso. apply Hnin.
    apply duplicated_last_true in Hd as (x & Hx & Heq).
    apply list_elem_of_fmap. exists x. split; [symmetry; exact Heq | exact Hx].
  - exfalso. apply list_elem_of_fmap in Hin as (x & Heq & Hx).
    assert (Consolidate.duplicated_last subset a rest = true)
      by (apply duplicated_last_true; exists x; split; [exact Hx | congruence]).
    congruence.
  - cbn [map]. rewrite IH. reflexivity.
Qed.

Lemma drop_duplicates_last_sublist subset (l : list row) :
  Consolidate.drop_duplicates_last subset l `sublist_of` l.
Proof.
  induction l as [|a rest IH]; simpl; [constructor|].
  destruct (Consolidate.duplicated_last subset a rest);
    [apply sublist_cons | apply sublist_skip]; exact IH.
Qed.

Lemma StronglySorted_sublist_of {A} (R : A -> A -> Prop) (l1 l2 : list A) :
  l1 `sublist_of` l2 -> StronglySorted R l2 -> StronglySorted R l1.
Proof.
  induction 1 as [|x l1 l2 Hsub IH|x l1 l2 Hsub IH]; intros Hs.
  - constructor.
  - apply StronglySorted_inv in Hs as [Hs Hall].
    constructor; [apply IH, Hs|].
    rewrite Forall_forall in Hall |- *. intros y Hy. apply Hall.
    eapply elem_of_sublist; eassumption.
  - apply StronglySorted_inv in Hs as [Hs _]. apply IH, Hs.
Qed.

Lemma remove_dups_length_Permutation `{EqDecision A} (l k : list A) :
  l ≡ₚ k -> length (remove_dups l) = length (remove_dups k).
Proof.
  intros Hp. apply Permutation_length.
  apply NoDup_Permutation; try apply NoDup_remove_dups.
  intros x. rewrite !elem_of_remove_dups, Hp. reflexivity.
Qed.

Lemma drop_duplicates_last_NoDup_id subset (l : list row) :
  NoDup (map (fun r : row => r !! subset) l) ->
  Consolidate.drop_duplicates_last subset l = l.
Proof.
  induction l as [|a rest IH]; intros Hnd; [reflexivity|].
  cbn [map] in Hnd. apply NoDup_cons in Hnd as [Hnotin Hnd].
  simpl. destruct (Consolidate.duplicated_last subset a rest) eqn:Hd.
  - exfalso. apply duplicated_last_true in Hd as (x & Hx & Heq).
    apply Hnotin. apply list_elem_of_fmap. exists x.
    split; [symmetry; exact Heq | exact Hx].
  - rewrite IH by exact Hnd. reflexivity.
Qed.

Lemma consolidate_Ok_rows sort_values (df_list : list DataFrame) out :
  Consolidate.consolidate sort_values df_list = Ok out ->
  rows out = Consolidate.drop_duplicates_last "transaction_id"
               (sort_values (combined_rows df_list)).
Proof.
  intros Hout. unfold Consolidate.consolidate in Hout.
  destruct df_list as [|df l]; [discriminate|].
  unfold Consolidate.pd_concat in Hout.
  destruct (negb (contains "occurred_at" _)); [discriminate|].
  destruct (negb (contains "transaction_id" _)); [discriminate|].
  injection Hout as <-. reflexivity.
Qed.

(** X10. When the consolidation returns a table and the sort has done
    its work, the rows of the table are in ascending order of occurred_at
    (rows without a timestamp last), there are as many of them as there
    are different ids in the chunk files, and the number that the script
    reports as dropped is the number of input rows minus the number of
    different ids. *)
Theorem consolidate_order_and_size sort_values (df_list : list DataFrame) out :
  Consolidate.sort_values_ok sort_values "occurred_at" (combined_rows df_list) ->
  Consolidate.consolidate sort_values df_list = Ok out ->
  StronglySorted
    (fun r1 r2 => Consolidate.recency_le (recency r1) (recency r2) = true)
    (rows out) /\
  length (rows out)
    = length (remove_dups (map row_id (combined_rows df_list))) /\
  Consolidate.dropped
    (mkDataFrame (columns out) (sort_values (combined_rows df_list))) out
  = len (combined_rows df_list)
    - len (remove_dups (map row_id (combined_rows df_list))).
Proof.
  intros [Hperm Hsorted] Hout.
  pose proof (consolidate_Ok_rows sort_values df_list out Hout) as Hrows.
  assert (Hlen : length (rows out)
                 = length (remove_dups (map row_id (combined_rows df_list)))).
  { rewrite Hrows.
    rewrite <- (length_map (fun r : row => r !! "transaction_id")).
    rewrite ids_drop_duplicates_last.
    apply remove_dups_length_Permutation.
    apply Permutation_map. exact Hperm. }
  split; [|split; [exact Hlen|]].
  - rewrite Hrows.
    eapply StronglySorted_sublist_of;
      [apply drop_duplicates_last_sublist | exact Hsorted].
  - unfold Consolidate.dropped, len. cbn [rows].
    rewrite Hlen, (Permutation_length Hperm). reflexivity.
Qed.

(** X11. Chunk files whose rows all have different ids pass through the
    consolidation without loss: the table it returns holds exactly the
    rows of the files, rearranged by the sort, and nothing is dropped. *)
Theorem consolidate_without_duplicates sort_values (df_list : list DataFrame)
    out :
  Consolidate.sort_values_ok sort_values "occurred_at" (combined_rows df_list) ->
  NoDup (map row_id (combined_rows df_list)) ->
  Consolidate.consolidate sort_values df_list = Ok out ->
  rows out = sort_values (combined_rows df_list) /\
  rows out ≡ₚ combined_rows df_list.
Proof.
  intros [Hperm Hsorted] Hnd Hout.
  pose proof (consolidate_Ok_rows sort_values df_list out Hout) as Hrows.
  rewrite Hrows, drop_duplicates_last_NoDup_id.
  - split; [reflexivity | exact Hperm].
  - assert (Hp : map (fun r : row => r !! "transaction_id")
                     (sort_values (combined_rows df_list))
                 ≡ₚ map row_id (combined_rows df_list))
      by (apply Permutation_map; exact Hperm).
    rewrite Hp. exact Hnd.
Qed.

End ConsolidatorSizeFacts.

Lemma consolidate_order_and_size_witness :
  length
    [combined_row "T2" (Some "2024-01-01T11:00Z") "third";
     combined_row "T1" (Some "2024-01-01T12:00Z") "second"]
  = length
      (remove_dups
         (map row_id
            (combined_rows
               [chunk "T1" (Some "2024-01-01T10:00Z") "first";
                chunk "T1" (Some "2024-01-01T12:00Z") "second";
                chunk "T2" (Some "2024-01-01T11:00Z") "third"]))).
Proof.
  apply (consolidate_order_and_size stable_sort
           [chunk "T1" (Some "2024-01-01T10:00Z") "first";
            chunk "T1" (Some "2024-01-01T12:00Z") "second";
            chunk "T2" (Some "2024-01-01T11:00Z") "third"]
           (mkDataFrame ["transaction_id"; "occurred_at"; "value"]
              [combined_row "T2" (Some "2024-01-01T11:00Z") "third";
               combined_row "T1" (Some "2024-01-01T12:00Z") "second"])).
  - apply stable_sort_ok.
  - reflexivity.
Defined.

Lemma consolidate_without_duplicates_witness :
  [combined_row "T1" (Some "2024-01-01T10:00Z") "first";
   combined_row "T2" (Some "2024-01-01T11:00Z") "third"]
  ≡ₚ combined_rows
       [chunk "T2" (Some "2024-01-01T11:00Z") "third";
        chunk "T1" (Some "2024-01-01T10:00Z") "first"].
Proof.
  apply (consolidate_without_duplicates stable_sort
           [chunk "T2" (Some "2024-01-01T11:00Z") "third";
            chunk "T1" (Some "2024-01-01T10:00Z") "first"]
           (mkDataFrame ["transaction_id"; "occurred_at"; "value"]
              [combined_row "T1" (Some "2024-01-01T10:00Z") "first";
               combined_row "T2" (Some "2024-01-01T11:00Z") "third"])).
  - apply stable_sort_ok.
  - apply (bool_decide_unpack _). vm_compute. exact I.
  - reflexivity.
Defined.

(** ** UpsertEngine: sanitized names, the script of the calls *)

Section SanitizeFacts.
Context {cell : Type}.

Lemma replace_dots_no_dot s : has_dot (replace_dots s) = false.
Proof.
  induction s as [|c s IH]; [reflexivity|]. simpl.
  destruct (Ascii.eqb c ".") eqn:E; rewrite IH; [reflexivity|].
  rewrite E. reflexivity.
Qed.

Lemma replace_dots_id s : has_dot s = false -> replace_dots s = s.
Proof.
  induction s as [|c s IH]; [reflexivity|]. simpl. intros H.
  apply orb_false_iff in H as [Hc Hs]. rewrite Hc, (IH Hs). reflexivity.
Qed.

Lemma replace_dots_length s : String.length (replace_dots s) = String.length s.
Proof. induction s as [|c s IH]; [reflexivity|]. simpl. rewrite IH. reflexivity. Qed.

(** X12. Sanitizing the column names of a batch leaves no dot in any
    name, changes neither the number and order of the columns nor their
    dtypes and values nor the length of a name, does nothing to a batch
    whose names have no dot, and so does nothing when done twice; the two
    loaders sanitize alike. *)
Theorem sanitize_columns_clean (df : Frame cell) :
  Forall (fun c => has_dot c = false)
         (column_names (LoadBigQuery.sanitize_columns df)) /\
  map String.length (column_names (LoadBigQuery.sanitize_columns df))
    = map String.length (column_names df) /\
  map s_dtype (LoadBigQuery.sanitize_columns df) = map s_dtype df /\
  map s_values (LoadBigQuery.sanitize_columns df) = map s_values df /\
  (Forall (fun c => has_dot c = false) (column_names df) ->
   LoadBigQuery.sanitize_columns df = df) /\
  LoadBigQuery.sanitize_columns (LoadBigQuery.sanitize_columns df)
    = LoadBigQuery.sanitize_columns df /\
  LoadToBigQuery.sanitize_columns df = LoadBigQuery.sanitize_columns df.
Proof.
  assert (Hclean : Forall (fun c => has_dot c = false)
                     (column_names (LoadBigQuery.sanitize_columns df))).
  { unfold column_names, LoadBigQuery.sanitize_columns. rewrite map_map.
    apply Forall_forall. intros c Hc.
    apply list_elem_of_fmap in Hc as (s & -> & _). simpl.
    apply replace_dots_no_dot. }
  assert (Hid : forall d : Frame cell,
            Forall (fun c => has_dot c = false) (column_names d) ->
            LoadBigQuery.sanitize_columns d = d).
  { intros d Hd. unfold LoadBigQuery.sanitize_columns.
    induction d as [|s d IH]; [reflexivity|].
    unfold column_names in Hd. cbn [map] in Hd.
    apply Forall_cons in Hd as [Hs Hd]. cbn [map].
    rewrite (replace_dots_id _ Hs), (IH Hd). destruct s; reflexivity. }
  split; [exact Hclean|].
  split; [unfold column_names, LoadBigQuery.sanitize_columns; rewrite !map_map;
          apply map_ext; intros s; apply replace_dots_length|].
  split; [unfold LoadBigQuery.sanitize_columns; rewrite map_map;
          apply map_ext; reflexivity|].
  split; [unfold LoadBigQuery.sanitize_columns; rewrite map_map;
          apply map_ext; reflexivity|].
  split; [exact (Hid df)|].
  split; [exact (Hid _ Hclean) | reflexivity].
Qed.

End SanitizeFacts.

(** Two columns whose names differ in a dot only get the same name. *)
Example sanitize_columns_collision :
  column_names
    (LoadBigQuery.sanitize_columns
       [mkSeries "client.id" object ["1"]; mkSeries "client_id" object ["2"]])
  = ["client_id"; "client_id"].
Proof. reflexivity. Qed.

Lemma sanitize_columns_clean_witness :
  LoadBigQuery.sanitize_columns
    [mkSeries "id" object ["7"]; mkSeries "upc_code" object ["00123"]]
  = [mkSeries "id" object ["7"]; mkSeries "upc_code" object ["00123"]].
Proof.
  apply (proj1 (proj2 (proj2 (proj2 (proj2
           (sanitize_columns_clean
              [mkSeries "id" object ["7"];
               mkSeries "upc_code" object ["00123"]])))))).
  repeat constructor.
Defined.

Section ScriptFacts.
Context {cell W : Type} {pandas : Pandas cell} {client : Client cell W}.
Variable DATASET_ID : string.

(** Membership in a list that is written out, with the cases kept. *)
Ltac elem_split H :=
  repeat (apply elem_of_cons in H as [H|H]);
  try (apply elem_of_nil in H; contradiction).

Lemma merge_steps_follow_script (g c l q d : M W unit) final temp schema sql :
  follows_script
    (try_except (invoke (GetTable final) g) is_NotFound
       (fun _ => invoke (CreateTable final schema) c);;
     invoke (LoadTable temp schema) l;;
     try_except (invoke (Query sql) q) is_Exception (fun e => raise e);;
     invoke (DeleteTable temp) d)
    final temp schema sql.
Proof.
  intros s res s' H.
  unfold mbind, M_bind, bind, try_except, invoke, raise in H. simpl in H.
  destruct (g (warehouse s)) as [[[]|eg|] w1]; simpl in H;
    [| destruct eg; simpl in H |];
    repeat match type of H with
           | context [c ?w] => destruct (c w) as [[[]|?|] ?]; simpl in H
           | context [l ?w] => destruct (l w) as [[[]|?|] ?]; simpl in H
           | context [q ?w] => destruct (q w) as [[[]|?|] ?]; simpl in H
           | context [d ?w] => destruct (d w) as [[[]|?|] ?]; simpl in H
           end;
    injection H as <- <-; rewrite <- ?app_assoc, new_calls_app; simpl;
    (split; [first [ left; eexists; reflexivity
                   | right; eexists; reflexivity ]|]);
    (split; [intros c0 o0 Hin Hne; elem_split Hin; injection Hin as -> ->;
             first [ exfalso; apply Hne; reflexivity
                   | left; reflexivity
                   | right; eexists; split; reflexivity ]|]);
    (split; [split;
             [ intros (sc0 & o0 & Hin); elem_split Hin; try discriminate Hin;
               eexists; apply list_elem_of_here
             | intros (m0 & Hin); elem_split Hin; try discriminate Hin;
               eexists _, _; apply list_elem_of_further, list_elem_of_here ]|]);
    (split; [intros Hres; first [reflexivity | discriminate Hres]
            | intros Hlast; first [reflexivity | discriminate Hlast]]).
Qed.

Lemma raise_follows_script (e : exn) final temp schema sql :
  follows_script (W := W) (raise e) final temp schema sql.
Proof.
  intros s res s' H. injection H as <- <-.
  rewrite new_calls_same. split; [left; eexists; reflexivity|].
  split; [intros c o Hin; apply elem_of_nil in Hin; contradiction|].
  split; [split; [intros (sc & o & Hin) | intros (m & Hin)];
          apply elem_of_nil in Hin; contradiction|].
  split; intros Hx; discriminate Hx.
Qed.

(** X13. The calls that an upsert makes follow one script, in the cloud
    function and in the CSV loader: get the final table; create it, with
    the schema of the batch, exactly when getting it raised NotFound; load
    the batch into the staging table with the same schema; run the MERGE
    statement of the batch, from the staging table into the final table
    on the id column; delete the staging table. Any other failure of a
    call ends the upsert at this call, so that no batch is merged that was
    not loaded and no query but this MERGE is run; the upsert returns
    exactly when the deletion of the staging table returned. *)
Theorem upsert_follows_script (df : Frame cell) (table_name id_column : string) :
  let final := DATASET_ID +:+ "." +:+ table_name in
  let temp := DATASET_ID +:+ ".temp_" +:+ table_name in
  follows_script
    (LoadBigQuery.upload_dataframe_to_bigquery DATASET_ID df table_name
       id_column)
    final temp
    (LoadBigQuery.build_bq_schema_cf (processed_cf table_name df) table_name)
    (LoadBigQuery.merge_sql final temp (replace_dots id_column)
       (column_names (processed_cf table_name df))) /\
  follows_script
    (LoadToBigQuery.upload_and_merge_table DATASET_ID table_name df id_column)
    final temp
    (LoadToBigQuery.build_bq_schema (processed_csv table_name df) table_name)
    (LoadToBigQuery.merge_sql final temp id_column
       (column_names (processed_csv table_name df))).
Proof.
  intros final temp. subst final temp. split.
  - unfold LoadBigQuery.upload_dataframe_to_bigquery, processed_cf. cbv zeta.
    set (d := LoadBigQuery.convert_numbers table_name _).
    destruct (negb (contains _ _)); [apply raise_follows_script|].
    apply merge_steps_follow_script.
  - unfold LoadToBigQuery.upload_and_merge_table, processed_csv. cbv zeta.
    set (d := LoadToBigQuery.convert_strings table_name _).
    destruct (negb (contains _ _)); [apply raise_follows_script|].
    apply merge_steps_follow_script.
Qed.

End ScriptFacts.

Lemma upsert_follows_script_witness :
  fst (upsert_two_products false) = Ok tt <->
  last (new_calls (empty_warehouse false) (snd (upsert_two_products false)))
  = Some (DeleteTable ("vmpay" +:+ ".temp_" +:+ "products"), Ok tt).
Proof.
  apply (proj1 (upsert_follows_script "vmpay" two_products "products" "id")
           (empty_warehouse false) (fst (upsert_two_products false))
           (snd (upsert_two_products false))).
  reflexivity.
Defined.

(** The upsert of two products into an empty warehouse: the query it runs
    is the MERGE of the staging table into the final table. *)
Example upsert_two_products_calls :
  map fst (calls (snd (upsert_two_products false)))
  = [GetTable "vmpay.products";
     CreateTable "vmpay.products"
       (LoadBigQuery.build_bq_schema_cf (processed_cf "products" two_products)
          "products");
     LoadTable "vmpay.temp_products"
       (LoadBigQuery.build_bq_schema_cf (processed_cf "products" two_products)
          "products");
     Query (LoadBigQuery.merge_sql "vmpay.products" "vmpay.temp_products" "id"
              ["id"; "upc_code"; "packing_id"]);
     DeleteTable "vmpay.temp_products"].
Proof. vm_compute. reflexivity. Qed.

(** ** SchemaInferencer inside the upsert: date columns *)

Section DateColumnFacts.
Context {cell : Type} {pandas : Pandas cell}.













End DateColumnFacts.


(** The schema builder alone types a date column that comes as text
    STRING; inside the upsert it is TIMESTAMP when [pd.to_datetime] makes
    a datetime64 column of it, and STRING when the dates have different
    UTC offsets. *)
Example schema_of_dated_product :
  LoadBigQuery.build_bq_schema_cf dated_product "products"
  = [mkSchemaField "id" STRING; mkSchemaField "created_at" STRING;
     mkSchemaField "cost_price" FLOAT] /\
  LoadBigQuery.build_bq_schema_cf (processed_cf "products" dated_product)
    "products"
  = [mkSchemaField "id" STRING; mkSchemaField "created_at" TIMESTAMP;
     mkSchemaField "cost_price" FLOAT] /\
  LoadBigQuery.build_bq_schema_cf
    (processed_cf (pandas := mixed_offsets_pandas) "products"
       mixed_offsets_products) "products"
  = [mkSchemaField "id" STRING; mkSchemaField "created_at" STRING].
Proof. repeat split; reflexivity. Qed.

(** ** The loader of all tables and the daily job *)

Lemma append_inj (a b c : string) : a +:+ b = a +:+ c -> b = c.
Proof.
  induction a as [|x a IH]; simpl; intros H; [exact H|].
  injection H as H. apply IH, H.
Qed.

Lemma session_eta {W} (s : session W) :
  mkSession (calls s ++ []) (warehouse s) = s.
Proof. destruct s. simpl. rewrite app_nil_r. reflexivity. Qed.

Section UpsertSummary.
Context {cell W : Type} {pandas : Pandas cell} {client : Client cell W}.
Variable DATASET_ID : string.

Ltac elem_split H :=
  repeat (apply elem_of_cons in H as [H|H]);
  try (apply elem_of_nil in H; contradiction).

(** The steps of an upsert that act on the warehouse: the first call gets
    the final table, no later call gets a table, and the steps come to an
    end when the calls do. *)
Lemma merge_steps_summary (g c l q d : M W unit) final temp schema sql s :
  exists o tl w',
    snd ((try_except (invoke (GetTable final) g) is_NotFound
            (fun _ => invoke (CreateTable final schema) c);;
          invoke (LoadTable temp schema) l;;
          try_except (invoke (Query sql) q) is_Exception (fun e => raise e);;
          invoke (DeleteTable temp) d) s)
    = mkSession (calls s ++ (GetTable final, o) :: tl) w' /\
    (forall t' o', (GetTable t', o') ∉ tl) /\
    ((forall w, fst (g w) <> OutOfFuel) ->
     (forall w, fst (c w) <> OutOfFuel) ->
     (forall w, fst (l w) <> OutOfFuel) ->
     (forall w, fst (q w) <> OutOfFuel) ->
     (forall w, fst (d w) <> OutOfFuel) ->
     fst ((try_except (invoke (GetTable final) g) is_NotFound
             (fun _ => invoke (CreateTable final schema) c);;
           invoke (LoadTable temp schema) l;;
           try_except (invoke (Query sql) q) is_Exception (fun e => raise e);;
           invoke (DeleteTable temp) d) s) <> OutOfFuel).
Proof.
  unfold mbind, M_bind, bind, try_except, invoke, raise. simpl.
  destruct (g (warehouse s)) as [[[]|eg|] w1] eqn:Eg; simpl;
    [| destruct eg; simpl |];
    repeat match goal with
           | |- context [c ?w] =>
               let E := fresh "Ec" in
               destruct (c w) as [[[]|?|] ?] eqn:E; simpl
           | |- context [l ?w] =>
               let E := fresh "El" in
               destruct (l w) as [[[]|?|] ?] eqn:E; simpl
           | |- context [q ?w] =>
               let E := fresh "Eq" in
               destruct (q w) as [[[]|?|] ?] eqn:E; simpl
           | |- context [d ?w] =>
               let E := fresh "Ed" in
               destruct (d w) as [[[]|?|] ?] eqn:E; simpl
           end;
    rewrite <- ?app_assoc; simpl;
    eexists _, _, _;
    (split; [reflexivity|]);
    (split; [intros t' o' Hin; elem_split Hin; discriminate Hin|]);
    intros Hg Hc Hl Hq Hd;
    first [ discriminate
          | exfalso;
            match goal with
            | E : ?f ?w = (OutOfFuel, _),
              H : forall w, fst (?f w) <> OutOfFuel |- _ =>
                apply (H w); rewrite E; reflexivity
            end ].
Qed.


Lemma cf_upsert_summary (df : Frame cell) (t i : string) s :
  exists tl w',
    snd (LoadBigQuery.upload_dataframe_to_bigquery DATASET_ID df t i s)
    = mkSession (calls s ++ tl) w' /\
    (forall t' o, (GetTable t', o) ∈ tl -> t' = DATASET_ID +:+ "." +:+ t) /\
    (client_returns ->
     fst (LoadBigQuery.upload_dataframe_to_bigquery DATASET_ID df t i s)
     <> OutOfFuel).
Proof.
  unfold LoadBigQuery.upload_dataframe_to_bigquery. cbv zeta.
  destruct (negb (contains _ _)).
  - exists [], (warehouse s). unfold raise. simpl.
    split; [symmetry; apply session_eta|].
    split; [intros t' o Hin; apply elem_of_nil in Hin; contradiction|].
    intros _. discriminate.
  - edestruct merge_steps_summary as (o & tl & w' & Hs & Hno & Hret).
    eexists _, w'. split; [exact Hs|]. split.
    + intros t' o' Hin. apply elem_of_cons in Hin as [Hin|Hin].
      * injection Hin as -> _. reflexivity.
      * exfalso. exact (Hno _ _ Hin).
    + intros (Hg & Hc & Hl & Hq & Hd). apply Hret; intros w; auto.
Qed.

End UpsertSummary.

Section UploadAllFacts.
Context {cell W : Type} {pandas : Pandas cell} {client : Client cell W}.
Variable DATASET_ID : string.
Variable fs : string -> option (exn + Frame cell).





End UploadAllFacts.

Lemma test_client_returns : client_returns (client := test_client).
Proof.
  repeat split; intros; simpl;
    repeat match goal with
           | |- context [if ?b then _ else _] => destruct b
           end; discriminate.
Qed.


(** The products file cannot be read, the clients file has no id column,
    and the categories are loaded all the same. *)
Example upload_all_tables_trace :
  map (fun c => call_summary (fst c))
      (calls (snd (LoadToBigQuery.upload_all_tables_v2 "vmpay" three_csv_files
                     (empty_warehouse false))))
  = [("get_table", "vmpay.categories");
     ("create_table", "vmpay.categories");
     ("load_table_from_dataframe", "vmpay.temp_categories");
     ("query", "MERGE `vmpay.categorie");
     ("delete_table", "vmpay.temp_categories")].
Proof. vm_compute. reflexivity. Qed.

Section DailyJobFacts.
Context {record cell W : Type} {pandas : Pandas cell} {client : Client cell W}.
Variable server : list event -> request -> http_reply record.
Variable fromisoformat : string -> option datetime.
Variable DATASET_ID : string.
Variable json_normalize : list record -> Frame cell.

(** The fetch without parameters sends one request and returns the body
    of an accepted reply. *)
Lemma fetch_from_endpoint_once (name : string) (w : world record) :
  exists res,
    Fetch.fetch_from_endpoint server name None w
    = (res, mkWorld (trace w ++ [Get (aux_request name)]) (files w)) /\
    match accepted (server (trace w) (aux_request name)) with
    | Some data => res = Ok data
    | None => exists e, res = Raise e
    end.
Proof.
  unfold Fetch.fetch_from_endpoint, mbind, M_bind, bind, requests_get.
  fold (aux_request name).
  destruct (server (trace w) (aux_request name)) as [|status body]; simpl.
  - eexists. split; [reflexivity|]. eexists. reflexivity.
  - unfold raise_for_status.
    destruct ((400 <=? status) && (status <? 600)); simpl.
    + eexists. split; [reflexivity|].
      destruct body; eexists; reflexivity.
    + destruct body as [data|]; simpl.
      * eexists. split; reflexivity.
      * eexists. split; [reflexivity|]. eexists. reflexivity.
Qed.

Lemma update_aux_table_step (name : string) (s : cloud record W) :
  exists res tl w',
    DailyJob.update_aux_table server DATASET_ID json_normalize name s
    = (res,
       mkCloud
         (mkWorld (trace (net s) ++ [Get (aux_request name)]) (files (net s)))
         (mkSession (calls (bq s) ++ tl) w')) /\
    (forall e, res <> Raise e) /\
    (client_returns -> res = Ok tt) /\
    (accepted (server (trace (net s)) (aux_request name)) = None ->
     res = Ok tt /\ tl = [] /\ w' = warehouse (bq s)) /\
    (forall data,
       accepted (server (trace (net s)) (aux_request name)) = Some data ->
       mkSession (calls (bq s) ++ tl) w'
       = snd (LoadBigQuery.upload_dataframe_to_bigquery DATASET_ID
                (json_normalize data) name "id" (bq s))) /\
    (forall t o, (GetTable t, o) ∈ tl -> t = DATASET_ID +:+ "." +:+ name).
Proof.
  unfold DailyJob.update_aux_table, try_except, mbind, M_bind, bind, on_net.
  destruct (fetch_from_endpoint_once name (net s)) as (r0 & E0 & Hacc).
  rewrite E0.
  destruct (accepted (server (trace (net s)) (aux_request name)))
    as [data|].
  - subst r0. unfold on_bq. cbn [net bq].
    destruct (cf_upsert_summary DATASET_ID (json_normalize data) name "id"
                (bq s)) as (tl & w' & Hs & Honly & Hret).
    destruct (LoadBigQuery.upload_dataframe_to_bigquery DATASET_ID
                (json_normalize data) name "id" (bq s)) as [r b] eqn:Eu.
    simpl in Hs, Hret. subst b.
    assert (Hsame : forall d, Some data = Some d ->
              mkSession (calls (bq s) ++ tl) w'
              = snd (LoadBigQuery.upload_dataframe_to_bigquery DATASET_ID
                       (json_normalize d) name "id" (bq s))).
    { intros d Hd. injection Hd as <-. rewrite Eu. reflexivity. }
    destruct r as [[]|e|]; simpl is_Exception; cbv iota.
    + exists (Ok tt), tl, w'. split; [reflexivity|].
      split; [intros e; discriminate|]. split; [reflexivity|].
      split; [intros Hx; discriminate Hx|].
      split; [exact Hsame | exact Honly].
    + exists (Ok tt), tl, w'. split; [reflexivity|].
      split; [intros e0; discriminate|]. split; [reflexivity|].
      split; [intros Hx; discriminate Hx|].
      split; [exact Hsame | exact Honly].
    + exists OutOfFuel, tl, w'. split; [reflexivity|].
      split; [intros e; discriminate|].
      split; [intros Hc; exfalso; apply (Hret Hc); reflexivity|].
      split; [intros Hx; discriminate Hx|].
      split; [exact Hsame | exact Honly].
  - destruct Hacc as [e ->]. simpl is_Exception. cbv iota.
    exists (Ok tt), [], (warehouse (bq s)). rewrite session_eta.
    split; [reflexivity|]. split; [intros e0; discriminate|].
    split; [reflexivity|]. split; [intros _; repeat split|].
    split; [intros d Hd; discriminate Hd|].
    intros t o Hin. apply elem_of_nil in Hin. contradiction.
Qed.

(** X16. The update of an auxiliary table is contained: it sends one
    request, for the table, and never raises. When the request is refused
    or its body is no JSON, the warehouse is not called; otherwise the
    warehouse is left as the upsert of the batch leaves it, whether the
    upsert returned or raised. *)
Theorem aux_update_contained (name : string) (s : cloud record W) :
  exists res s',
    DailyJob.update_aux_table server DATASET_ID json_normalize name s
    = (res, s') /\
    (forall e, res <> Raise e) /\
    net s'
    = mkWorld (trace (net s) ++ [Get (aux_request name)]) (files (net s)) /\
    (accepted (server (trace (net s)) (aux_request name)) = None ->
     res = Ok tt /\ bq s' = bq s) /\
    (forall data,
       accepted (server (trace (net s)) (aux_request name)) = Some data ->
       bq s' = snd (LoadBigQuery.upload_dataframe_to_bigquery DATASET_ID
                      (json_normalize data) name "id" (bq s))) /\
    (client_returns -> res = Ok tt).
Proof.
  destruct (update_aux_table_step name s)
    as (res & tl & w' & E & Hno & Hret & Hnone & Hsome & _).
  eexists res, _. split; [exact E|]. cbn [net bq].
  split; [exact Hno|]. split; [reflexivity|].
  split; [|split; [exact Hsome | exact Hret]].
  intros Hacc. destruct (Hnone Hacc) as (-> & -> & ->).
  split; [reflexivity | apply session_eta].
Qed.

Lemma aux_loop (names : list string) : forall s : cloud record W,
  client_returns ->
  exists tl w',
    for_each names
      (DailyJob.update_aux_table server DATASET_ID json_normalize) s
    = (Ok tt,
       mkCloud
         (mkWorld (trace (net s) ++ map (fun t => Get (aux_request t)) names)
                  (files (net s)))
         (mkSession (calls (bq s) ++ tl) w')) /\
    (forall t o, (GetTable t, o) ∈ tl ->
       exists name, name ∈ names /\ t = DATASET_ID +:+ "." +:+ name).
Proof.
  induction names as [|name names IH]; intros s Hc.
  - exists [], (warehouse (bq s)). simpl. unfold ret.
    rewrite session_eta, app_nil_r. split.
    + destruct s as [[tr fl] b]. reflexivity.
    + intros t o Hin. apply elem_of_nil in Hin. contradiction.
  - destruct (update_aux_table_step name s)
      as (r1 & tl1 & w1 & E1 & _ & Hret1 & _ & _ & Honly1).
    rewrite (Hret1 Hc) in E1.
    cbn [for_each]. unfold mbind, M_bind, bind. rewrite E1.
    edestruct IH as (tl & w' & E & Honly); [exact Hc|]. rewrite E.
    cbn [net bq trace files calls map].
    exists (tl1 ++ tl), w'. split.
    + rewrite <- !app_assoc. reflexivity.
    + intros t o Hin. apply elem_of_app in Hin as [Hin|Hin].
      * exists name. split; [apply list_elem_of_here | exact (Honly1 t o Hin)].
      * destruct (Honly t o Hin) as (n0 & Hn0 & ->).
        exists n0. split; [apply list_elem_of_further, Hn0 | reflexivity].
Qed.

(** X17. How the daily job ends. A failure of the fetch of the cashless
    records, or of the reading of the date, leaves the job with this
    exception before the warehouse is called and before any auxiliary
    table is asked for. A failure of the upsert of the cashless batch
    leaves the job with this exception too, and no auxiliary table is
    updated. Once the cashless part is through, the job returns whatever
    the updates of the auxiliary tables run into: it asks for the five
    tables, one request each, in their order, and makes no further call
    for the cashless table; on a day without cashless records the
    cashless table is not touched at all. *)
Theorem daily_job_outcomes (fuel : nat) (now : datetime)
    (date_arg : option string) (s : cloud record W) :
  let fetch := primary_fetch server fromisoformat fuel now date_arg in
  let upsert data :=
    LoadBigQuery.upload_dataframe_to_bigquery DATASET_ID
      (cashless_batch json_normalize data) "cashless" "transaction_id" in
  let main :=
    DailyJob.main server fromisoformat DATASET_ID json_normalize fuel now
      date_arg in
  (forall e n',
     fetch (net s) = (Raise e, n') ->
     main s = (Raise e, mkCloud n' (bq s))) /\
  (forall data n' e b',
     fetch (net s) = (Ok data, n') ->
     is_empty data = false ->
     upsert data (bq s) = (Raise e, b') ->
     main s = (Raise e, mkCloud n' b')) /\
  (client_returns ->
   forall data n' b',
     fetch (net s) = (Ok data, n') ->
     (if is_empty data then b' = bq s
      else upsert data (bq s) = (Ok tt, b')) ->
     exists s',
       main s = (Ok tt, s') /\
       net s'
       = mkWorld (trace n' ++ map (fun t => Get (aux_request t)) aux_tables)
                 (files n') /\
       calls b' `prefix_of` calls (bq s') /\
       forall o,
         (GetTable (DATASET_ID +:+ "." +:+ "cashless"), o)
           ∉ new_calls b' (bq s')).
Proof.
  intros fetch upsert main.
  assert (Hmain : forall st,
    main st
    = match fetch (net st) with
      | (Ok data, n') =>
          match (if negb (is_empty data)
                 then on_bq (upsert data)
                 else ret tt) (mkCloud n' (bq st)) with
          | (Ok _, s1) =>
              for_each aux_tables
                (DailyJob.update_aux_table server DATASET_ID json_normalize) s1
          | (Raise e, s1) => (Raise e, s1)
          | (OutOfFuel, s1) => (OutOfFuel, s1)
          end
      | (Raise e, n') => (Raise e, mkCloud n' (bq st))
      | (OutOfFuel, n') => (OutOfFuel, mkCloud n' (bq st))
      end).
  { intros st. unfold main, DailyJob.main, fetch, primary_fetch, try_except,
      mbind, M_bind, bind, on_net, upsert, cashless_batch.
    destruct (DailyFetch.sync_window fromisoformat now date_arg (net st))
      as [[window|e|] n0]; cbn [net bq]; [|reflexivity|reflexivity].
    destruct (DailyFetch.fetch_cashless_data server fuel (fst window)
                (snd window) n0) as [[data|e|] n1]; cbn [net bq];
      [|reflexivity|reflexivity].
    fold aux_tables.
    destruct (is_empty data); cbn [negb].
    - unfold ret.
      destruct (for_each aux_tables _ _) as [[[]|e|] s2]; reflexivity.
    - unfold on_bq. cbn [net bq].
      destruct (LoadBigQuery.upload_dataframe_to_bigquery _ _ _ _ _)
        as [[[]|e|] b1]; [|reflexivity|reflexivity].
      destruct (for_each aux_tables _ _) as [[[]|e|] s2]; reflexivity. }
  split; [|split].
  - intros e n' E. rewrite Hmain, E. reflexivity.
  - intros data n' e b' E Hdata Hup. rewrite Hmain, E, Hdata.
    cbn [negb]. unfold on_bq. cbn [net bq]. rewrite Hup. reflexivity.
  - intros Hc data n' b' E Hb. rewrite Hmain, E.
    assert (E1 : (if negb (is_empty data) then on_bq (upsert data) else ret tt)
                   (mkCloud n' (bq s)) = (Ok tt, mkCloud n' b')).
    { destruct (is_empty data); cbn [negb].
      - subst b'. reflexivity.
      - unfold on_bq. cbn [net bq]. rewrite Hb. reflexivity. }
    rewrite E1.
    destruct (aux_loop aux_tables (mkCloud n' b') Hc) as (tl & w' & El & Honly).
    rewrite El. cbn [net bq] in *. eexists. split; [reflexivity|].
    cbn [net bq calls]. split; [reflexivity|].
    split; [apply prefix_app_r; reflexivity|].
    intros o Hin. rewrite new_calls_app in Hin.
    destruct (Honly _ o Hin) as (name & Hname & Heq).
    apply append_inj, append_inj in Heq. subst name.
    unfold aux_tables in Hname.
    repeat (apply elem_of_cons in Hname as [Hname|Hname];
            [discriminate Hname|]).
    apply elem_of_nil in Hname. contradiction.
Qed.

End DailyJobFacts.

Lemma aux_update_contained_witness :
  exists res s',
    DailyJob.update_aux_table aux_api "vmpay" ids_frame "locations" fresh_cloud
    = (res, s') /\
    res = Ok tt /\ bq s' = bq fresh_cloud.
Proof.
  destruct (aux_update_contained aux_api "vmpay" ids_frame "locations"
              fresh_cloud) as (res & s' & E & _ & _ & Hnone & _).
  exists res, s'. split; [exact E|]. apply Hnone. reflexivity.
Defined.

Lemma daily_job_outcomes_witness :
  exists s',
    DailyJob.main aux_api parse_one_date "vmpay" ids_frame 5 half_past_ten
      None fresh_cloud = (Ok tt, s') /\
    forall o,
      (GetTable ("vmpay" +:+ "." +:+ "cashless"), o)
        ∉ new_calls (bq fresh_cloud) (bq s').
Proof.
  destruct (proj2 (proj2 (daily_job_outcomes aux_api parse_one_date "vmpay"
                            ids_frame 5 half_past_ten None fresh_cloud))
              test_client_returns []
              (snd (primary_fetch aux_api parse_one_date 5 half_past_ten None
                      (net fresh_cloud)))
              (bq fresh_cloud))
    as (s' & E & _ & _ & Hno).
  - vm_compute. reflexivity.
  - reflexivity.
  - exists s'. split; [exact E | exact Hno].
Defined.

(** A day without cashless records, the API refusing the locations: the
    job returns, the cashless table is not touched, and the four other
    tables are loaded. *)
Example daily_job_trace :
  let run :=
    DailyJob.main aux_api parse_one_date "vmpay" ids_frame 5 half_past_ten
      None fresh_cloud in
  fst run = Ok tt /\
  map url (requests_of (trace (net (snd run))))
  = map (fun t => Fetch.BASE_URL +:+ "/" +:+ t) ("cashless_facts" :: aux_tables) /\
  omap (fun c => match fst c with GetTable t => Some t | _ => None end)
       (calls (bq (snd run)))
  = ["vmpay.categories"; "vmpay.clients"; "vmpay.manufacturers";
     "vmpay.products"].
Proof. vm_compute. repeat split. Qed.
